(** * indy_node/server/node.py: the node-level orchestration layer

    A shallow embedding of the methods of [Node] (a subclass of plenum's
    [Node]) that sequence ledger catch-up, announce upgrade progress to the
    peers, gate writes on the pool configuration and route batch callbacks.

    The methods are written in a small monad that threads the node's state,
    propagates Python exceptions and records, in order, every call the
    method makes to a collaborator (the upgrader, the wallet, the request
    handlers, the ledger manager, the base class ...).  The collaborators
    themselves live in other modules: they are a parameter of the
    development, each one an arbitrary state transformer that may raise. *)

From stdpp Require Import gmap strings list fin_maps.
From Stdlib Require Import ZArith.

Set Warnings "-register-all".
#[local] Open Scope Z_scope.

(** ** Python values *)

Inductive PyVal : Type :=
| PyNone
| PyBool (b : bool)
| PyInt (z : Z)
| PyStr (s : string)
| PyTuple (l : list PyVal)
| PyDict (d : gmap string PyVal).

(** [v == c] for a string constant [c]. *)
Definition py_eq_str (v : PyVal) (c : string) : bool :=
  match v with
  | PyStr s => bool_decide (s = c)
  | _ => false
  end.

(** [v in [c1, c2, ...]] for string constants. *)
Definition py_in_strs (v : PyVal) (cs : list string) : bool :=
  existsb (py_eq_str v) cs.

(** [v is not None] *)
Definition is_not_None (v : PyVal) : bool :=
  match v with
  | PyNone => false
  | _ => true
  end.

(** Truth value of [key] in [if key:], for a key that is a string or None. *)
Definition truthy_key (key : option string) : bool :=
  match key with
  | Some k => negb (bool_decide (k = EmptyString))
  | None => false
  end.

(** ** Exceptions *)

Inductive Exn : Type :=
| KeyError (k : PyVal)
| TypeError
| IndexError
| AttributeError
| InvalidClientRequest (identifier reqId : PyVal) (reason : string)
| OtherError (cls : string) (arg : PyVal).

Inductive Res (A : Type) : Type :=
| Ok (a : A)
| Raise (e : Exn).
Arguments Ok {A} a.
Arguments Raise {A} e.

(** ** Requests *)

(** Modelled from the spec: the class [Request] is defined in
    indy_common/types.py, outside node.py; the wire shape of section 6 of
    the spec gives its attributes: operation, signature, identifier,
    requestId and protocolVersion.  A keyword that the constructor is not
    given is None. *)
Record Request : Type := mkRequest {
  identifier : PyVal;
  reqId : PyVal;
  operation : gmap string PyVal;
  signature : PyVal;
  protocolVersion : PyVal
}.

(** [Request(operation=op, protocolVersion=pv)] *)
Definition Request_new (op : gmap string PyVal) (pv : PyVal) : Request :=
  {| identifier := PyNone; reqId := PyNone; operation := op;
     signature := PyNone; protocolVersion := pv |}.

(** ** Constants imported from plenum.common and indy_common *)

Class Constants : Type := {
  TXN_TYPE : string;
  DATA : string;
  ACTION : string;
  VERSION : string;
  RAW : string;
  ENC : string;
  OPERATION : string;
  f_SIG_nm : string;
  NODE_UPGRADE : string;
  POOL_UPGRADE : string;
  POOL_CONFIG : string;
  ATTRIB : string;
  COMPLETE : string;
  FAIL : string;
  IN_PROGRESS : string;
  CONFIG_LEDGER_ID : Z
}.

(** ** Calls to collaborators, as they appear in a trace *)

(** The ledgers of the catch-up sequence (section 3 of the spec). *)
Inductive LedgerId : Type := Pool | Config | Domain.

Inductive Call : Type :=
| event_ledger_synced (ledger : LedgerId)
| call_upgrader_should_notify_about_upgrade_result
| call_upgrader_notified_about_upgrade_result
| call_upgrader_processLedger
| call_poolCfg_processLedger
| call_poolCfg_isWritable
| call_wallet_signMsg (msg : PyVal)
| call_wallet_signRequest (r : Request)
| call_startedProcessingReq (args : list PyVal)
| call_isProcessingReq (args : list PyVal)
| call_recordAndPropagate (r : Request) (frm : string)
| call_send (r : Request)
| call_is_query (txn_type : PyVal)
| call_process_query (r : Request) (frm : string)
| call_super_processRequest (r : Request) (frm : string)
| call_sync_ledger (ledgerId : Z)
| call_ledgerManager_processStashedLedgerStatuses (ledgerId : Z)
| call_start_domain_ledger_sync
| call_nodeAuthNr_authenticate (data ident sig : PyVal)
| call_configReqHandler_validate (r : Request)
| call_configReqHandler_applyForced (r : Request)
| call_configReqHandler_onBatchCreated (stateRoot : PyVal)
| call_configReqHandler_onBatchRejected
| call_super_onBatchCreated (ledgerId : Z) (stateRoot : PyVal)
| call_super_onBatchRejected (ledgerId : Z)
| call_super_postRecvTxnFromCatchup (ledgerId : Z) (txn : PyVal)
| call_super_authNr (req : gmap string PyVal)
| call_attributeStore_get (key : PyVal)
| call_logger_info (action version : PyVal)
| call_logger_warning (r : Request) (ex : Exn).

(** ** The collaborators

    [W] is the state of everything the node talks to.  A method of a
    collaborator takes the state to a result (a value or an exception) and
    a new state; an attribute is read off the state. *)

Record Collaborators {W : Type} : Type := {
  (* self.upgrader *)
  upgrader_should_notify_about_upgrade_result : W -> Res bool * W;
  upgrader_notified_about_upgrade_result : W -> Res unit * W;
  upgrader_processLedger : W -> Res unit * W;
  upgrader_lastUpgradeEventInfo : W -> option (list PyVal);
  upgrader_didLastExecutedUpgradeSucceeded : W -> bool;
  upgrader_scheduledUpgrade : W -> option (list PyVal);
  (* self.poolCfg *)
  poolCfg_processLedger : W -> Res unit * W;
  poolCfg_isWritable : W -> Res bool * W;
  (* self.wallet, self.nodestack *)
  wallet_signMsg : PyVal -> W -> Res PyVal * W;
  wallet_signRequest : Request -> W -> Res Request * W;
  nodestack_name : W -> string;
  (* self.nodeAuthNr *)
  nodeAuthNr_authenticate : PyVal -> PyVal -> PyVal -> W -> Res PyVal * W;
  (* self.configReqHandler *)
  configReqHandler_validate : Request -> W -> Res unit * W;
  configReqHandler_applyForced : Request -> W -> Res unit * W;
  configReqHandler_onBatchCreated : PyVal -> W -> Res unit * W;
  configReqHandler_onBatchRejected : W -> Res unit * W;
  (* self.ledgerManager *)
  ledgerManager_processStashedLedgerStatuses : Z -> W -> Res unit * W;
  (* methods inherited from plenum's Node *)
  PlenumNode_startedProcessingReq : list PyVal -> W -> Res unit * W;
  PlenumNode_isProcessingReq : list PyVal -> W -> Res bool * W;
  PlenumNode_recordAndPropagate : Request -> string -> W -> Res unit * W;
  PlenumNode_send : Request -> W -> Res unit * W;
  PlenumNode_is_query : PyVal -> W -> Res bool * W;
  PlenumNode_process_query : Request -> string -> W -> Res unit * W;
  PlenumNode_processRequest : Request -> string -> W -> Res unit * W;
  PlenumNode_sync_ledger : Z -> W -> Res unit * W;
  PlenumNode_start_domain_ledger_sync : W -> Res unit * W;
  PlenumNode_onBatchCreated : Z -> PyVal -> W -> Res unit * W;
  PlenumNode_onBatchRejected : Z -> W -> Res unit * W;
  PlenumNode_postRecvTxnFromCatchup : Z -> PyVal -> W -> Res PyVal * W;
  PlenumNode_authNr : gmap string PyVal -> W -> Res PyVal * W;
  (* the class Request *)
  Request_key : Request -> list PyVal;
  Request_isForced : Request -> bool
}.
Arguments Collaborators W : clear implicits.

(** ** The node and its monad *)

(** Modelled from the spec: the class [AttributeStore] is defined in
    indy_node/persistence/attribute_store.py, outside node.py.  The
    secondary attribute store maps the hash recorded on the ledger to the
    value ([get(hash) -> value | absent], section 6 of the spec); a hash it
    does not hold is signalled to the caller as an error (section 3: a miss
    fails loudly), here the KeyError of the key-value storage. *)
Definition AttributeStore : Type := PyVal -> option PyVal.

Definition AttributeStore_get (store : AttributeStore) (key : PyVal) : Res PyVal :=
  match store key with
  | Some val => Ok val
  | None => Raise (KeyError key)
  end.

Record Node (W : Type) : Type := mkNode {
  world : W;
  total_read_request_number : Z;
  attributeStore : AttributeStore
}.
Arguments mkNode {W} _ _ _.
Arguments world {W} _.
Arguments total_read_request_number {W} _.
Arguments attributeStore {W} _.

(** A method takes the node to a result, the node after the call and the
    calls it made to collaborators, oldest first. *)
Definition M (W A : Type) : Type := Node W -> Res A * Node W * list Call.

Definition ret {W A} (a : A) : M W A := fun s => (Ok a, s, []).

Definition raise {W A} (e : Exn) : M W A := fun s => (Raise e, s, []).

Definition bind {W A B} (m : M W A) (k : A -> M W B) : M W B := fun s =>
  match m s with
  | (Ok a, s1, t1) => let '(r, s2, t2) := k a s1 in (r, s2, t1 ++ t2)
  | (Raise e, s1, t1) => (Raise e, s1, t1)
  end.

(** [try: m except BaseException as ex: h ex]: the effects of [m] up to the
    exception are kept. *)
Definition try_except {W A} (m : M W A) (h : Exn -> M W A) : M W A := fun s =>
  match m s with
  | (Ok a, s1, t1) => (Ok a, s1, t1)
  | (Raise e, s1, t1) => let '(r, s2, t2) := h e s1 in (r, s2, t1 ++ t2)
  end.

(** A call to a method of a collaborator: recorded, then run. *)
Definition call {W A} (c : Call) (h : W -> Res A * W) : M W A := fun s =>
  let '(r, w') := h (world s) in
  (r, mkNode w' (total_read_request_number s) (attributeStore s), [c]).

(** Reading an attribute of a collaborator. *)
Definition attr {W A} (g : W -> A) : M W A := fun s => (Ok (g (world s)), s, []).

(** The logger: recorded, no other effect. *)
Definition log {W} (c : Call) : M W unit := fun s => (Ok tt, s, [c]).

Definition lift {W A} (r : Res A) : M W A := fun s => (r, s, []).

Notation "x <- m ;; k" := (bind m (fun x => k))
  (at level 100, m at next level, right associativity).
Notation "m ;;; k" := (bind m (fun _ => k))
  (at level 100, right associativity).

(** [d[k]] *)
Definition getitem (d : gmap string PyVal) (k : string) : Res PyVal :=
  match d !! k with
  | Some v => Ok v
  | None => Raise (KeyError (PyStr k))
  end.

(** [t[i]] for [t] a tuple or None. *)
Definition index (t : option (list PyVal)) (i : nat) : Res PyVal :=
  match t with
  | None => Raise TypeError
  | Some l => match l !! i with
              | Some v => Ok v
              | None => Raise IndexError
              end
  end.

(** [v.get(k)] and [v.get(k, {})] *)
Definition dict_get (v : PyVal) (k : string) (dflt : PyVal) : Res PyVal :=
  match v with
  | PyDict d => Ok (default dflt (d !! k))
  | _ => Raise AttributeError
  end.

(** [self.total_read_request_number += 1] *)
Definition incr_total_read_request_number {W} : M W unit := fun s =>
  (Ok tt,
   mkNode (world s) (total_read_request_number s + 1) (attributeStore s),
   []).

(** [self.attributeStore.get(key)] *)
Definition attributeStore_get {W} (key : PyVal) : M W PyVal := fun s =>
  (AttributeStore_get (attributeStore s) key, s, [call_attributeStore_get key]).

(** What [authNr] returns: the node's own authenticator for peers, or
    whatever the base class selects. *)
Inductive AuthNr : Type :=
| nodeAuthNr
| super_authNr (a : PyVal).

(** ** Methods of [Node] *)

Section NodeMethods.
Context {W : Type} (E : Collaborators W) `{Constants}.

Definition onBatchCreated (ledgerId : Z) (stateRoot : PyVal) : M W unit :=
  if ledgerId =? CONFIG_LEDGER_ID then
    call (call_configReqHandler_onBatchCreated stateRoot)
         (configReqHandler_onBatchCreated E stateRoot)
  else
    call (call_super_onBatchCreated ledgerId stateRoot)
         (PlenumNode_onBatchCreated E ledgerId stateRoot).

Definition onBatchRejected (ledgerId : Z) : M W unit :=
  if ledgerId =? CONFIG_LEDGER_ID then
    call call_configReqHandler_onBatchRejected
         (configReqHandler_onBatchRejected E)
  else
    call (call_super_onBatchRejected ledgerId)
         (PlenumNode_onBatchRejected E ledgerId).

Definition postRecvTxnFromCatchup (ledgerId : Z) (txn : PyVal) : M W PyVal :=
  if ledgerId =? CONFIG_LEDGER_ID then
    (* Since no config ledger transactions are applied to the state *)
    ret PyNone
  else
    call (call_super_postRecvTxnFromCatchup ledgerId txn)
         (PlenumNode_postRecvTxnFromCatchup E ledgerId txn).

Definition start_config_ledger_sync : M W unit :=
  call (call_sync_ledger CONFIG_LEDGER_ID)
       (PlenumNode_sync_ledger E CONFIG_LEDGER_ID) ;;;
  call (call_ledgerManager_processStashedLedgerStatuses CONFIG_LEDGER_ID)
       (ledgerManager_processStashedLedgerStatuses E CONFIG_LEDGER_ID).

Definition catchup_next_ledger_after_pool : M W unit :=
  start_config_ledger_sync.

Definition acknowledge_upgrade : M W unit :=
  notify <- call call_upgrader_should_notify_about_upgrade_result
                 (upgrader_should_notify_about_upgrade_result E) ;;
  if negb notify then ret tt else
  info <- attr (upgrader_lastUpgradeEventInfo E) ;;
  lastUpgradeVersion <- lift (index info 2) ;;
  succeeded <- attr (upgrader_didLastExecutedUpgradeSucceeded E) ;;
  let action := PyStr (if succeeded then COMPLETE else FAIL) in
  log (call_logger_info action lastUpgradeVersion) ;;;
  let op : gmap string PyVal :=
    <[DATA := PyDict (<[VERSION := lastUpgradeVersion]> (<[ACTION := action]> ∅))]>
      (<[TXN_TYPE := PyStr NODE_UPGRADE]> ∅) in
  data <- lift (getitem op DATA) ;;
  sig <- call (call_wallet_signMsg data) (wallet_signMsg E data) ;;
  let op := <[f_SIG_nm := sig]> op in
  (* do not send protocol version before all Nodes support it after Upgrade *)
  request <- call (call_wallet_signRequest (Request_new op PyNone))
                  (wallet_signRequest E (Request_new op PyNone)) ;;
  name <- attr (nodestack_name E) ;;
  call (call_startedProcessingReq (Request_key E request ++ [PyStr name]))
       (PlenumNode_startedProcessingReq E (Request_key E request ++ [PyStr name])) ;;;
  call (call_send request) (PlenumNode_send E request) ;;;
  call call_upgrader_notified_about_upgrade_result
       (upgrader_notified_about_upgrade_result E).

Definition notify_upgrade_start : M W unit :=
  scheduled <- attr (upgrader_scheduledUpgrade E) ;;
  scheduled_upgrade_version <- lift (index scheduled 0) ;;
  let action := PyStr IN_PROGRESS in
  log (call_logger_info action scheduled_upgrade_version) ;;;
  let op : gmap string PyVal :=
    <[DATA := PyDict (<[VERSION := scheduled_upgrade_version]> (<[ACTION := action]> ∅))]>
      (<[TXN_TYPE := PyStr NODE_UPGRADE]> ∅) in
  data <- lift (getitem op DATA) ;;
  sig <- call (call_wallet_signMsg data) (wallet_signMsg E data) ;;
  let op := <[f_SIG_nm := sig]> op in
  (* do not send protocol version before all Nodes support it after Upgrade *)
  request <- call (call_wallet_signRequest (Request_new op PyNone))
                  (wallet_signRequest E (Request_new op PyNone)) ;;
  name <- attr (nodestack_name E) ;;
  call (call_startedProcessingReq (Request_key E request ++ [PyStr name]))
       (PlenumNode_startedProcessingReq E (Request_key E request ++ [PyStr name])) ;;;
  call (call_send request) (PlenumNode_send E request).

Definition postConfigLedgerCaughtUp : M W unit :=
  call call_poolCfg_processLedger (poolCfg_processLedger E) ;;;
  call call_upgrader_processLedger (upgrader_processLedger E) ;;;
  call call_start_domain_ledger_sync (PlenumNode_start_domain_ledger_sync E) ;;;
  acknowledge_upgrade.

(** The [return] of the except clause leaves the method: the try statement
    yields whether the method goes on. *)
Definition processNodeRequest (request : Request) (frm : string) : M W unit :=
  txn_type <- lift (getitem (operation request) TXN_TYPE) ;;
  go_on <-
    (if py_eq_str txn_type NODE_UPGRADE then
       try_except
         (data <- lift (getitem (operation request) DATA) ;;
          sig <- lift (getitem (operation request) f_SIG_nm) ;;
          call (call_nodeAuthNr_authenticate data (identifier request) sig)
               (nodeAuthNr_authenticate E data (identifier request) sig) ;;;
          ret true)
         (fun ex => log (call_logger_warning request ex) ;;; ret false)
     else ret true) ;;
  if go_on then
    processing <- call (call_isProcessingReq (Request_key E request))
                       (PlenumNode_isProcessingReq E (Request_key E request)) ;;
    (if negb processing then
       call (call_startedProcessingReq (Request_key E request ++ [PyStr frm]))
            (PlenumNode_startedProcessingReq E (Request_key E request ++ [PyStr frm]))
     else ret tt) ;;;
    (* If not already got the propagate request(PROPAGATE) for the
       corresponding client request(REQUEST) *)
    call (call_recordAndPropagate request frm)
         (PlenumNode_recordAndPropagate E request frm)
  else ret tt.

Definition authNr (req : gmap string PyVal) : M W AuthNr :=
  op <- lift (dict_get (PyDict req) OPERATION (PyDict ∅)) ;;
  txn_type <- lift (dict_get op TXN_TYPE PyNone) ;;
  if py_eq_str txn_type NODE_UPGRADE then ret nodeAuthNr
  else
    a <- call (call_super_authNr req) (PlenumNode_authNr E req) ;;
    ret (super_authNr a).

Definition processRequest (request : Request) (frm : string) : M W unit :=
  txn_type <- lift (getitem (operation request) TXN_TYPE) ;;
  query <- call (call_is_query txn_type) (PlenumNode_is_query E txn_type) ;;
  if query then
    call (call_process_query request frm)
         (PlenumNode_process_query E request frm) ;;;
    incr_total_read_request_number
  else
    (* forced request should be processed before consensus *)
    txn_type <- lift (getitem (operation request) TXN_TYPE) ;;
    (if py_in_strs txn_type [POOL_UPGRADE; POOL_CONFIG]
        && Request_isForced E request then
       call (call_configReqHandler_validate request)
            (configReqHandler_validate E request) ;;;
       call (call_configReqHandler_applyForced request)
            (configReqHandler_applyForced E request)
     else ret tt) ;;;
    (* here we should have write transactions that should be processed
       only on writable pool *)
    writable <- call call_poolCfg_isWritable (poolCfg_isWritable E) ;;
    accepted <-
      (if writable then ret true
       else
         txn_type <- lift (getitem (operation request) TXN_TYPE) ;;
         ret (py_in_strs txn_type [POOL_UPGRADE; POOL_CONFIG])) ;;
    if accepted then
      call (call_super_processRequest request frm)
           (PlenumNode_processRequest E request frm)
    else
      raise (InvalidClientRequest (identifier request) (reqId request)
               "Pool is in readonly mode, try again in 60 seconds").

(** [k in txn and txn[k] is not None] *)
Definition present_and_not_None (txn : gmap string PyVal) (k : string) : bool :=
  match txn !! k with
  | Some v => is_not_None v
  | None => false
  end.

Definition update_txn_with_extra_data (txn : gmap string PyVal)
  : M W (gmap string PyVal) :=
  txn_type <- lift (getitem txn TXN_TYPE) ;;
  (* For RAW and ENC attributes, only hash is stored in the ledger. *)
  if py_eq_str txn_type ATTRIB then
    (* The key needs to be present and not None *)
    let key := if present_and_not_None txn RAW then Some RAW
               else if present_and_not_None txn ENC then Some ENC
               else None in
    if truthy_key key then
      match key with
      | Some k =>
          hash <- lift (getitem txn k) ;;
          val <- attributeStore_get hash ;;
          ret (<[k := val]> txn)
      | None => ret txn
      end
    else ret txn
  else ret txn.

(** Modelled from the spec: the sync subsystem that reports a synced ledger
    (plenum's ledger manager and base node) is outside node.py.  Section
    4.1 of the spec: the node reacts to the pool ledger with
    [catchup_next_ledger_after_pool], to the config ledger with
    [postConfigLedgerCaughtUp] (the callback [__init__] registers with
    [addLedger]), and to the domain ledger with no further chaining.  The
    report itself is recorded in the trace. *)
Definition onLedgerSynced (ledger : LedgerId) : M W unit :=
  log (event_ledger_synced ledger) ;;;
  match ledger with
  | Pool => catchup_next_ledger_after_pool
  | Config => postConfigLedgerCaughtUp
  | Domain => ret tt
  end.

(** The reports of a catch-up round, in the order they arrive; an exception
    ends the round. *)
Fixpoint catch_up (reports : list LedgerId) : M W unit :=
  match reports with
  | [] => ret tt
  | ledger :: rest => onLedgerSynced ledger ;;; catch_up rest
  end.

End NodeMethods.

(** ** Reading the outcome of a run *)

Definition result_of {W A} (x : Res A * Node W * list Call) : Res A := x.1.1.
Definition node_of {W A} (x : Res A * Node W * list Call) : Node W := x.1.2.
Definition trace_of {W A} (x : Res A * Node W * list Call) : list Call := x.2.

(** The node [s] once the collaborators have reached state [w]. *)
Definition with_world {W} (s : Node W) (w : W) : Node W :=
  mkNode w (total_read_request_number s) (attributeStore s).

(** ** Properties of traces *)

(** The upgrader is told that the peers were notified only after a send. *)
Fixpoint notified_only_after_send (sent : bool) (t : list Call) : bool :=
  match t with
  | [] => true
  | call_send _ :: t' => notified_only_after_send true t'
  | call_upgrader_notified_about_upgrade_result :: t' =>
      sent && notified_only_after_send sent t'
  | _ :: t' => notified_only_after_send sent t'
  end.

(** [{ACTION: action, VERSION: version}], the DATA of an upgrade message. *)
Definition upgrade_data `{Constants} (action version : PyVal)
  : gmap string PyVal :=
  <[VERSION := version]> (<[ACTION := action]> ∅).

(** [{TXN_TYPE: NODE_UPGRADE, DATA: {ACTION: action, VERSION: version}}]
    once [sig] is stored under [f.SIG.nm]. *)
Definition upgrade_op `{Constants} (action version sig : PyVal)
  : gmap string PyVal :=
  <[f_SIG_nm := sig]>
    (<[DATA := PyDict (upgrade_data action version)]>
       (<[TXN_TYPE := PyStr NODE_UPGRADE]> ∅)).

(** How many calls of a trace satisfy [p]. *)
Definition count (p : Call -> bool) (t : list Call) : nat :=
  length (List.filter p t).

Definition is_send (c : Call) : bool :=
  match c with call_send _ => true | _ => false end.

Definition is_super_processRequest (c : Call) : bool :=
  match c with call_super_processRequest _ _ => true | _ => false end.

Definition is_applyForced (c : Call) : bool :=
  match c with call_configReqHandler_applyForced _ => true | _ => false end.

Definition is_isWritable (c : Call) : bool :=
  match c with call_poolCfg_isWritable => true | _ => false end.

(** [request.operation[TXN_TYPE] in [POOL_UPGRADE, POOL_CONFIG]] *)
Definition governance `{Constants} (txn_type : PyVal) : bool :=
  py_in_strs txn_type [POOL_UPGRADE; POOL_CONFIG].

Definition readonly_reason : string :=
  "Pool is in readonly mode, try again in 60 seconds".

(** Config sync is started only once the pool ledger was reported synced,
    domain sync only once the config ledger was. *)
Fixpoint sequenced `{Constants} (pool_synced config_synced : bool)
    (t : list Call) : bool :=
  match t with
  | [] => true
  | event_ledger_synced Pool :: t' => sequenced true config_synced t'
  | event_ledger_synced Config :: t' => sequenced pool_synced true t'
  | call_sync_ledger ledgerId :: t' =>
      (if ledgerId =? CONFIG_LEDGER_ID then pool_synced else true)
      && sequenced pool_synced config_synced t'
  | call_start_domain_ledger_sync :: t' =>
      config_synced && sequenced pool_synced config_synced t'
  | _ :: t' => sequenced pool_synced config_synced t'
  end.

(** ** A pool to run the methods on

    Values for the constants, and collaborators that keep just enough
    state to answer: whether an upgrade result is
    still to be announced, whether the pool is writable, whether the config
    request handler accepts the request, whether the node authenticator
    does, and whether the request is already being processed. *)

#[export] Instance indy_constants : Constants := {|
  TXN_TYPE := "type";
  DATA := "data";
  ACTION := "action";
  VERSION := "version";
  RAW := "raw";
  ENC := "enc";
  OPERATION := "operation";
  f_SIG_nm := "signature";
  NODE_UPGRADE := "110";
  POOL_UPGRADE := "109";
  POOL_CONFIG := "111";
  ATTRIB := "100";
  COMPLETE := "complete";
  FAIL := "fail";
  IN_PROGRESS := "in_progress";
  CONFIG_LEDGER_ID := 2
|}.

Record Sim : Type := mkSim {
  sim_pending : bool;
  sim_succeeded : bool;
  sim_writable : bool;
  sim_valid : bool;
  sim_authentic : bool;
  sim_processing : bool
}.

Definition sim_sign (r : Request) : Request :=
  {| identifier := PyStr "Node1"; reqId := PyInt 1; operation := operation r;
     signature := PyStr "sig(request)"; protocolVersion := protocolVersion r |}.

Definition sim : Collaborators Sim := {|
  upgrader_should_notify_about_upgrade_result := fun w => (Ok (sim_pending w), w);
  upgrader_notified_about_upgrade_result := fun w =>
    (Ok tt, mkSim false (sim_succeeded w) (sim_writable w) (sim_valid w)
                  (sim_authentic w) (sim_processing w));
  upgrader_processLedger := fun w => (Ok tt, w);
  upgrader_lastUpgradeEventInfo := fun w =>
    Some [PyStr "started"; PyStr "2018-01-01"; PyStr "1.2.0"];
  upgrader_didLastExecutedUpgradeSucceeded := sim_succeeded;
  upgrader_scheduledUpgrade := fun w => Some [PyStr "1.2.0"; PyStr "2018-01-01"];
  poolCfg_processLedger := fun w => (Ok tt, w);
  poolCfg_isWritable := fun w => (Ok (sim_writable w), w);
  wallet_signMsg := fun msg w => (Ok (PyStr "sig(data)"), w);
  wallet_signRequest := fun r w => (Ok (sim_sign r), w);
  nodestack_name := fun w => "Node1"%string;
  nodeAuthNr_authenticate := fun data ident sig w =>
    if sim_authentic w then (Ok ident, w)
    else (Raise (OtherError "InvalidSignature" ident), w);
  configReqHandler_validate := fun r w =>
    if sim_valid w then (Ok tt, w)
    else (Raise (OtherError "UnauthorizedClientRequest" (identifier r)), w);
  configReqHandler_applyForced := fun r w => (Ok tt, w);
  configReqHandler_onBatchCreated := fun stateRoot w => (Ok tt, w);
  configReqHandler_onBatchRejected := fun w => (Ok tt, w);
  ledgerManager_processStashedLedgerStatuses := fun ledgerId w => (Ok tt, w);
  PlenumNode_startedProcessingReq := fun args w =>
    (Ok tt, mkSim (sim_pending w) (sim_succeeded w) (sim_writable w) (sim_valid w)
                  (sim_authentic w) true);
  PlenumNode_isProcessingReq := fun args w => (Ok (sim_processing w), w);
  PlenumNode_recordAndPropagate := fun r frm w => (Ok tt, w);
  PlenumNode_send := fun r w => (Ok tt, w);
  PlenumNode_is_query := fun txn_type w => (Ok (py_in_strs txn_type ["105"; "104"]%string), w);
  PlenumNode_process_query := fun r frm w => (Ok tt, w);
  PlenumNode_processRequest := fun r frm w => (Ok tt, w);
  PlenumNode_sync_ledger := fun ledgerId w => (Ok tt, w);
  PlenumNode_start_domain_ledger_sync := fun w => (Ok tt, w);
  PlenumNode_onBatchCreated := fun ledgerId stateRoot w => (Ok tt, w);
  PlenumNode_onBatchRejected := fun ledgerId w => (Ok tt, w);
  PlenumNode_postRecvTxnFromCatchup := fun ledgerId txn w => (Ok txn, w);
  PlenumNode_authNr := fun req w => (Ok (PyStr "clientAuthNr"), w);
  Request_key := fun r => [identifier r; reqId r];
  Request_isForced := fun r =>
    match operation r !! "force"%string with
    | Some (PyBool true) => true
    | _ => false
    end
|}.

Definition sim_store : AttributeStore := fun key =>
  match key with
  | PyStr "6d4a33"%string => Some (PyStr "Alice")
  | _ => None
  end.

Definition sim_node (w : Sim) : Node Sim := mkNode w 0 sim_store.

(** A pool that is writable, with an upgrade result to announce. *)
Definition sim0 : Sim := mkSim true true true true true false.

(** A pool in readonly mode. *)
Definition sim_readonly : Sim := mkSim false true false true true false.

(** The message a peer sends after its upgrade, and the message as the
    node stack delivers it to [authNr]. *)
Definition sim_upgrade_request : Request :=
  sim_sign (Request_new
              (upgrade_op (PyStr "complete") (PyStr "1.2.0") (PyStr "sig(data)"))
              PyNone).

Definition sim_upgrade_msg : gmap string PyVal :=
  <["operation"%string := PyDict (operation sim_upgrade_request)]>
    (<["identifier"%string := PyStr "Node1"]>
       (<["reqId"%string := PyInt 1]> ∅)).

(** A pool whose node authenticator rejects the message. *)
Definition sim_forged : Sim := mkSim false true true true false false.

(** An ATTRIB transaction as the ledger holds it, with the hash of the raw
    value. *)
Definition sim_attrib (hash : string) : gmap string PyVal :=
  <["raw"%string := PyStr hash]>
    (<["dest"%string := PyStr "did:1"]> (<["type"%string := PyStr "100"]> ∅)).

(** A client request of the given type, forced or not. *)
Definition sim_request (txn_type : string) (forced : bool) : Request :=
  {| identifier := PyStr "client"; reqId := PyInt 7;
     operation := <["force"%string := PyBool forced]>
                    (<["type"%string := PyStr txn_type]> ∅);
     signature := PyStr "sig(client)"; protocolVersion := PyInt 1 |}.

(** ** More properties of traces *)

(** Every call that satisfies [q] comes after a call that satisfies [p];
    [seen] tells whether such a call was made before the trace starts. *)
Fixpoint preceded (p q : Call -> bool) (seen : bool) (t : list Call) : bool :=
  match t with
  | [] => true
  | x :: t' => (negb (q x) || seen) && preceded p q (seen || p x) t'
  end.

Definition is_authenticate (c : Call) : bool :=
  match c with call_nodeAuthNr_authenticate _ _ _ => true | _ => false end.

Definition is_recordAndPropagate (c : Call) : bool :=
  match c with call_recordAndPropagate _ _ => true | _ => false end.

Definition is_startedProcessingReq (c : Call) : bool :=
  match c with call_startedProcessingReq _ => true | _ => false end.

Definition is_logger_warning (c : Call) : bool :=
  match c with call_logger_warning _ _ => true | _ => false end.

Definition is_validate (c : Call) : bool :=
  match c with call_configReqHandler_validate _ => true | _ => false end.

Definition is_process_query (c : Call) : bool :=
  match c with call_process_query _ _ => true | _ => false end.

Definition is_should_notify (c : Call) : bool :=
  match c with
  | call_upgrader_should_notify_about_upgrade_result => true
  | _ => false
  end.

Definition is_notified (c : Call) : bool :=
  match c with
  | call_upgrader_notified_about_upgrade_result => true
  | _ => false
  end.

Definition is_poolCfg_processLedger (c : Call) : bool :=
  match c with call_poolCfg_processLedger => true | _ => false end.

Definition is_upgrader_processLedger (c : Call) : bool :=
  match c with call_upgrader_processLedger => true | _ => false end.

Definition is_start_domain_ledger_sync (c : Call) : bool :=
  match c with call_start_domain_ledger_sync => true | _ => false end.

Definition is_attributeStore_get (c : Call) : bool :=
  match c with call_attributeStore_get _ => true | _ => false end.

(** The pool of the examples with another upgrade log, another schedule
    and another way to send. *)
Definition sim_with (info scheduled : option (list PyVal))
    (send : Request -> Sim -> Res unit * Sim) : Collaborators Sim := {|
  upgrader_should_notify_about_upgrade_result :=
    upgrader_should_notify_about_upgrade_result sim;
  upgrader_notified_about_upgrade_result :=
    upgrader_notified_about_upgrade_result sim;
  upgrader_processLedger := upgrader_processLedger sim;
  upgrader_lastUpgradeEventInfo := fun w => info;
  upgrader_didLastExecutedUpgradeSucceeded :=
    upgrader_didLastExecutedUpgradeSucceeded sim;
  upgrader_scheduledUpgrade := fun w => scheduled;
  poolCfg_processLedger := poolCfg_processLedger sim;
  poolCfg_isWritable := poolCfg_isWritable sim;
  wallet_signMsg := wallet_signMsg sim;
  wallet_signRequest := wallet_signRequest sim;
  nodestack_name := nodestack_name sim;
  nodeAuthNr_authenticate := nodeAuthNr_authenticate sim;
  configReqHandler_validate := configReqHandler_validate sim;
  configReqHandler_applyForced := configReqHandler_applyForced sim;
  configReqHandler_onBatchCreated := configReqHandler_onBatchCreated sim;
  configReqHandler_onBatchRejected := configReqHandler_onBatchRejected sim;
  ledgerManager_processStashedLedgerStatuses :=
    ledgerManager_processStashedLedgerStatuses sim;
  PlenumNode_startedProcessingReq := PlenumNode_startedProcessingReq sim;
  PlenumNode_isProcessingReq := PlenumNode_isProcessingReq sim;
  PlenumNode_recordAndPropagate := PlenumNode_recordAndPropagate sim;
  PlenumNode_send := send;
  PlenumNode_is_query := PlenumNode_is_query sim;
  PlenumNode_process_query := PlenumNode_process_query sim;
  PlenumNode_processRequest := PlenumNode_processRequest sim;
  PlenumNode_sync_ledger := PlenumNode_sync_ledger sim;
  PlenumNode_start_domain_ledger_sync := PlenumNode_start_domain_ledger_sync sim;
  PlenumNode_onBatchCreated := PlenumNode_onBatchCreated sim;
  PlenumNode_onBatchRejected := PlenumNode_onBatchRejected sim;
  PlenumNode_postRecvTxnFromCatchup := PlenumNode_postRecvTxnFromCatchup sim;
  PlenumNode_authNr := PlenumNode_authNr sim;
  Request_key := Request_key sim;
  Request_isForced := Request_isForced sim
|}.

(** A node stack that cannot send. *)
Definition sim_send_fails (r : Request) (w : Sim) : Res unit * Sim :=
  (Raise (OtherError "RemoteNotFound" PyNone), w).

Definition is_super_authNr (c : Call) : bool :=
  match c with call_super_authNr _ => true | _ => false end.

Definition is_sync_ledger (c : Call) : bool :=
  match c with call_sync_ledger _ => true | _ => false end.

Definition is_processStashedLedgerStatuses (c : Call) : bool :=
  match c with
  | call_ledgerManager_processStashedLedgerStatuses _ => true
  | _ => false
  end.

(** A message from a peer that is not an upgrade message, and one whose
    operation is not a dict. *)
Definition sim_other_msg : gmap string PyVal :=
  <["operation"%string := PyDict (operation (sim_request "1" false))]>
    (<["identifier"%string := PyStr "client"]> ∅).

Definition sim_malformed_msg : gmap string PyVal :=
  <["operation"%string := PyStr "110"]> ∅.

(** An ATTRIB transaction with both a raw and an encrypted hash. *)
Definition sim_attrib_both : gmap string PyVal :=
  <["enc"%string := PyStr "ffff"]> (sim_attrib "6d4a33").

(** ** The node's stores, ledger statuses and messages from peers

    The methods that follow use attributes of the node and collaborators
    that the methods above do not touch: the lazily created identifier
    cache and attribute store, the ledger registry, the class of client
    requests.  They are written in the same style, over their own state and
    their own calls. *)

(** An object the node holds a reference to. *)
Inductive Obj : Type := object (address : nat).

(** Modelled from the spec: the enum [LedgerState] is defined in
    plenum.common.constants, outside node.py, which only names
    [LedgerState.synced]; section 3 of the spec gives its three values. *)
Inductive LedgerState : Type := not_synced | syncing | synced.

Definition LedgerState_eqb (a b : LedgerState) : bool :=
  match a, b with
  | not_synced, not_synced | syncing, syncing | synced, synced => true
  | _, _ => false
  end.

(** More constants imported from plenum.common. *)
Class MessageConstants : Type := {
  f_IDENTIFIER_nm : string;
  f_REQ_ID_nm : string;
  DOMAIN_LEDGER_ID : Z
}.

Inductive Event : Type :=
| ev_initKeyValueStorage (storage_type dataLocation dbName : PyVal)
| ev_IdrCache (name : PyVal) (storage : Obj)
| ev_AttributeStore (storage : Obj)
| ev_DomainReqHandler (domainLedger state config reqProcessors : Obj)
    (idrCache attributeStore : option Obj) (bls_store : Obj)
| ev_super_closeAllKVStores
| ev_idrCache_close (cache : Obj)
| ev_attributeStore_close (store : Obj)
| ev_super_send_ledger_status_to_newly_connected_node (node_name : string)
| ev_sendLedgerStatus (nodeName : string) (ledgerId : Z)
| ev_client_request_class (msg : gmap string PyVal)
| ev_super_validateNodeMsg (msg : gmap string PyVal) (frm : string).

(** What these methods read and call.  Attributes are read off the state
    [W]; functions, constructors and methods take it to a result and a new
    state. *)
Record Services {W : Type} : Type := {
  (* attributes of the node and of its config *)
  self_name : W -> PyVal;
  self_dataLocation : W -> PyVal;
  config_idrCacheStorage : W -> PyVal;
  config_idrCacheDbName : W -> PyVal;
  config_attrStorage : W -> PyVal;
  config_attrDbName : W -> PyVal;
  self_domainLedger : W -> Obj;
  self_states : W -> gmap Z Obj;
  self_config : W -> Obj;
  self_reqProcessors : W -> Obj;
  bls_bft_bls_store : W -> Obj;
  (* self.ledgerManager.ledgerRegistry[ledgerId].state *)
  ledgerRegistry_state : W -> gmap Z LedgerState;
  (* bool(obj), as [if obj:] asks *)
  object_truth : Obj -> W -> bool;
  (* functions and constructors *)
  initKeyValueStorage : PyVal -> PyVal -> PyVal -> W -> Res Obj * W;
  IdrCache : PyVal -> Obj -> W -> Res Obj * W;
  AttributeStore_new : Obj -> W -> Res Obj * W;
  DomainReqHandler :
    Obj -> Obj -> Obj -> Obj -> option Obj -> option Obj -> Obj ->
    W -> Res Obj * W;
  client_request_class : gmap string PyVal -> W -> Res Request * W;
  (* methods of the stores *)
  IdrCache_close : Obj -> W -> Res unit * W;
  AttributeStore_close : Obj -> W -> Res unit * W;
  (* methods inherited from plenum's Node *)
  PlenumNode_closeAllKVStores : W -> Res unit * W;
  PlenumNode_send_ledger_status_to_newly_connected_node :
    string -> W -> Res unit * W;
  PlenumNode_sendLedgerStatus : string -> Z -> W -> Res unit * W;
  PlenumNode_validateNodeMsg :
    gmap string PyVal -> string -> W -> Res PyVal * W
}.
Arguments Services W : clear implicits.

(** The node as these methods see it: [self.idrCache] and
    [self.attributeStore] are None until the store is created. *)
Record Stores (W : Type) : Type := mkStores {
  services : W;
  idrCache : option Obj;
  attributeStore_ref : option Obj
}.
Arguments mkStores {W} _ _ _.
Arguments services {W} _.
Arguments idrCache {W} _.
Arguments attributeStore_ref {W} _.

Definition MS (W A : Type) : Type :=
  Stores W -> Res A * Stores W * list Event.

Definition retS {W A} (a : A) : MS W A := fun s => (Ok a, s, []).

Definition bindS {W A B} (m : MS W A) (k : A -> MS W B) : MS W B := fun s =>
  match m s with
  | (Ok a, s1, t1) => let '(r, s2, t2) := k a s1 in (r, s2, t1 ++ t2)
  | (Raise e, s1, t1) => (Raise e, s1, t1)
  end.

Definition callS {W A} (c : Event) (h : W -> Res A * W) : MS W A := fun s =>
  let '(r, w') := h (services s) in
  (r, mkStores w' (idrCache s) (attributeStore_ref s), [c]).

Definition attrS {W A} (g : W -> A) : MS W A := fun s =>
  (Ok (g (services s)), s, []).

Definition liftS {W A} (r : Res A) : MS W A := fun s => (r, s, []).

(** Reading and assigning [self.idrCache] and [self.attributeStore]. *)
Definition get_idrCache {W} : MS W (option Obj) := fun s =>
  (Ok (idrCache s), s, []).

Definition set_idrCache {W} (v : option Obj) : MS W unit := fun s =>
  (Ok tt, mkStores (services s) v (attributeStore_ref s), []).

Definition get_attributeStore {W} : MS W (option Obj) := fun s =>
  (Ok (attributeStore_ref s), s, []).

Definition set_attributeStore {W} (v : option Obj) : MS W unit := fun s =>
  (Ok tt, mkStores (services s) (idrCache s) v, []).

(** [d[k]] for a dict with ledger ids as keys. *)
Definition getitemZ {A} (d : gmap Z A) (k : Z) : Res A :=
  match d !! k with
  | Some v => Ok v
  | None => Raise (KeyError (PyInt k))
  end.

(** What [validateNodeMsg] returns: the pair of the request and the sender,
    or whatever the base class returns. *)
Inductive NodeMsg : Type :=
| node_request (cMsg : Request) (frm : string)
| super_validated (v : PyVal).

Declare Scope stores_scope.
Notation "x <- m ;; k" := (bindS m (fun x => k))
  (at level 100, m at next level, right associativity) : stores_scope.
Notation "m ;;; k" := (bindS m (fun _ => k))
  (at level 100, right associativity) : stores_scope.

Section StoreMethods.
Context {W : Type} (V : Services W) `{Constants} `{MessageConstants}.
#[local] Open Scope stores_scope.

Definition getIdrCache : MS W (option Obj) :=
  cached <- get_idrCache ;;
  (match cached with
   | None =>
       name <- attrS (self_name V) ;;
       storage_type <- attrS (config_idrCacheStorage V) ;;
       dataLocation <- attrS (self_dataLocation V) ;;
       dbName <- attrS (config_idrCacheDbName V) ;;
       storage <- callS (ev_initKeyValueStorage storage_type dataLocation dbName)
                        (initKeyValueStorage V storage_type dataLocation dbName) ;;
       cache <- callS (ev_IdrCache name storage) (IdrCache V name storage) ;;
       set_idrCache (Some cache)
   | Some _ => retS tt
   end) ;;;
  get_idrCache.

Definition loadAttributeStore : MS W Obj :=
  storage_type <- attrS (config_attrStorage V) ;;
  dataLocation <- attrS (self_dataLocation V) ;;
  dbName <- attrS (config_attrDbName V) ;;
  storage <- callS (ev_initKeyValueStorage storage_type dataLocation dbName)
                   (initKeyValueStorage V storage_type dataLocation dbName) ;;
  callS (ev_AttributeStore storage) (AttributeStore_new V storage).

Definition getDomainReqHandler : MS W Obj :=
  store <- get_attributeStore ;;
  (match store with
   | None =>
       loaded <- loadAttributeStore ;;
       set_attributeStore (Some loaded)
   | Some _ => retS tt
   end) ;;;
  domainLedger <- attrS (self_domainLedger V) ;;
  states <- attrS (self_states V) ;;
  state <- liftS (getitemZ states DOMAIN_LEDGER_ID) ;;
  config <- attrS (self_config V) ;;
  reqProcessors <- attrS (self_reqProcessors V) ;;
  cache <- getIdrCache ;;
  store <- get_attributeStore ;;
  bls_store <- attrS (bls_bft_bls_store V) ;;
  callS (ev_DomainReqHandler domainLedger state config reqProcessors
           cache store bls_store)
        (DomainReqHandler V domainLedger state config reqProcessors
           cache store bls_store).

Definition closeAllKVStores : MS W unit :=
  callS ev_super_closeAllKVStores (PlenumNode_closeAllKVStores V) ;;;
  cache <- get_idrCache ;;
  (match cache with
   | Some c =>
       truth <- attrS (object_truth V c) ;;
       if truth then callS (ev_idrCache_close c) (IdrCache_close V c)
       else retS tt
   | None => retS tt
   end) ;;;
  store <- get_attributeStore ;;
  match store with
  | Some a =>
      truth <- attrS (object_truth V a) ;;
      if truth
      then callS (ev_attributeStore_close a) (AttributeStore_close V a)
      else retS tt
  | None => retS tt
  end.

Definition sendConfigLedgerStatus (nodeName : string) : MS W unit :=
  callS (ev_sendLedgerStatus nodeName CONFIG_LEDGER_ID)
        (PlenumNode_sendLedgerStatus V nodeName CONFIG_LEDGER_ID).

Definition send_ledger_status_to_newly_connected_node (node_name : string)
  : MS W unit :=
  callS (ev_super_send_ledger_status_to_newly_connected_node node_name)
        (PlenumNode_send_ledger_status_to_newly_connected_node V node_name) ;;;
  (* If the domain ledger is already synced send config ledger status
     else after the domain ledger is caught up, config ledger status
     will be sent *)
  registry <- attrS (ledgerRegistry_state V) ;;
  state <- liftS (getitemZ registry DOMAIN_LEDGER_ID) ;;
  if LedgerState_eqb state synced then sendConfigLedgerStatus node_name
  else retS tt.

(** [attr in msg.keys()] *)
Definition has_key (msg : gmap string PyVal) (attr : string) : bool :=
  match msg !! attr with
  | Some _ => true
  | None => false
  end.

(** [wrappedMsg] is the pair [(msg, frm)]. *)
Definition validateNodeMsg (msg : gmap string PyVal) (frm : string)
  : MS W NodeMsg :=
  upgrade <-
    (if forallb (has_key msg) [OPERATION; f_IDENTIFIER_nm; f_REQ_ID_nm] then
       op <- liftS (dict_get (PyDict msg) OPERATION (PyDict ∅)) ;;
       txn_type <- liftS (dict_get op TXN_TYPE PyNone) ;;
       retS (py_eq_str txn_type NODE_UPGRADE)
     else retS false) ;;
  if upgrade then
    cMsg <- callS (ev_client_request_class msg) (client_request_class V msg) ;;
    retS (node_request cMsg frm)
  else
    v <- callS (ev_super_validateNodeMsg msg frm)
               (PlenumNode_validateNodeMsg V msg frm) ;;
    retS (super_validated v).

End StoreMethods.

Definition result_ofS {W A} (x : Res A * Stores W * list Event) : Res A :=
  x.1.1.
Definition node_ofS {W A} (x : Res A * Stores W * list Event) : Stores W :=
  x.1.2.
Definition trace_ofS {W A} (x : Res A * Stores W * list Event) : list Event :=
  x.2.

(** The node [s] once the services have reached state [w]. *)
Definition with_services {W} (s : Stores W) (w : W) : Stores W :=
  mkStores w (idrCache s) (attributeStore_ref s).

Definition countS (p : Event -> bool) (t : list Event) : nat :=
  length (List.filter p t).

Definition is_construction (c : Event) : bool :=
  match c with
  | ev_initKeyValueStorage _ _ _ | ev_IdrCache _ _ | ev_AttributeStore _ => true
  | _ => false
  end.

Definition is_close (c : Event) : bool :=
  match c with
  | ev_idrCache_close _ | ev_attributeStore_close _ => true
  | _ => false
  end.

Definition is_sendLedgerStatus (c : Event) : bool :=
  match c with ev_sendLedgerStatus _ _ => true | _ => false end.

Definition is_client_request_class (c : Event) : bool :=
  match c with ev_client_request_class _ => true | _ => false end.

(** ** Services to run these methods on

    The state counts the objects created so far and holds the state of the
    domain ledger; every object is true. *)

#[export] Instance indy_message_constants : MessageConstants := {|
  f_IDENTIFIER_nm := "identifier";
  f_REQ_ID_nm := "reqId";
  DOMAIN_LEDGER_ID := 1
|}.

Record SimServices : Type := mkSimServices {
  sim_next : nat;
  sim_domain : option LedgerState
}.

Definition sim_new (w : SimServices) : Res Obj * SimServices :=
  (Ok (object (sim_next w)), mkSimServices (S (sim_next w)) (sim_domain w)).

Definition sim_services : Services SimServices := {|
  self_name := fun w => PyStr "Node1";
  self_dataLocation := fun w => PyStr "/var/lib/indy/data/Node1";
  config_idrCacheStorage := fun w => PyStr "Rocksdb";
  config_idrCacheDbName := fun w => PyStr "idr_cache_db";
  config_attrStorage := fun w => PyStr "Rocksdb";
  config_attrDbName := fun w => PyStr "attr_db";
  self_domainLedger := fun w => object 100;
  self_states := fun w => <[1 := object 101]> ∅;
  self_config := fun w => object 102;
  self_reqProcessors := fun w => object 103;
  bls_bft_bls_store := fun w => object 104;
  ledgerRegistry_state := fun w =>
    match sim_domain w with
    | Some state => <[1 := state]> ∅
    | None => ∅
    end;
  object_truth := fun o w => true;
  initKeyValueStorage := fun storage_type dataLocation dbName => sim_new;
  IdrCache := fun name storage => sim_new;
  AttributeStore_new := fun storage => sim_new;
  DomainReqHandler := fun _ _ _ _ _ _ _ => sim_new;
  client_request_class := fun msg w =>
    (Ok {| identifier := default PyNone (msg !! "identifier"%string);
           reqId := default PyNone (msg !! "reqId"%string);
           operation := match msg !! "operation"%string with
                        | Some (PyDict op) => op
                        | _ => ∅
                        end;
           signature := default PyNone (msg !! "signature"%string);
           protocolVersion := default PyNone (msg !! "protocolVersion"%string) |},
     w);
  IdrCache_close := fun o w => (Ok tt, w);
  AttributeStore_close := fun o w => (Ok tt, w);
  PlenumNode_closeAllKVStores := fun w => (Ok tt, w);
  PlenumNode_send_ledger_status_to_newly_connected_node := fun n w => (Ok tt, w);
  PlenumNode_sendLedgerStatus := fun n ledgerId w => (Ok tt, w);
  PlenumNode_validateNodeMsg := fun msg frm w => (Ok PyNone, w)
|}.

(** A node that has created no store yet. *)
Definition sim_fresh (domain : option LedgerState) : Stores SimServices :=
  mkStores (mkSimServices 0 domain) None None.

(** An upgrade message that lost its request id. *)
Definition sim_upgrade_msg_without_reqId : gmap string PyVal :=
  delete "reqId"%string sim_upgrade_msg.

(** A message with the three fields whose operation is a string. *)
Definition sim_malformed_full_msg : gmap string PyVal :=
  <["operation"%string := PyStr "110"]> sim_upgrade_msg.

(** ** Running a method one call at a time *)

Section Steps.
Context {W : Type}.

Lemma bind_ret {A B} (a : A) (k : A -> M W B) (s : Node W) :
  bind (ret a) k s = k a s.
Proof. unfold bind, ret. destruct (k a s) as [[r s2] t2]. reflexivity. Qed.

Lemma bind_assoc {A B C} (m : M W A) (f : A -> M W B) (g : B -> M W C)
    (s : Node W) :
  bind (bind m f) g s = bind m (fun a => bind (f a) g) s.
Proof.
  unfold bind. destruct (m s) as [[[a|e] s1] t1]; [| reflexivity].
  destruct (f a s1) as [[[b|e] s2] t2]; [| reflexivity].
  destruct (g b s2) as [[r s3] t3]. rewrite app_assoc. reflexivity.
Qed.

Lemma bind_lift_ok {A B} (a : A) (k : A -> M W B) (s : Node W) :
  bind (lift (Ok a)) k s = k a s.
Proof. unfold bind, lift. destruct (k a s) as [[r s2] t2]. reflexivity. Qed.

Lemma bind_attr {A B} (g : W -> A) (k : A -> M W B) (s : Node W) :
  bind (attr g) k s = k (g (world s)) s.
Proof. unfold bind, attr. destruct (k _ s) as [[r s2] t2]. reflexivity. Qed.

Lemma bind_call_ok {A B} (c : Call) (h : W -> Res A * W) (k : A -> M W B)
    (s : Node W) (a : A) (w' : W) :
  h (world s) = (Ok a, w') ->
  bind (call c h) k s =
    (result_of (k a (with_world s w')), node_of (k a (with_world s w')),
     c :: trace_of (k a (with_world s w'))).
Proof.
  intros Hh. unfold bind, call, with_world. rewrite Hh.
  destruct (k a _) as [[r s2] t2]. reflexivity.
Qed.

Lemma bind_call_raise {A B} (c : Call) (h : W -> Res A * W) (k : A -> M W B)
    (s : Node W) (e : Exn) (w' : W) :
  h (world s) = (Raise e, w') ->
  bind (call c h) k s = (Raise e, with_world s w', [c]).
Proof. intros Hh. unfold bind, call, with_world. rewrite Hh. reflexivity. Qed.

Lemma bind_log {B} (c : Call) (k : unit -> M W B) (s : Node W) :
  bind (log c) k s =
    (result_of (k tt s), node_of (k tt s), c :: trace_of (k tt s)).
Proof. unfold bind, log. destruct (k tt s) as [[r s2] t2]. reflexivity. Qed.

Lemma bind_lift {A B} (r : Res A) (k : A -> M W B) (s : Node W) :
  bind (lift r) k s =
    match r with
    | Ok a => k a s
    | Raise e => (Raise e, s, [])
    end.
Proof. destruct r; [apply bind_lift_ok | reflexivity]. Qed.

Lemma bind_try_except_ok {A B} (m : M W A) (h : Exn -> M W A)
    (k : A -> M W B) (s s1 : Node W) (a : A) (t1 : list Call) :
  m s = (Ok a, s1, t1) ->
  bind (try_except m h) k s =
    (result_of (k a s1), node_of (k a s1), t1 ++ trace_of (k a s1)).
Proof.
  intros Hm. unfold bind, try_except. rewrite Hm.
  destruct (k a s1) as [[r s2] t2]. reflexivity.
Qed.

Lemma bind_try_except_raise {A B} (m : M W A) (h : Exn -> M W A)
    (k : A -> M W B) (s s1 : Node W) (e : Exn) (t1 : list Call) :
  m s = (Raise e, s1, t1) ->
  bind (try_except m h) k s =
    (result_of (bind (h e) k s1), node_of (bind (h e) k s1),
     t1 ++ trace_of (bind (h e) k s1)).
Proof.
  intros Hm. unfold bind, try_except. rewrite Hm.
  destruct (h e s1) as [[[a|e'] s2] t2]; [| reflexivity].
  destruct (k a s2) as [[r s3] t3].
  cbn [result_of node_of trace_of fst snd]. rewrite app_assoc. reflexivity.
Qed.

Lemma call_run {A} (c : Call) (h : W -> Res A * W) (s : Node W) :
  call c h s = ((h (world s)).1, with_world s (h (world s)).2, [c]).
Proof. unfold call, with_world. destruct (h (world s)). reflexivity. Qed.

Lemma getitem_insert (d : gmap string PyVal) (k : string) (v : PyVal) :
  getitem (<[k := v]> d) k = Ok v.
Proof. unfold getitem. rewrite lookup_insert_eq. reflexivity. Qed.

Lemma getitem_Some (d : gmap string PyVal) (k : string) (v : PyVal) :
  d !! k = Some v -> getitem d k = Ok v.
Proof. unfold getitem. intros ->. reflexivity. Qed.

End Steps.

(** Reduce the projections of an outcome that is known. *)
Ltac outcome :=
  cbv beta zeta;
  cbn [result_of node_of trace_of fst snd world total_read_request_number
       attributeStore with_world negb].

(** Run the next statement of a method, one case for each way a
    collaborator can answer. *)
Ltac step :=
  outcome;
  match goal with
  | |- context [bind (bind ?m ?f) ?g ?s] => rewrite (bind_assoc m f g s)
  | |- context [bind (ret ?a) ?k ?s] => rewrite (bind_ret a k s)
  | |- context [bind (attr ?g) ?k ?s] => rewrite (bind_attr g k s)
  | |- context [bind (log ?c) ?k ?s] => rewrite (bind_log c k s)
  | |- context [bind (lift ?r) ?k ?s] =>
      rewrite (bind_lift r k s); destruct r eqn:?
  | |- context [bind (call ?c ?h) ?k ?s] =>
      let Hh := fresh "Hcall" in
      destruct (h (world s)) as [[?|?] ?] eqn:Hh;
      [ rewrite (bind_call_ok c h k s _ _ Hh)
      | rewrite (bind_call_raise c h k s _ _ Hh) ]
  | |- context [call ?c ?h ?s] => rewrite (call_run c h s)
  | |- context [if ?b then _ else _] => destruct b eqn:?
  end.

(** Run the next call of a method when the context tells how the
    collaborator answers. *)
Ltac known :=
  outcome;
  first
    [ rewrite bind_assoc
    | rewrite bind_ret
    | rewrite bind_attr
    | rewrite bind_log
    | rewrite bind_lift_ok
    | erewrite bind_call_ok by (outcome; eassumption)
    | erewrite bind_call_raise by (outcome; eassumption)
    | rewrite call_run ];
  outcome.

(** ** Batch dispatch and catch-up receipt *)

(** C8: batch dispatch routes by ledger id.  For the config ledger
    [onBatchCreated] and [onBatchRejected] make exactly one call, to the
    config request handler's method of the same name, with the state root
    unchanged; for every other ledger id they make exactly one call, to the
    base dispatcher, with the arguments unchanged.  In both cases the
    outcome of the call is the outcome of the method. *)
Theorem batch_dispatch_routes_by_ledger_id
    {W : Type} (E : Collaborators W) `{Constants}
    (ledgerId : Z) (stateRoot : PyVal) (s : Node W) :
  (ledgerId = CONFIG_LEDGER_ID ->
     onBatchCreated E ledgerId stateRoot s =
       ((configReqHandler_onBatchCreated E stateRoot (world s)).1,
        with_world s (configReqHandler_onBatchCreated E stateRoot (world s)).2,
        [call_configReqHandler_onBatchCreated stateRoot])
     /\ onBatchRejected E ledgerId s =
       ((configReqHandler_onBatchRejected E (world s)).1,
        with_world s (configReqHandler_onBatchRejected E (world s)).2,
        [call_configReqHandler_onBatchRejected]))
  /\ (ledgerId <> CONFIG_LEDGER_ID ->
     onBatchCreated E ledgerId stateRoot s =
       ((PlenumNode_onBatchCreated E ledgerId stateRoot (world s)).1,
        with_world s (PlenumNode_onBatchCreated E ledgerId stateRoot (world s)).2,
        [call_super_onBatchCreated ledgerId stateRoot])
     /\ onBatchRejected E ledgerId s =
       ((PlenumNode_onBatchRejected E ledgerId (world s)).1,
        with_world s (PlenumNode_onBatchRejected E ledgerId (world s)).2,
        [call_super_onBatchRejected ledgerId])).
Proof.
  unfold onBatchCreated, onBatchRejected. split; intros Hid.
  - apply Z.eqb_eq in Hid. rewrite Hid. split; apply call_run.
  - apply Z.eqb_neq in Hid. rewrite Hid. split; apply call_run.
Qed.

Lemma batch_dispatch_routes_by_ledger_id_witness :
  trace_of (onBatchCreated sim 2 (PyStr "root") (sim_node sim0)) =
    [call_configReqHandler_onBatchCreated (PyStr "root")]
  /\ trace_of (onBatchRejected sim 1 (sim_node sim0)) =
    [call_super_onBatchRejected 1].
Proof.
  split.
  - destruct (batch_dispatch_routes_by_ledger_id sim 2 (PyStr "root") (sim_node sim0))
      as [Hconfig _].
    destruct (Hconfig eq_refl) as [Hcreated _]. rewrite Hcreated. reflexivity.
  - destruct (batch_dispatch_routes_by_ledger_id sim 1 (PyStr "root") (sim_node sim0))
      as [_ Hother].
    destruct Hother as [_ Hrejected]; [discriminate |].
    rewrite Hrejected. reflexivity.
Defined.

(** C10: a transaction received from catch-up for the config ledger is not
    applied to anything: [postRecvTxnFromCatchup] returns None, makes no
    call and leaves the node as it was.  For every other ledger id the call
    is handed to the base class, whose outcome is the method's. *)
Theorem postRecvTxnFromCatchup_config_is_noop
    {W : Type} (E : Collaborators W) `{Constants}
    (ledgerId : Z) (txn : PyVal) (s : Node W) :
  (ledgerId = CONFIG_LEDGER_ID ->
     postRecvTxnFromCatchup E ledgerId txn s = (Ok PyNone, s, []))
  /\ (ledgerId <> CONFIG_LEDGER_ID ->
     postRecvTxnFromCatchup E ledgerId txn s =
       ((PlenumNode_postRecvTxnFromCatchup E ledgerId txn (world s)).1,
        with_world s (PlenumNode_postRecvTxnFromCatchup E ledgerId txn (world s)).2,
        [call_super_postRecvTxnFromCatchup ledgerId txn])).
Proof.
  unfold postRecvTxnFromCatchup. split; intros Hid.
  - apply Z.eqb_eq in Hid. rewrite Hid. reflexivity.
  - apply Z.eqb_neq in Hid. rewrite Hid. apply call_run.
Qed.

Lemma postRecvTxnFromCatchup_config_is_noop_witness :
  postRecvTxnFromCatchup sim 2 (PyStr "txn") (sim_node sim0) =
    (Ok PyNone, sim_node sim0, [])
  /\ trace_of (postRecvTxnFromCatchup sim 1 (PyStr "txn") (sim_node sim0)) =
    [call_super_postRecvTxnFromCatchup 1 (PyStr "txn")].
Proof.
  split.
  - apply (postRecvTxnFromCatchup_config_is_noop sim 2 (PyStr "txn") (sim_node sim0)).
    reflexivity.
  - destruct (postRecvTxnFromCatchup_config_is_noop sim 1 (PyStr "txn") (sim_node sim0))
      as [_ Hother].
    rewrite Hother; [reflexivity | discriminate].
Defined.

(** ** Announcing the outcome of an upgrade *)

Lemma acknowledge_upgrade_trace_ordered
    {W : Type} (E : Collaborators W) `{Constants} (s : Node W) :
  notified_only_after_send false (trace_of (acknowledge_upgrade E s)) = true
  /\ (count is_send (trace_of (acknowledge_upgrade E s)) <= 1)%nat.
Proof.
  unfold acknowledge_upgrade.
  repeat step; outcome; (split; [reflexivity | cbn; lia]).
Qed.

(** What [notified_only_after_send] means for a call found in the trace. *)
Lemma notified_only_after_send_found (pre post : list Call) :
  forall sent : bool,
    notified_only_after_send sent
      (pre ++ call_upgrader_notified_about_upgrade_result :: post) = true ->
    sent = true \/ exists request : Request, In (call_send request) pre.
Proof.
  induction pre as [| x pre IH]; intros sent Hordered.
  - cbn [app notified_only_after_send] in Hordered.
    apply andb_true_iff in Hordered as [Hsent _]. left. assumption.
  - destruct x; cbn [app notified_only_after_send] in Hordered;
      try (right; eexists; left; reflexivity);
      try apply andb_true_iff in Hordered as [_ Hordered];
      apply IH in Hordered as [Hsent | [request Hin]];
      solve [ left; assumption | right; exists request; right; assumption ].
Qed.

(** What [acknowledge_upgrade] does when every collaborator answers: the
    calls it makes, in order, and its outcome. *)
Lemma acknowledge_upgrade_run
    {W : Type} (E : Collaborators W) `{Constants} (s : Node W)
    (w1 w2 w3 w4 w5 : W) (info : list PyVal) (version sig : PyVal)
    (request : Request) :
  let action :=
    PyStr (if upgrader_didLastExecutedUpgradeSucceeded E w1
           then COMPLETE else FAIL) in
  let args := Request_key E request ++ [PyStr (nodestack_name E w3)] in
  upgrader_should_notify_about_upgrade_result E (world s) = (Ok true, w1) ->
  upgrader_lastUpgradeEventInfo E w1 = Some info ->
  info !! 2%nat = Some version ->
  wallet_signMsg E (PyDict (upgrade_data action version)) w1 = (Ok sig, w2) ->
  wallet_signRequest E (Request_new (upgrade_op action version sig) PyNone) w2 =
    (Ok request, w3) ->
  PlenumNode_startedProcessingReq E args w3 = (Ok tt, w4) ->
  PlenumNode_send E request w4 = (Ok tt, w5) ->
  acknowledge_upgrade E s =
    ((upgrader_notified_about_upgrade_result E w5).1,
     with_world s (upgrader_notified_about_upgrade_result E w5).2,
     [call_upgrader_should_notify_about_upgrade_result;
      call_logger_info action version;
      call_wallet_signMsg (PyDict (upgrade_data action version));
      call_wallet_signRequest
        (Request_new (upgrade_op action version sig) PyNone);
      call_startedProcessingReq args;
      call_send request;
      call_upgrader_notified_about_upgrade_result]).
Proof.
  intros action args Hnotify Hinfo Hversion Hsig Hrequest Hstarted Hsend.
  unfold acknowledge_upgrade.
  repeat known. unfold index. rewrite Hinfo, Hversion.
  repeat known. rewrite getitem_insert.
  known. fold action. fold (upgrade_data action version).
  known. fold (upgrade_op action version sig).
  repeat known. reflexivity.
Qed.

(** C1: [acknowledge_upgrade].  If the upgrader answers that no result is
    to be announced, the method makes no other call: nothing is signed or
    sent and the upgrader is not told anything.  If it answers that a
    result is to be announced and the collaborators return, one request is
    sent: a NODE_UPGRADE operation whose DATA holds COMPLETE when the last
    executed upgrade succeeded and FAIL otherwise, and the version at index
    2 of the upgrader's last upgrade event; the upgrader is told that the
    peers were notified after the send.  In every run, whatever the
    collaborators answer, the upgrader is never told so before a send was
    attempted, and at most one request is sent. *)
Theorem acknowledge_upgrade_sends_then_marks_notified
    {W : Type} (E : Collaborators W) `{Constants} (s : Node W) :
  (forall w1 : W,
     upgrader_should_notify_about_upgrade_result E (world s) = (Ok false, w1) ->
     acknowledge_upgrade E s =
       (Ok tt, with_world s w1,
        [call_upgrader_should_notify_about_upgrade_result]))
  /\ (forall (w1 w2 w3 w4 w5 : W) (info : list PyVal) (version sig : PyVal)
        (request : Request),
     let action :=
       PyStr (if upgrader_didLastExecutedUpgradeSucceeded E w1
              then COMPLETE else FAIL) in
     let args := Request_key E request ++ [PyStr (nodestack_name E w3)] in
     upgrader_should_notify_about_upgrade_result E (world s) = (Ok true, w1) ->
     upgrader_lastUpgradeEventInfo E w1 = Some info ->
     info !! 2%nat = Some version ->
     wallet_signMsg E (PyDict (upgrade_data action version)) w1 = (Ok sig, w2) ->
     wallet_signRequest E (Request_new (upgrade_op action version sig) PyNone) w2 =
       (Ok request, w3) ->
     PlenumNode_startedProcessingReq E args w3 = (Ok tt, w4) ->
     PlenumNode_send E request w4 = (Ok tt, w5) ->
     acknowledge_upgrade E s =
       ((upgrader_notified_about_upgrade_result E w5).1,
        with_world s (upgrader_notified_about_upgrade_result E w5).2,
        [call_upgrader_should_notify_about_upgrade_result;
         call_logger_info action version;
         call_wallet_signMsg (PyDict (upgrade_data action version));
         call_wallet_signRequest
           (Request_new (upgrade_op action version sig) PyNone);
         call_startedProcessingReq args;
         call_send request;
         call_upgrader_notified_about_upgrade_result])
     /\ count is_send (trace_of (acknowledge_upgrade E s)) = 1%nat)
  /\ (forall pre post : list Call,
     trace_of (acknowledge_upgrade E s) =
       pre ++ call_upgrader_notified_about_upgrade_result :: post ->
     exists request : Request, In (call_send request) pre)
  /\ (count is_send (trace_of (acknowledge_upgrade E s)) <= 1)%nat.
Proof.
  split; [| split; [| split]].
  - intros w1 Hquiet. unfold acknowledge_upgrade. repeat known. reflexivity.
  - intros w1 w2 w3 w4 w5 info version sig request action args
      Hnotify Hinfo Hversion Hsig Hrequest Hstarted Hsend.
    rewrite (acknowledge_upgrade_run E s w1 w2 w3 w4 w5 info version sig request)
      by assumption.
    split; reflexivity.
  - intros pre post Htrace.
    destruct (acknowledge_upgrade_trace_ordered E s) as [Hordered _].
    rewrite Htrace in Hordered.
    apply notified_only_after_send_found in Hordered as [Hsent | Hsend];
      [discriminate | assumption].
  - apply acknowledge_upgrade_trace_ordered.
Qed.

(** A pool with no upgrade result to announce, and one with a result. *)
Lemma acknowledge_upgrade_sends_then_marks_notified_witness :
  acknowledge_upgrade sim (sim_node (mkSim false true true true true false)) =
    (Ok tt, sim_node (mkSim false true true true true false),
     [call_upgrader_should_notify_about_upgrade_result])
  /\ count is_send (trace_of (acknowledge_upgrade sim (sim_node sim0))) = 1%nat.
Proof.
  split.
  - destruct (acknowledge_upgrade_sends_then_marks_notified sim
                (sim_node (mkSim false true true true true false)))
      as [Hquiet _].
    apply (Hquiet (mkSim false true true true true false)). reflexivity.
  - destruct (acknowledge_upgrade_sends_then_marks_notified sim (sim_node sim0))
      as (_ & Hnotify & _).
    apply (Hnotify sim0 sim0 sim0 (mkSim true true true true true true)
             (mkSim true true true true true true)
             [PyStr "started"; PyStr "2018-01-01"; PyStr "1.2.0"]
             (PyStr "1.2.0") (PyStr "sig(data)")
             (sim_sign (Request_new
                          (upgrade_op (PyStr "complete") (PyStr "1.2.0")
                             (PyStr "sig(data)")) PyNone)));
      reflexivity.
Defined.

(** ** The shape of the upgrade messages *)

(** What a peer reads in the operation of an upgrade message, the keys
    being distinct. *)
Lemma upgrade_op_lookup `{Constants} (action version sig : PyVal) :
  TXN_TYPE <> DATA -> TXN_TYPE <> f_SIG_nm -> DATA <> f_SIG_nm ->
  ACTION <> VERSION ->
  upgrade_op action version sig !! TXN_TYPE = Some (PyStr NODE_UPGRADE)
  /\ upgrade_op action version sig !! DATA =
       Some (PyDict (upgrade_data action version))
  /\ upgrade_op action version sig !! f_SIG_nm = Some sig
  /\ dom (upgrade_op action version sig) = {[TXN_TYPE; DATA; f_SIG_nm]}
  /\ upgrade_data action version !! ACTION = Some action
  /\ upgrade_data action version !! VERSION = Some version
  /\ dom (upgrade_data action version) = {[ACTION; VERSION]}.
Proof.
  intros Htd Hts Hds Hav. unfold upgrade_op, upgrade_data.
  repeat split.
  - rewrite lookup_insert_ne by congruence.
    rewrite lookup_insert_ne by congruence. apply lookup_insert_eq.
  - rewrite lookup_insert_ne by congruence. apply lookup_insert_eq.
  - apply lookup_insert_eq.
  - rewrite !dom_insert_L, dom_empty_L. apply set_eq. intros k.
    rewrite !elem_of_union, !elem_of_singleton, elem_of_empty. tauto.
  - rewrite lookup_insert_ne by congruence. apply lookup_insert_eq.
  - apply lookup_insert_eq.
  - rewrite !dom_insert_L, dom_empty_L. apply set_eq. intros k.
    rewrite !elem_of_union, !elem_of_singleton, elem_of_empty. tauto.
Qed.

(** C6: both upgrade messages, the IN_PROGRESS one of
    [notify_upgrade_start] and the COMPLETE or FAIL one of
    [acknowledge_upgrade], are built the same way: the wallet signs the
    DATA [{ACTION: action, VERSION: version}], and the request handed to
    the wallet for signing is [Request(operation=op, protocolVersion=None)]
    where [op] holds NODE_UPGRADE under TXN_TYPE, that DATA under DATA and
    the wallet's signature of the DATA under [f.SIG.nm], and nothing
    else. *)
Theorem upgrade_messages_are_signed_node_upgrade_operations
    {W : Type} (E : Collaborators W) `{Constants} (s : Node W) :
  (forall (scheduled : list PyVal) (version sig : PyVal) (w1 : W),
     upgrader_scheduledUpgrade E (world s) = Some scheduled ->
     scheduled !! 0%nat = Some version ->
     wallet_signMsg E (PyDict (upgrade_data (PyStr IN_PROGRESS) version))
       (world s) = (Ok sig, w1) ->
     exists rest : list Call,
       trace_of (notify_upgrade_start E s) =
         call_logger_info (PyStr IN_PROGRESS) version
         :: call_wallet_signMsg (PyDict (upgrade_data (PyStr IN_PROGRESS) version))
         :: call_wallet_signRequest
              (Request_new (upgrade_op (PyStr IN_PROGRESS) version sig) PyNone)
         :: rest)
  /\ (forall (info : list PyVal) (version sig : PyVal) (w1 w2 : W),
     let action :=
       PyStr (if upgrader_didLastExecutedUpgradeSucceeded E w1
              then COMPLETE else FAIL) in
     upgrader_should_notify_about_upgrade_result E (world s) = (Ok true, w1) ->
     upgrader_lastUpgradeEventInfo E w1 = Some info ->
     info !! 2%nat = Some version ->
     wallet_signMsg E (PyDict (upgrade_data action version)) w1 = (Ok sig, w2) ->
     exists rest : list Call,
       trace_of (acknowledge_upgrade E s) =
         call_upgrader_should_notify_about_upgrade_result
         :: call_logger_info action version
         :: call_wallet_signMsg (PyDict (upgrade_data action version))
         :: call_wallet_signRequest
              (Request_new (upgrade_op action version sig) PyNone)
         :: rest)
  /\ (forall action version sig : PyVal,
     protocolVersion (Request_new (upgrade_op action version sig) PyNone) = PyNone
     /\ (TXN_TYPE <> DATA -> TXN_TYPE <> f_SIG_nm -> DATA <> f_SIG_nm ->
         ACTION <> VERSION ->
         let op := operation (Request_new (upgrade_op action version sig) PyNone) in
         op !! TXN_TYPE = Some (PyStr NODE_UPGRADE)
         /\ op !! DATA = Some (PyDict (upgrade_data action version))
         /\ op !! f_SIG_nm = Some sig
         /\ dom op = {[TXN_TYPE; DATA; f_SIG_nm]}
         /\ upgrade_data action version !! ACTION = Some action
         /\ upgrade_data action version !! VERSION = Some version
         /\ dom (upgrade_data action version) = {[ACTION; VERSION]})).
Proof.
  split; [| split].
  - intros scheduled version sig w1 Hscheduled Hversion Hsig.
    unfold notify_upgrade_start.
    repeat known. unfold index. rewrite Hscheduled, Hversion.
    repeat known. rewrite getitem_insert.
    known. fold (upgrade_data (PyStr IN_PROGRESS) version).
    known. fold (upgrade_op (PyStr IN_PROGRESS) version sig).
    repeat step; outcome; eexists; reflexivity.
  - intros info version sig w1 w2 action Hnotify Hinfo Hversion Hsig.
    unfold acknowledge_upgrade.
    repeat known. unfold index. rewrite Hinfo, Hversion.
    repeat known. rewrite getitem_insert.
    known. fold action. fold (upgrade_data action version).
    known. fold (upgrade_op action version sig).
    repeat step; outcome; eexists; reflexivity.
  - intros action version sig. split; [reflexivity |].
    intros Htd Hts Hds Hav. apply upgrade_op_lookup; assumption.
Qed.

(** The pool of the examples signs its request. *)
Lemma upgrade_messages_are_signed_node_upgrade_operations_witness :
  (exists rest : list Call,
     trace_of (notify_upgrade_start sim (sim_node sim0)) =
       call_logger_info (PyStr "in_progress") (PyStr "1.2.0")
       :: call_wallet_signMsg
            (PyDict (upgrade_data (PyStr "in_progress") (PyStr "1.2.0")))
       :: call_wallet_signRequest
            (Request_new
               (upgrade_op (PyStr "in_progress") (PyStr "1.2.0")
                  (PyStr "sig(data)")) PyNone)
       :: rest)
  /\ (exists rest : list Call,
     trace_of (acknowledge_upgrade sim (sim_node sim0)) =
       call_upgrader_should_notify_about_upgrade_result
       :: call_logger_info (PyStr "complete") (PyStr "1.2.0")
       :: call_wallet_signMsg
            (PyDict (upgrade_data (PyStr "complete") (PyStr "1.2.0")))
       :: call_wallet_signRequest
            (Request_new
               (upgrade_op (PyStr "complete") (PyStr "1.2.0")
                  (PyStr "sig(data)")) PyNone)
       :: rest)
  /\ upgrade_data (PyStr "complete") (PyStr "1.2.0") !! "action"%string =
       Some (PyStr "complete").
Proof.
  destruct (upgrade_messages_are_signed_node_upgrade_operations sim (sim_node sim0))
    as (Hstart & Hack & Hshape).
  split; [| split].
  - apply (Hstart [PyStr "1.2.0"; PyStr "2018-01-01"] (PyStr "1.2.0")
             (PyStr "sig(data)") sim0); reflexivity.
  - apply (Hack [PyStr "started"; PyStr "2018-01-01"; PyStr "1.2.0"]
             (PyStr "1.2.0") (PyStr "sig(data)") sim0 sim0); reflexivity.
  - destruct (Hshape (PyStr "complete") (PyStr "1.2.0") (PyStr "sig(data)"))
      as [_ Hkeys].
    apply Hkeys; discriminate.
Defined.

(** ** The write-mode gate *)

Section ProcessRequest.
Context {W : Type} (E : Collaborators W) `{Constants}.
Context (request : Request) (frm : string) (s : Node W) (txn_type : PyVal).
Hypothesis Htype : operation request !! TXN_TYPE = Some txn_type.

(** A query: the query path, and the count of read requests. *)
Lemma processRequest_query (w1 : W) :
  PlenumNode_is_query E txn_type (world s) = (Ok true, w1) ->
  processRequest E request frm s =
    ((PlenumNode_process_query E request frm w1).1,
     mkNode (PlenumNode_process_query E request frm w1).2
       (match (PlenumNode_process_query E request frm w1).1 with
        | Ok _ => total_read_request_number s + 1
        | Raise _ => total_read_request_number s
        end)
       (attributeStore s),
     [call_is_query txn_type; call_process_query request frm]).
Proof.
  intros Hquery. unfold processRequest.
  rewrite (getitem_Some _ _ _ Htype). repeat known.
  destruct (PlenumNode_process_query E request frm w1) as [[[]|e] w2] eqn:Hq;
    repeat known; reflexivity.
Qed.

(** A write that is not a forced governance request: the gate alone. *)
Lemma processRequest_write (w1 w2 : W) (writable : bool) :
  PlenumNode_is_query E txn_type (world s) = (Ok false, w1) ->
  governance txn_type && Request_isForced E request = false ->
  poolCfg_isWritable E w1 = (Ok writable, w2) ->
  processRequest E request frm s =
    if writable || governance txn_type then
      ((PlenumNode_processRequest E request frm w2).1,
       with_world s (PlenumNode_processRequest E request frm w2).2,
       [call_is_query txn_type; call_poolCfg_isWritable;
        call_super_processRequest request frm])
    else
      (Raise (InvalidClientRequest (identifier request) (reqId request)
                readonly_reason),
       with_world s w2,
       [call_is_query txn_type; call_poolCfg_isWritable]).
Proof.
  intros Hquery Hforced Hwritable. unfold processRequest.
  rewrite (getitem_Some _ _ _ Htype). repeat known.
  fold (governance txn_type). rewrite Hforced.
  repeat known. destruct writable; repeat known.
  - reflexivity.
  - fold (governance txn_type). cbn [orb].
    destruct (governance txn_type); repeat known; reflexivity.
Qed.

(** A forced governance request that the config request handler accepts
    and applies: both paths, whatever the pool configuration says. *)
Lemma processRequest_forced (w1 w2 w3 w4 : W) (writable : bool) :
  PlenumNode_is_query E txn_type (world s) = (Ok false, w1) ->
  governance txn_type = true ->
  Request_isForced E request = true ->
  configReqHandler_validate E request w1 = (Ok tt, w2) ->
  configReqHandler_applyForced E request w2 = (Ok tt, w3) ->
  poolCfg_isWritable E w3 = (Ok writable, w4) ->
  processRequest E request frm s =
    ((PlenumNode_processRequest E request frm w4).1,
     with_world s (PlenumNode_processRequest E request frm w4).2,
     [call_is_query txn_type;
      call_configReqHandler_validate request;
      call_configReqHandler_applyForced request;
      call_poolCfg_isWritable;
      call_super_processRequest request frm]).
Proof.
  intros Hquery Hgov Hforced Hvalid Happly Hwritable. unfold processRequest.
  rewrite (getitem_Some _ _ _ Htype). repeat known.
  fold (governance txn_type). rewrite Hgov, Hforced. cbn [andb].
  repeat known. destruct writable; repeat known.
  - reflexivity.
  - fold (governance txn_type). rewrite Hgov. repeat known. reflexivity.
Qed.

(** A forced governance request that the config request handler rejects:
    neither applied nor forwarded. *)
Lemma processRequest_forced_invalid (w1 w2 : W) (e : Exn) :
  PlenumNode_is_query E txn_type (world s) = (Ok false, w1) ->
  governance txn_type = true ->
  Request_isForced E request = true ->
  configReqHandler_validate E request w1 = (Raise e, w2) ->
  processRequest E request frm s =
    (Raise e, with_world s w2,
     [call_is_query txn_type; call_configReqHandler_validate request]).
Proof.
  intros Hquery Hgov Hforced Hvalid. unfold processRequest.
  rewrite (getitem_Some _ _ _ Htype). repeat known.
  fold (governance txn_type). rewrite Hgov, Hforced. cbn [andb].
  repeat known. reflexivity.
Qed.

End ProcessRequest.

(** C2: [processRequest] gates writes, not queries.  A query goes to the
    query path and the pool configuration is not consulted.  A request
    that is not a query, on a pool that is not writable, with a type that
    is neither POOL_UPGRADE nor POOL_CONFIG, raises InvalidClientRequest
    with the requester's identifier, the request id and the readonly
    reason, and the base class's processRequest is not called.  A request
    that is not a query, on a writable pool or with one of the two
    governance types, is handed to the base class's processRequest, whose
    outcome is the method's (a forced governance request once the config
    request handler has validated and applied it). *)
Theorem processRequest_gates_writes
    {W : Type} (E : Collaborators W) `{Constants}
    (request : Request) (frm : string) (s : Node W) (txn_type : PyVal) :
  operation request !! TXN_TYPE = Some txn_type ->
  (forall w1 : W,
     PlenumNode_is_query E txn_type (world s) = (Ok true, w1) ->
     processRequest E request frm s =
       ((PlenumNode_process_query E request frm w1).1,
        mkNode (PlenumNode_process_query E request frm w1).2
          (match (PlenumNode_process_query E request frm w1).1 with
           | Ok _ => total_read_request_number s + 1
           | Raise _ => total_read_request_number s
           end)
          (attributeStore s),
        [call_is_query txn_type; call_process_query request frm])
     /\ count is_isWritable (trace_of (processRequest E request frm s)) = 0%nat)
  /\ (forall w1 w2 : W,
     PlenumNode_is_query E txn_type (world s) = (Ok false, w1) ->
     governance txn_type = false ->
     poolCfg_isWritable E w1 = (Ok false, w2) ->
     processRequest E request frm s =
       (Raise (InvalidClientRequest (identifier request) (reqId request)
                 "Pool is in readonly mode, try again in 60 seconds"),
        with_world s w2,
        [call_is_query txn_type; call_poolCfg_isWritable]))
  /\ (forall (w1 w2 : W) (writable : bool),
     PlenumNode_is_query E txn_type (world s) = (Ok false, w1) ->
     governance txn_type && Request_isForced E request = false ->
     poolCfg_isWritable E w1 = (Ok writable, w2) ->
     writable = true \/ governance txn_type = true ->
     processRequest E request frm s =
       ((PlenumNode_processRequest E request frm w2).1,
        with_world s (PlenumNode_processRequest E request frm w2).2,
        [call_is_query txn_type; call_poolCfg_isWritable;
         call_super_processRequest request frm]))
  /\ (forall (w1 w2 w3 w4 : W) (writable : bool),
     PlenumNode_is_query E txn_type (world s) = (Ok false, w1) ->
     governance txn_type = true ->
     Request_isForced E request = true ->
     configReqHandler_validate E request w1 = (Ok tt, w2) ->
     configReqHandler_applyForced E request w2 = (Ok tt, w3) ->
     poolCfg_isWritable E w3 = (Ok writable, w4) ->
     result_of (processRequest E request frm s) =
       (PlenumNode_processRequest E request frm w4).1
     /\ node_of (processRequest E request frm s) =
          with_world s (PlenumNode_processRequest E request frm w4).2
     /\ last (trace_of (processRequest E request frm s)) =
          Some (call_super_processRequest request frm)).
Proof.
  intros Htype. split; [| split; [| split]].
  - intros w1 Hquery.
    rewrite (processRequest_query E request frm s txn_type Htype w1 Hquery).
    repeat split.
  - intros w1 w2 Hquery Hgov Hwritable.
    rewrite (processRequest_write E request frm s txn_type Htype w1 w2 false)
      by (try rewrite Hgov; auto).
    rewrite Hgov. reflexivity.
  - intros w1 w2 writable Hquery Hforced Hwritable Hadmit.
    rewrite (processRequest_write E request frm s txn_type Htype w1 w2 writable)
      by assumption.
    destruct Hadmit as [-> | ->]; [reflexivity |].
    rewrite orb_true_r. reflexivity.
  - intros w1 w2 w3 w4 writable Hquery Hgov Hforced Hvalid Happly Hwritable.
    rewrite (processRequest_forced E request frm s txn_type Htype
               w1 w2 w3 w4 writable) by assumption.
    repeat split.
Qed.

Lemma sim_request_type (txn_type : string) (forced : bool) :
  operation (sim_request txn_type forced) !! TXN_TYPE = Some (PyStr txn_type).
Proof. reflexivity. Defined.

(** On a readonly pool: a query passes, an ordinary write is rejected, a
    pool configuration request is forwarded. *)
Lemma processRequest_gates_writes_witness :
  trace_of (processRequest sim (sim_request "105" false) "client"
              (sim_node sim_readonly)) =
    [call_is_query (PyStr "105");
     call_process_query (sim_request "105" false) "client"]
  /\ processRequest sim (sim_request "1" false) "client" (sim_node sim_readonly) =
    (Raise (InvalidClientRequest (PyStr "client") (PyInt 7)
              "Pool is in readonly mode, try again in 60 seconds"),
     sim_node sim_readonly,
     [call_is_query (PyStr "1"); call_poolCfg_isWritable])
  /\ trace_of (processRequest sim (sim_request "111" false) "client"
                 (sim_node sim_readonly)) =
    [call_is_query (PyStr "111"); call_poolCfg_isWritable;
     call_super_processRequest (sim_request "111" false) "client"]
  /\ last (trace_of (processRequest sim (sim_request "111" true) "client"
                       (sim_node sim_readonly))) =
    Some (call_super_processRequest (sim_request "111" true) "client").
Proof.
  split; [| split; [| split]].
  - destruct (processRequest_gates_writes sim (sim_request "105" false) "client"
                (sim_node sim_readonly) (PyStr "105")
                (sim_request_type _ _))
      as (Hquery & _).
    destruct (Hquery sim_readonly) as [Hrun _]; [reflexivity |].
    rewrite Hrun. reflexivity.
  - destruct (processRequest_gates_writes sim (sim_request "1" false) "client"
                (sim_node sim_readonly) (PyStr "1")
                (sim_request_type _ _))
      as (_ & Hreject & _).
    apply (Hreject sim_readonly sim_readonly); reflexivity.
  - destruct (processRequest_gates_writes sim (sim_request "111" false) "client"
                (sim_node sim_readonly) (PyStr "111")
                (sim_request_type _ _))
      as (_ & _ & Hforward & _).
    rewrite (Hforward sim_readonly sim_readonly false);
      [reflexivity | reflexivity | reflexivity | reflexivity | right; reflexivity].
  - destruct (processRequest_gates_writes sim (sim_request "111" true) "client"
                (sim_node sim_readonly) (PyStr "111")
                (sim_request_type _ _))
      as (_ & _ & _ & Hforced).
    apply (Hforced sim_readonly sim_readonly sim_readonly sim_readonly false);
      reflexivity.
Defined.

(** ** Forced governance requests *)

(** C3: a request that is not a query, of type POOL_UPGRADE or POOL_CONFIG
    and forced, is first validated by the config request handler and then
    applied by applyForced, before the pool configuration is consulted and
    before the base class's processRequest starts the consensus path,
    whether the pool is writable or not.  A request that validation
    rejects is not applied. *)
Theorem forced_governance_validated_then_applied
    {W : Type} (E : Collaborators W) `{Constants}
    (request : Request) (frm : string) (s : Node W) (txn_type : PyVal)
    (w1 : W) :
  operation request !! TXN_TYPE = Some txn_type ->
  PlenumNode_is_query E txn_type (world s) = (Ok false, w1) ->
  governance txn_type = true ->
  Request_isForced E request = true ->
  (forall (w2 w3 w4 : W) (writable : bool),
     configReqHandler_validate E request w1 = (Ok tt, w2) ->
     configReqHandler_applyForced E request w2 = (Ok tt, w3) ->
     poolCfg_isWritable E w3 = (Ok writable, w4) ->
     trace_of (processRequest E request frm s) =
       [call_is_query txn_type;
        call_configReqHandler_validate request;
        call_configReqHandler_applyForced request;
        call_poolCfg_isWritable;
        call_super_processRequest request frm])
  /\ (forall w2 : W,
     configReqHandler_validate E request w1 = (Ok tt, w2) ->
     exists rest : list Call,
       trace_of (processRequest E request frm s) =
         call_is_query txn_type
         :: call_configReqHandler_validate request
         :: call_configReqHandler_applyForced request
         :: rest)
  /\ (forall (w2 : W) (e : Exn),
     configReqHandler_validate E request w1 = (Raise e, w2) ->
     processRequest E request frm s =
       (Raise e, with_world s w2,
        [call_is_query txn_type; call_configReqHandler_validate request])).
Proof.
  intros Htype Hquery Hgov Hforced. split; [| split].
  - intros w2 w3 w4 writable Hvalid Happly Hwritable.
    rewrite (processRequest_forced E request frm s txn_type Htype
               w1 w2 w3 w4 writable) by assumption.
    reflexivity.
  - intros w2 Hvalid. unfold processRequest.
    rewrite (getitem_Some _ _ _ Htype). repeat known.
    fold (governance txn_type). rewrite Hgov, Hforced. cbn [andb].
    repeat known.
    repeat step; outcome; eexists; reflexivity.
  - intros w2 e Hvalid.
    apply (processRequest_forced_invalid E request frm s txn_type Htype w1 w2 e);
      assumption.
Qed.

(** A forced POOL_UPGRADE on a readonly pool, accepted by the handler. *)
Lemma forced_governance_validated_then_applied_witness :
  trace_of (processRequest sim (sim_request "109" true) "client"
              (sim_node sim_readonly)) =
    [call_is_query (PyStr "109");
     call_configReqHandler_validate (sim_request "109" true);
     call_configReqHandler_applyForced (sim_request "109" true);
     call_poolCfg_isWritable;
     call_super_processRequest (sim_request "109" true) "client"].
Proof.
  destruct (forced_governance_validated_then_applied sim
              (sim_request "109" true) "client" (sim_node sim_readonly)
              (PyStr "109") sim_readonly (sim_request_type _ _))
    as (Hrun & _); [reflexivity | reflexivity | reflexivity |].
  apply (Hrun sim_readonly sim_readonly sim_readonly false); reflexivity.
Defined.

(** C9: a request that is not a query, of type POOL_UPGRADE or POOL_CONFIG
    and forced, once validated and applied by the config request handler,
    is also handed to the base class's processRequest, on a writable pool
    and on a readonly one: it is applied once by applyForced and forwarded
    once to the consensus path, and the outcome of the base class is the
    outcome of the method. *)
Theorem forced_governance_also_forwarded
    {W : Type} (E : Collaborators W) `{Constants}
    (request : Request) (frm : string) (s : Node W) (txn_type : PyVal)
    (w1 w2 w3 w4 : W) (writable : bool) :
  operation request !! TXN_TYPE = Some txn_type ->
  PlenumNode_is_query E txn_type (world s) = (Ok false, w1) ->
  governance txn_type = true ->
  Request_isForced E request = true ->
  configReqHandler_validate E request w1 = (Ok tt, w2) ->
  configReqHandler_applyForced E request w2 = (Ok tt, w3) ->
  poolCfg_isWritable E w3 = (Ok writable, w4) ->
  result_of (processRequest E request frm s) =
    (PlenumNode_processRequest E request frm w4).1
  /\ node_of (processRequest E request frm s) =
    with_world s (PlenumNode_processRequest E request frm w4).2
  /\ count is_applyForced (trace_of (processRequest E request frm s)) = 1%nat
  /\ count is_super_processRequest (trace_of (processRequest E request frm s)) =
    1%nat
  /\ exists before between : list Call,
    trace_of (processRequest E request frm s) =
      before ++ call_configReqHandler_applyForced request
      :: between ++ [call_super_processRequest request frm].
Proof.
  intros Htype Hquery Hgov Hforced Hvalid Happly Hwritable.
  rewrite (processRequest_forced E request frm s txn_type Htype
             w1 w2 w3 w4 writable) by assumption.
  repeat split.
  exists [call_is_query txn_type; call_configReqHandler_validate request],
    [call_poolCfg_isWritable].
  reflexivity.
Qed.

(** A forced POOL_CONFIG on a readonly pool. *)
Lemma forced_governance_also_forwarded_witness :
  count is_applyForced
    (trace_of (processRequest sim (sim_request "111" true) "client"
                 (sim_node sim_readonly))) = 1%nat
  /\ count is_super_processRequest
    (trace_of (processRequest sim (sim_request "111" true) "client"
                 (sim_node sim_readonly))) = 1%nat.
Proof.
  destruct (forced_governance_also_forwarded sim (sim_request "111" true)
              "client" (sim_node sim_readonly) (PyStr "111")
              sim_readonly sim_readonly sim_readonly sim_readonly false
              (sim_request_type _ _))
    as (_ & _ & Happlied & Hforwarded & _); try reflexivity.
  split; assumption.
Defined.

(** ** Requests from peers *)

Lemma py_eq_str_refl (c : string) : py_eq_str (PyStr c) c = true.
Proof. unfold py_eq_str. apply bool_decide_eq_true. reflexivity. Qed.

(** C5: a request from a peer whose operation has type NODE_UPGRADE is
    authenticated by the node authenticator on the operation's DATA, the
    request's identifier and the operation's signature.  If [authenticate]
    raises, whatever the exception, a warning is logged and the method
    returns: the request is not recorded as being processed, not
    propagated, and nothing is sent.  If it returns, the request is
    recorded as being processed unless it already is, and is propagated.
    [authNr] selects the node authenticator for a message whose operation
    has type NODE_UPGRADE, without asking the base class. *)
Theorem node_upgrade_request_authenticated_or_dropped
    {W : Type} (E : Collaborators W) `{Constants}
    (request : Request) (frm : string) (s : Node W) (data sig : PyVal) :
  operation request !! TXN_TYPE = Some (PyStr NODE_UPGRADE) ->
  operation request !! DATA = Some data ->
  operation request !! f_SIG_nm = Some sig ->
  (forall (ex : Exn) (w1 : W),
     nodeAuthNr_authenticate E data (identifier request) sig (world s) =
       (Raise ex, w1) ->
     processNodeRequest E request frm s =
       (Ok tt, with_world s w1,
        [call_nodeAuthNr_authenticate data (identifier request) sig;
         call_logger_warning request ex]))
  /\ (forall (v : PyVal) (w1 w2 : W),
     nodeAuthNr_authenticate E data (identifier request) sig (world s) =
       (Ok v, w1) ->
     PlenumNode_isProcessingReq E (Request_key E request) w1 = (Ok true, w2) ->
     processNodeRequest E request frm s =
       ((PlenumNode_recordAndPropagate E request frm w2).1,
        with_world s (PlenumNode_recordAndPropagate E request frm w2).2,
        [call_nodeAuthNr_authenticate data (identifier request) sig;
         call_isProcessingReq (Request_key E request);
         call_recordAndPropagate request frm]))
  /\ (forall (v : PyVal) (w1 w2 w3 : W),
     nodeAuthNr_authenticate E data (identifier request) sig (world s) =
       (Ok v, w1) ->
     PlenumNode_isProcessingReq E (Request_key E request) w1 = (Ok false, w2) ->
     PlenumNode_startedProcessingReq E (Request_key E request ++ [PyStr frm]) w2 =
       (Ok tt, w3) ->
     processNodeRequest E request frm s =
       ((PlenumNode_recordAndPropagate E request frm w3).1,
        with_world s (PlenumNode_recordAndPropagate E request frm w3).2,
        [call_nodeAuthNr_authenticate data (identifier request) sig;
         call_isProcessingReq (Request_key E request);
         call_startedProcessingReq (Request_key E request ++ [PyStr frm]);
         call_recordAndPropagate request frm]))
  /\ (forall req : gmap string PyVal,
     req !! OPERATION = Some (PyDict (operation request)) ->
     authNr E req s = (Ok nodeAuthNr, s, [])).
Proof.
  intros Htype Hdata Hsig. split; [| split; [| split]].
  - intros ex w1 Hauth. unfold processNodeRequest.
    rewrite (getitem_Some _ _ _ Htype), (getitem_Some _ _ _ Hdata),
      (getitem_Some _ _ _ Hsig).
    known. rewrite py_eq_str_refl.
    erewrite bind_try_except_raise by (repeat known; reflexivity).
    repeat known. reflexivity.
  - intros v w1 w2 Hauth Hprocessing. unfold processNodeRequest.
    rewrite (getitem_Some _ _ _ Htype), (getitem_Some _ _ _ Hdata),
      (getitem_Some _ _ _ Hsig).
    known. rewrite py_eq_str_refl.
    erewrite bind_try_except_ok by (repeat known; reflexivity).
    repeat known. reflexivity.
  - intros v w1 w2 w3 Hauth Hprocessing Hstarted. unfold processNodeRequest.
    rewrite (getitem_Some _ _ _ Htype), (getitem_Some _ _ _ Hdata),
      (getitem_Some _ _ _ Hsig).
    known. rewrite py_eq_str_refl.
    erewrite bind_try_except_ok by (repeat known; reflexivity).
    repeat known. reflexivity.
  - intros req Hop. unfold authNr, dict_get. rewrite Hop.
    cbn [from_option id]. repeat known. rewrite Htype.
    cbn [from_option id]. repeat known. rewrite py_eq_str_refl. reflexivity.
Qed.

(** A message the node authenticator rejects, and one it accepts. *)
Lemma node_upgrade_request_authenticated_or_dropped_witness :
  processNodeRequest sim sim_upgrade_request "Node1" (sim_node sim_forged) =
    (Ok tt, sim_node sim_forged,
     [call_nodeAuthNr_authenticate
        (PyDict (upgrade_data (PyStr "complete") (PyStr "1.2.0")))
        (PyStr "Node1") (PyStr "sig(data)");
      call_logger_warning sim_upgrade_request
        (OtherError "InvalidSignature" (PyStr "Node1"))])
  /\ trace_of (processNodeRequest sim sim_upgrade_request "Node1" (sim_node sim0)) =
    [call_nodeAuthNr_authenticate
       (PyDict (upgrade_data (PyStr "complete") (PyStr "1.2.0")))
       (PyStr "Node1") (PyStr "sig(data)");
     call_isProcessingReq [PyStr "Node1"; PyInt 1];
     call_startedProcessingReq [PyStr "Node1"; PyInt 1; PyStr "Node1"];
     call_recordAndPropagate sim_upgrade_request "Node1"]
  /\ authNr sim sim_upgrade_msg (sim_node sim0) =
    (Ok nodeAuthNr, sim_node sim0, []).
Proof.
  assert (Hop : TXN_TYPE <> DATA /\ TXN_TYPE <> f_SIG_nm /\ DATA <> f_SIG_nm
                /\ ACTION <> VERSION) by (repeat split; discriminate).
  destruct Hop as (Htd & Hts & Hds & Hav).
  destruct (upgrade_op_lookup (PyStr "complete") (PyStr "1.2.0")
              (PyStr "sig(data)") Htd Hts Hds Hav)
    as (Htype & Hdata & Hsig & _).
  split; [| split].
  - destruct (node_upgrade_request_authenticated_or_dropped sim
                sim_upgrade_request "Node1" (sim_node sim_forged) _ _
                Htype Hdata Hsig) as (Hdrop & _).
    apply (Hdrop _ sim_forged). reflexivity.
  - destruct (node_upgrade_request_authenticated_or_dropped sim
                sim_upgrade_request "Node1" (sim_node sim0) _ _
                Htype Hdata Hsig) as (_ & _ & Hnew & _).
    rewrite (Hnew (PyStr "Node1") sim0 sim0 (mkSim true true true true true true));
      reflexivity.
  - destruct (node_upgrade_request_authenticated_or_dropped sim
                sim_upgrade_request "Node1" (sim_node sim0) _ _
                Htype Hdata Hsig) as (_ & _ & _ & Hauth).
    apply Hauth. reflexivity.
Defined.

(** ** Attribute rehydration *)

Section Rehydration.
Context {W : Type} `{Constants}.
Context (txn : gmap string PyVal) (s : Node W) (txn_type : PyVal).
Hypothesis Htype : txn !! TXN_TYPE = Some txn_type.

(** The field under [k] holds a hash and [k] is the key the method picks. *)
Lemma update_txn_with_extra_data_key (k : string) (hash : PyVal) :
  py_eq_str txn_type ATTRIB = true ->
  k <> EmptyString ->
  txn !! k = Some hash ->
  (if present_and_not_None txn RAW then Some RAW
   else if present_and_not_None txn ENC then Some ENC else None) = Some k ->
  update_txn_with_extra_data txn s =
    match attributeStore s hash with
    | Some val => (Ok (<[k := val]> txn), s, [call_attributeStore_get hash])
    | None => (Raise (KeyError hash), s, [call_attributeStore_get hash])
    end.
Proof.
  intros Hattrib Hk Hhash Hkey. unfold update_txn_with_extra_data.
  rewrite (getitem_Some _ _ _ Htype). repeat known.
  rewrite Hattrib, Hkey. unfold truthy_key.
  rewrite bool_decide_eq_false_2 by assumption. cbn [negb].
  rewrite (getitem_Some _ _ _ Hhash). repeat known.
  unfold bind, attributeStore_get, AttributeStore_get, ret.
  destruct (attributeStore s hash); reflexivity.
Qed.

(** No field to rehydrate. *)
Lemma update_txn_with_extra_data_other :
  py_eq_str txn_type ATTRIB = false
  \/ present_and_not_None txn RAW = false
     /\ present_and_not_None txn ENC = false ->
  update_txn_with_extra_data txn s = (Ok txn, s, []).
Proof.
  intros Hother. unfold update_txn_with_extra_data.
  rewrite (getitem_Some _ _ _ Htype). repeat known.
  destruct (py_eq_str txn_type ATTRIB); [| reflexivity].
  destruct Hother as [Hattrib | [Hraw Henc]]; [discriminate |].
  rewrite Hraw, Henc. reflexivity.
Qed.

End Rehydration.

(** C7: [update_txn_with_extra_data].  For a transaction of type ATTRIB
    whose RAW field is present and not None, the hash under RAW is looked
    up in the attribute store and replaced by the value found; when RAW is
    absent or None and ENC is present and not None, the same is done with
    ENC.  If the store does not hold the hash, the error of the store
    reaches the caller, naming the hash, and no transaction is returned.
    A transaction of another type, or with neither field present and not
    None, is returned unchanged and the store is not consulted. *)
Theorem update_txn_with_extra_data_rehydrates
    {W : Type} `{Constants}
    (txn : gmap string PyVal) (s : Node W) (txn_type : PyVal) :
  txn !! TXN_TYPE = Some txn_type ->
  RAW <> EmptyString ->
  ENC <> EmptyString ->
  (forall hash : PyVal,
     py_eq_str txn_type ATTRIB = true ->
     txn !! RAW = Some hash -> hash <> PyNone ->
     (forall val : PyVal,
        attributeStore s hash = Some val ->
        update_txn_with_extra_data txn s =
          (Ok (<[RAW := val]> txn), s, [call_attributeStore_get hash]))
     /\ (attributeStore s hash = None ->
        update_txn_with_extra_data txn s =
          (Raise (KeyError hash), s, [call_attributeStore_get hash])))
  /\ (forall hash : PyVal,
     py_eq_str txn_type ATTRIB = true ->
     present_and_not_None txn RAW = false ->
     txn !! ENC = Some hash -> hash <> PyNone ->
     (forall val : PyVal,
        attributeStore s hash = Some val ->
        update_txn_with_extra_data txn s =
          (Ok (<[ENC := val]> txn), s, [call_attributeStore_get hash]))
     /\ (attributeStore s hash = None ->
        update_txn_with_extra_data txn s =
          (Raise (KeyError hash), s, [call_attributeStore_get hash])))
  /\ (py_eq_str txn_type ATTRIB = false
      \/ present_and_not_None txn RAW = false
         /\ present_and_not_None txn ENC = false ->
      update_txn_with_extra_data txn s = (Ok txn, s, [])).
Proof.
  intros Htype Hraw Henc. split; [| split].
  - intros hash Hattrib Hhash Hnot_none.
    assert (Hkey : (if present_and_not_None txn RAW then Some RAW
                    else if present_and_not_None txn ENC then Some ENC
                    else None) = Some RAW).
    { unfold present_and_not_None at 1. rewrite Hhash.
      destruct hash; try reflexivity. contradiction. }
    pose proof (update_txn_with_extra_data_key txn s txn_type Htype
                  RAW hash Hattrib Hraw Hhash Hkey) as Hrun.
    split.
    + intros val Hval. rewrite Hrun, Hval. reflexivity.
    + intros Hmiss. rewrite Hrun, Hmiss. reflexivity.
  - intros hash Hattrib Hno_raw Hhash Hnot_none.
    assert (Hkey : (if present_and_not_None txn RAW then Some RAW
                    else if present_and_not_None txn ENC then Some ENC
                    else None) = Some ENC).
    { rewrite Hno_raw. unfold present_and_not_None. rewrite Hhash.
      destruct hash; try reflexivity. contradiction. }
    pose proof (update_txn_with_extra_data_key txn s txn_type Htype
                  ENC hash Hattrib Henc Hhash Hkey) as Hrun.
    split.
    + intros val Hval. rewrite Hrun, Hval. reflexivity.
    + intros Hmiss. rewrite Hrun, Hmiss. reflexivity.
  - apply update_txn_with_extra_data_other. assumption.
Qed.

(** A hash the store holds, and one it does not. *)
Lemma update_txn_with_extra_data_rehydrates_witness :
  update_txn_with_extra_data (sim_attrib "6d4a33") (sim_node sim0) =
    (Ok (<[RAW := PyStr "Alice"]> (sim_attrib "6d4a33")), sim_node sim0,
     [call_attributeStore_get (PyStr "6d4a33")])
  /\ update_txn_with_extra_data (sim_attrib "0000") (sim_node sim0) =
    (Raise (KeyError (PyStr "0000")), sim_node sim0,
     [call_attributeStore_get (PyStr "0000")]).
Proof.
  split.
  - destruct (update_txn_with_extra_data_rehydrates (sim_attrib "6d4a33")
                (sim_node sim0) (PyStr "100"))
      as (Hraw & _); [reflexivity | discriminate | discriminate |].
    destruct (Hraw (PyStr "6d4a33")) as (Hhit & _);
      [reflexivity | reflexivity | discriminate |].
    apply Hhit. reflexivity.
  - destruct (update_txn_with_extra_data_rehydrates (sim_attrib "0000")
                (sim_node sim0) (PyStr "100"))
      as (Hraw & _); [reflexivity | discriminate | discriminate |].
    destruct (Hraw (PyStr "0000")) as (_ & Hmiss);
      [reflexivity | reflexivity | discriminate |].
    apply Hmiss. reflexivity.
Defined.

(** ** The catch-up sequence *)

Section CatchUp.
Context {W : Type} (E : Collaborators W) `{Constants}.

Lemma trace_bind {A B} (m : M W A) (k : A -> M W B) (s : Node W) :
  trace_of (bind m k s) =
    trace_of (m s) ++
    match result_of (m s) with
    | Ok a => trace_of (k a (node_of (m s)))
    | Raise _ => []
    end.
Proof.
  unfold bind. destruct (m s) as [[[a|e] s1] t1]; outcome.
  - destruct (k a s1) as [[r s2] t2]. reflexivity.
  - rewrite app_nil_r. reflexivity.
Qed.

Lemma sequenced_app (t1 t2 : list Call) :
  (forall p c, sequenced p c t2 = true) ->
  forall p c, sequenced p c t1 = true -> sequenced p c (t1 ++ t2) = true.
Proof.
  intros Ht2. induction t1 as [| x t1 IH]; intros p c Ht1; [apply Ht2 |].
  destruct x; try destruct ledger; cbn [app sequenced] in *;
    try (apply IH; assumption);
    apply andb_true_iff in Ht1 as [Hx Ht1];
    apply andb_true_iff; split; try assumption; apply IH; assumption.
Qed.

Lemma acknowledge_upgrade_sequenced (s : Node W) (p c : bool) :
  sequenced p c (trace_of (acknowledge_upgrade E s)) = true.
Proof. unfold acknowledge_upgrade. repeat step; outcome; reflexivity. Qed.

Lemma catchup_next_ledger_after_pool_sequenced (s : Node W) (c : bool) :
  sequenced true c (trace_of (catchup_next_ledger_after_pool E s)) = true.
Proof.
  unfold catchup_next_ledger_after_pool, start_config_ledger_sync.
  repeat step; outcome; cbn [sequenced]; rewrite Z.eqb_refl; reflexivity.
Qed.

Lemma postConfigLedgerCaughtUp_sequenced (s : Node W) (p : bool) :
  sequenced p true (trace_of (postConfigLedgerCaughtUp E s)) = true.
Proof.
  unfold postConfigLedgerCaughtUp.
  do 3 (step; [| reflexivity]). outcome. cbn [sequenced andb].
  apply acknowledge_upgrade_sequenced.
Qed.

Lemma onLedgerSynced_sequenced (ledger : LedgerId) (s : Node W) (p c : bool) :
  sequenced p c (trace_of (onLedgerSynced E ledger s)) = true.
Proof.
  unfold onLedgerSynced. rewrite bind_log. outcome.
  destruct ledger; cbn [sequenced].
  - apply catchup_next_ledger_after_pool_sequenced.
  - apply postConfigLedgerCaughtUp_sequenced.
  - reflexivity.
Qed.

Lemma catch_up_sequenced (reports : list LedgerId) :
  forall (s : Node W) (p c : bool),
    sequenced p c (trace_of (catch_up E reports s)) = true.
Proof.
  induction reports as [| ledger rest IH]; intros s p c; [reflexivity |].
  cbn [catch_up]. rewrite trace_bind.
  apply sequenced_app; [| apply onLedgerSynced_sequenced].
  intros p' c'. destruct (result_of (onLedgerSynced E ledger s)).
  - apply IH.
  - reflexivity.
Qed.

(** What [sequenced] means for a call found in the trace. *)
Lemma sequenced_config_sync (pre post : list Call) :
  forall p c,
    sequenced p c (pre ++ call_sync_ledger CONFIG_LEDGER_ID :: post) = true ->
    p = true \/ In (event_ledger_synced Pool) pre.
Proof.
  induction pre as [| x pre IH]; intros p c Hseq.
  - cbn [app sequenced] in Hseq. rewrite Z.eqb_refl in Hseq.
    apply andb_true_iff in Hseq as [Hp _]. left. assumption.
  - destruct x; try destruct ledger; cbn [app sequenced] in Hseq;
      try (right; left; reflexivity);
      try apply andb_true_iff in Hseq as [_ Hseq];
      apply IH in Hseq as [Hp | Hin];
      solve [ left; assumption | right; right; assumption ].
Qed.

Lemma sequenced_domain_sync (pre post : list Call) :
  forall p c,
    sequenced p c (pre ++ call_start_domain_ledger_sync :: post) = true ->
    c = true \/ In (event_ledger_synced Config) pre.
Proof.
  induction pre as [| x pre IH]; intros p c Hseq.
  - cbn [app sequenced] in Hseq.
    apply andb_true_iff in Hseq as [Hc _]. left. assumption.
  - destruct x; try destruct ledger; cbn [app sequenced] in Hseq;
      try (right; left; reflexivity);
      try apply andb_true_iff in Hseq as [_ Hseq];
      apply IH in Hseq as [Hc | Hin];
      solve [ left; assumption | right; right; assumption ].
Qed.

End CatchUp.

(** C4: the catch-up sequencer chains the ledgers.  When the pool ledger
    is caught up, [catchup_next_ledger_after_pool] starts the sync of the
    config ledger and then has the ledger manager process the stashed
    statuses of the config ledger.  When the config ledger is caught up,
    [postConfigLedgerCaughtUp] has the pool configuration and then the
    upgrader process the ledger, then starts the sync of the domain
    ledger, then runs [acknowledge_upgrade].  Hence, whatever reports
    arrive in a catch-up round and whatever the collaborators answer, the
    sync of the config ledger is started only after the pool ledger was
    reported synced, and the sync of the domain ledger only after the
    config ledger was. *)
Theorem catch_up_chains_ledgers_in_order
    {W : Type} (E : Collaborators W) `{Constants} (s : Node W) :
  (forall w1 : W,
     PlenumNode_sync_ledger E CONFIG_LEDGER_ID (world s) = (Ok tt, w1) ->
     catchup_next_ledger_after_pool E s =
       ((ledgerManager_processStashedLedgerStatuses E CONFIG_LEDGER_ID w1).1,
        with_world s
          (ledgerManager_processStashedLedgerStatuses E CONFIG_LEDGER_ID w1).2,
        [call_sync_ledger CONFIG_LEDGER_ID;
         call_ledgerManager_processStashedLedgerStatuses CONFIG_LEDGER_ID]))
  /\ (forall w1 w2 w3 : W,
     poolCfg_processLedger E (world s) = (Ok tt, w1) ->
     upgrader_processLedger E w1 = (Ok tt, w2) ->
     PlenumNode_start_domain_ledger_sync E w2 = (Ok tt, w3) ->
     postConfigLedgerCaughtUp E s =
       (result_of (acknowledge_upgrade E (with_world s w3)),
        node_of (acknowledge_upgrade E (with_world s w3)),
        [call_poolCfg_processLedger;
         call_upgrader_processLedger;
         call_start_domain_ledger_sync]
        ++ trace_of (acknowledge_upgrade E (with_world s w3))))
  /\ (forall (reports : list LedgerId) (pre post : list Call),
     trace_of (catch_up E reports s) =
       pre ++ call_sync_ledger CONFIG_LEDGER_ID :: post ->
     In (event_ledger_synced Pool) pre)
  /\ (forall (reports : list LedgerId) (pre post : list Call),
     trace_of (catch_up E reports s) =
       pre ++ call_start_domain_ledger_sync :: post ->
     In (event_ledger_synced Config) pre).
Proof.
  split; [| split; [| split]].
  - intros w1 Hsync.
    unfold catchup_next_ledger_after_pool, start_config_ledger_sync.
    repeat known. reflexivity.
  - intros w1 w2 w3 Hcfg Hupgrader Hdomain.
    unfold postConfigLedgerCaughtUp. repeat known. reflexivity.
  - intros reports pre post Htrace.
    pose proof (catch_up_sequenced E reports s false false) as Hseq.
    rewrite Htrace in Hseq.
    apply sequenced_config_sync in Hseq as [Hp | Hin];
      [discriminate | assumption].
  - intros reports pre post Htrace.
    pose proof (catch_up_sequenced E reports s false false) as Hseq.
    rewrite Htrace in Hseq.
    apply sequenced_domain_sync in Hseq as [Hc | Hin];
      [discriminate | assumption].
Qed.

(** A round where the three ledgers are reported in order. *)
Lemma catch_up_chains_ledgers_in_order_witness :
  catchup_next_ledger_after_pool sim (sim_node sim0) =
    (Ok tt, sim_node sim0,
     [call_sync_ledger 2; call_ledgerManager_processStashedLedgerStatuses 2])
  /\ In (event_ledger_synced Config)
       [event_ledger_synced Pool; call_sync_ledger 2;
        call_ledgerManager_processStashedLedgerStatuses 2;
        event_ledger_synced Config; call_poolCfg_processLedger;
        call_upgrader_processLedger].
Proof.
  destruct (catch_up_chains_ledgers_in_order sim (sim_node sim0))
    as (Hpool & _ & _ & Hdomain).
  split.
  - apply (Hpool sim0). reflexivity.
  - apply (Hdomain [Pool; Config; Domain] _
             (skipn 7 (trace_of (catch_up sim [Pool; Config; Domain]
                                   (sim_node sim0))))).
    reflexivity.
Defined.

(** ** Orderings that hold whatever the collaborators answer *)

(** What [preceded] means for a call found in the trace. *)
Lemma preceded_found (p q : Call -> bool) (pre post : list Call) (x : Call) :
  forall seen : bool,
    preceded p q seen (pre ++ x :: post) = true ->
    q x = true ->
    seen = true \/ exists y : Call, In y pre /\ p y = true.
Proof.
  induction pre as [| y pre IH]; intros seen Hpreceded Hq.
  - cbn [app preceded] in Hpreceded. rewrite Hq in Hpreceded.
    apply andb_true_iff in Hpreceded as [Hseen _]. left. exact Hseen.
  - cbn [app preceded] in Hpreceded.
    apply andb_true_iff in Hpreceded as [_ Hpreceded].
    apply IH in Hpreceded as [Hseen | (z & Hin & Hp)]; [| | exact Hq].
    + apply orb_true_iff in Hseen as [Hseen | Hy].
      * left. exact Hseen.
      * right. exists y. split; [left; reflexivity | exact Hy].
    + right. exists z. split; [right; exact Hin | exact Hp].
Qed.

Section Explore.
Context {W : Type}.

Lemma bind_try_except {A B} (m : M W A) (h : Exn -> M W A) (k : A -> M W B)
    (s : Node W) :
  bind (try_except m h) k s =
    match result_of (m s) with
    | Ok a =>
        (result_of (k a (node_of (m s))), node_of (k a (node_of (m s))),
         trace_of (m s) ++ trace_of (k a (node_of (m s))))
    | Raise e =>
        (result_of (bind (h e) k (node_of (m s))),
         node_of (bind (h e) k (node_of (m s))),
         trace_of (m s) ++ trace_of (bind (h e) k (node_of (m s))))
    end.
Proof.
  destruct (m s) as [[[a|e] s1] t1] eqn:Hm; outcome.
  - apply bind_try_except_ok. exact Hm.
  - apply bind_try_except_raise. exact Hm.
Qed.

Lemma raise_run {A} (e : Exn) (s : Node W) :
  @raise W A e s = (Raise e, s, []).
Proof. reflexivity. Qed.

Lemma ret_run {A} (a : A) (s : Node W) : @ret W A a s = (Ok a, s, []).
Proof. reflexivity. Qed.

Lemma getitem_None (d : gmap string PyVal) (k : string) :
  d !! k = None -> getitem d k = Raise (KeyError (PyStr k)).
Proof. unfold getitem. intros ->. reflexivity. Qed.

End Explore.

(** Run a method to its end, one case for each way a collaborator can
    answer, try statements included. *)
Ltac explore :=
  repeat first
    [ rewrite bind_try_except
    | rewrite bind_lift_ok
    | step
    | rewrite raise_run
    | rewrite ret_run ];
  outcome; cbn [app].

(** ** Requests from peers: edges *)

(** X1: a NODE_UPGRADE request from a peer whose operation has no DATA, or
    has DATA but no signature, is dropped like one that fails to
    authenticate: the KeyError is caught, a warning is logged, and the
    method returns without calling the authenticator and without recording
    or propagating the request. *)
Theorem processNodeRequest_incomplete_upgrade_dropped
    {W : Type} (E : Collaborators W) `{Constants}
    (request : Request) (frm : string) (s : Node W) :
  operation request !! TXN_TYPE = Some (PyStr NODE_UPGRADE) ->
  (operation request !! DATA = None ->
     processNodeRequest E request frm s =
       (Ok tt, s, [call_logger_warning request (KeyError (PyStr DATA))]))
  /\ (forall data : PyVal,
     operation request !! DATA = Some data ->
     operation request !! f_SIG_nm = None ->
     processNodeRequest E request frm s =
       (Ok tt, s, [call_logger_warning request (KeyError (PyStr f_SIG_nm))])).
Proof.
  intros Htype. split.
  - intros Hdata. unfold processNodeRequest.
    rewrite (getitem_Some _ _ _ Htype), (getitem_None _ _ Hdata).
    known. rewrite py_eq_str_refl.
    erewrite bind_try_except_raise by (rewrite bind_lift; reflexivity).
    repeat known. destruct s. reflexivity.
  - intros data Hdata Hsig. unfold processNodeRequest.
    rewrite (getitem_Some _ _ _ Htype), (getitem_Some _ _ _ Hdata),
      (getitem_None _ _ Hsig).
    known. rewrite py_eq_str_refl.
    erewrite bind_try_except_raise
      by (rewrite bind_lift_ok, bind_lift; reflexivity).
    repeat known. destruct s. reflexivity.
Qed.

(** A request of type NODE_UPGRADE with neither DATA nor signature. *)
Lemma processNodeRequest_incomplete_upgrade_dropped_witness :
  processNodeRequest sim (sim_request "110" false) "Node2" (sim_node sim0) =
    (Ok tt, sim_node sim0,
     [call_logger_warning (sim_request "110" false) (KeyError (PyStr "data"))]).
Proof.
  destruct (processNodeRequest_incomplete_upgrade_dropped sim
              (sim_request "110" false) "Node2" (sim_node sim0)
              (sim_request_type _ _)) as [Hdata _].
  apply Hdata. reflexivity.
Defined.

Lemma processNodeRequest_upgrade_ordered
    {W : Type} (E : Collaborators W) `{Constants}
    (request : Request) (frm : string) (s : Node W) :
  operation request !! TXN_TYPE = Some (PyStr NODE_UPGRADE) ->
  preceded is_authenticate
    (fun c => is_recordAndPropagate c || is_startedProcessingReq c) false
    (trace_of (processNodeRequest E request frm s)) = true
  /\ (count is_logger_warning (trace_of (processNodeRequest E request frm s))
      + count is_recordAndPropagate
          (trace_of (processNodeRequest E request frm s)) <= 1)%nat
  /\ (count is_logger_warning (trace_of (processNodeRequest E request frm s))
      = 1%nat ->
      result_of (processNodeRequest E request frm s) = Ok tt).
Proof.
  intros Htype. unfold processNodeRequest.
  rewrite (getitem_Some _ _ _ Htype). known. rewrite py_eq_str_refl.
  explore; (split; [reflexivity | split; [cbn; lia | cbn; try discriminate; reflexivity]]).
Qed.

(** X2: whatever the collaborators answer, a NODE_UPGRADE request from a
    peer is recorded as being processed or propagated only after the node
    authenticator was called on it; a request for which a warning was
    logged is never propagated, and logging the warning ends the method
    normally. *)
Theorem processNodeRequest_upgrade_never_propagated_unauthenticated
    {W : Type} (E : Collaborators W) `{Constants}
    (request : Request) (frm : string) (s : Node W) :
  operation request !! TXN_TYPE = Some (PyStr NODE_UPGRADE) ->
  (forall (pre post : list Call) (x : Call),
     trace_of (processNodeRequest E request frm s) = pre ++ x :: post ->
     is_recordAndPropagate x = true \/ is_startedProcessingReq x = true ->
     exists y : Call, In y pre /\ is_authenticate y = true)
  /\ (count is_logger_warning (trace_of (processNodeRequest E request frm s))
      = 1%nat ->
      count is_recordAndPropagate
        (trace_of (processNodeRequest E request frm s)) = 0%nat
      /\ result_of (processNodeRequest E request frm s) = Ok tt).
Proof.
  intros Htype.
  destruct (processNodeRequest_upgrade_ordered E request frm s Htype)
    as (Hordered & Hcount & Hresult).
  split.
  - intros pre post x Htrace Hx. rewrite Htrace in Hordered.
    apply preceded_found in Hordered as [Hseen | Hfound];
      [discriminate | exact Hfound |].
    apply orb_true_iff. exact Hx.
  - intros Hwarned. split; [lia | apply Hresult; exact Hwarned].
Qed.

(** An authentic message: authenticate comes before the propagation. *)
Lemma processNodeRequest_upgrade_never_propagated_unauthenticated_witness :
  trace_of (processNodeRequest sim sim_upgrade_request "Node1" (sim_node sim0)) =
    [call_nodeAuthNr_authenticate
       (PyDict (upgrade_data (PyStr "complete") (PyStr "1.2.0")))
       (PyStr "Node1") (PyStr "sig(data)");
     call_isProcessingReq [PyStr "Node1"; PyInt 1];
     call_startedProcessingReq [PyStr "Node1"; PyInt 1; PyStr "Node1"]]
    ++ call_recordAndPropagate sim_upgrade_request "Node1" :: []
  /\ exists y : Call,
    In y [call_nodeAuthNr_authenticate
            (PyDict (upgrade_data (PyStr "complete") (PyStr "1.2.0")))
            (PyStr "Node1") (PyStr "sig(data)");
          call_isProcessingReq [PyStr "Node1"; PyInt 1];
          call_startedProcessingReq [PyStr "Node1"; PyInt 1; PyStr "Node1"]]
    /\ is_authenticate y = true.
Proof.
  assert (Htrace :
    trace_of (processNodeRequest sim sim_upgrade_request "Node1"
                (sim_node sim0)) =
      [call_nodeAuthNr_authenticate
         (PyDict (upgrade_data (PyStr "complete") (PyStr "1.2.0")))
         (PyStr "Node1") (PyStr "sig(data)");
       call_isProcessingReq [PyStr "Node1"; PyInt 1];
       call_startedProcessingReq [PyStr "Node1"; PyInt 1; PyStr "Node1"]]
      ++ call_recordAndPropagate sim_upgrade_request "Node1" :: [])
    by reflexivity.
  split; [exact Htrace |].
  assert (Hkeys : TXN_TYPE <> DATA /\ TXN_TYPE <> f_SIG_nm /\ DATA <> f_SIG_nm
                  /\ ACTION <> VERSION) by (repeat split; discriminate).
  destruct Hkeys as (Htd & Hts & Hds & Hav).
  destruct (upgrade_op_lookup (PyStr "complete") (PyStr "1.2.0")
              (PyStr "sig(data)") Htd Hts Hds Hav) as (Htype & _).
  destruct (processNodeRequest_upgrade_never_propagated_unauthenticated sim
              sim_upgrade_request "Node1" (sim_node sim0) Htype)
    as [Hordered _].
  apply (Hordered _ [] (call_recordAndPropagate sim_upgrade_request "Node1")
           Htrace).
  left. reflexivity.
Defined.

(** X3: a request from a peer whose type is not NODE_UPGRADE is not
    authenticated by the node at all: whatever the collaborators answer,
    the node authenticator is not called and no warning is logged; the
    first call asks whether the request is already being processed, and
    the request is propagated whenever that call and the recording
    return. *)
Theorem processNodeRequest_other_types_not_authenticated
    {W : Type} (E : Collaborators W) `{Constants}
    (request : Request) (frm : string) (s : Node W) (txn_type : PyVal) :
  operation request !! TXN_TYPE = Some txn_type ->
  py_eq_str txn_type NODE_UPGRADE = false ->
  count is_authenticate (trace_of (processNodeRequest E request frm s)) = 0%nat
  /\ count is_logger_warning (trace_of (processNodeRequest E request frm s))
     = 0%nat
  /\ (exists rest : list Call,
        trace_of (processNodeRequest E request frm s) =
          call_isProcessingReq (Request_key E request) :: rest)
  /\ (forall (w1 : W),
        PlenumNode_isProcessingReq E (Request_key E request) (world s) =
          (Ok true, w1) ->
        processNodeRequest E request frm s =
          ((PlenumNode_recordAndPropagate E request frm w1).1,
           with_world s (PlenumNode_recordAndPropagate E request frm w1).2,
           [call_isProcessingReq (Request_key E request);
            call_recordAndPropagate request frm])).
Proof.
  intros Htype Hother. unfold processNodeRequest.
  rewrite (getitem_Some _ _ _ Htype). known. rewrite Hother.
  split; [| split; [| split]].
  - explore; reflexivity.
  - explore; reflexivity.
  - explore; eexists; reflexivity.
  - intros w1 Hprocessing. repeat known. reflexivity.
Qed.

(** A request of a domain type that is already being processed. *)
Lemma processNodeRequest_other_types_not_authenticated_witness :
  count is_authenticate
    (trace_of (processNodeRequest sim (sim_request "1" false) "Node2"
                 (sim_node (mkSim false true true true false true)))) = 0%nat
  /\ trace_of (processNodeRequest sim (sim_request "1" false) "Node2"
                 (sim_node (mkSim false true true true false true))) =
     [call_isProcessingReq [PyStr "client"; PyInt 7];
      call_recordAndPropagate (sim_request "1" false) "Node2"].
Proof.
  destruct (processNodeRequest_other_types_not_authenticated sim
              (sim_request "1" false) "Node2"
              (sim_node (mkSim false true true true false true)) (PyStr "1")
              (sim_request_type _ _) eq_refl)
    as (Hauth & _ & _ & Hrun).
  split; [exact Hauth |].
  rewrite (Hrun (mkSim false true true true false true)); reflexivity.
Defined.

(** X4: a request whose operation has no TXN_TYPE cannot be routed:
    [processNodeRequest] and [processRequest] both raise the KeyError of
    the lookup before any call is made, and leave the node as it was. *)
Theorem request_without_type_raises_KeyError
    {W : Type} (E : Collaborators W) `{Constants}
    (request : Request) (frm : string) (s : Node W) :
  operation request !! TXN_TYPE = None ->
  processNodeRequest E request frm s =
    (Raise (KeyError (PyStr TXN_TYPE)), s, [])
  /\ processRequest E request frm s =
    (Raise (KeyError (PyStr TXN_TYPE)), s, []).
Proof.
  intros Htype. unfold processNodeRequest, processRequest.
  rewrite (getitem_None _ _ Htype). rewrite !bind_lift. split; reflexivity.
Qed.

(** A request with an empty operation. *)
Lemma request_without_type_raises_KeyError_witness :
  processRequest sim (Request_new ∅ PyNone) "client" (sim_node sim0) =
    (Raise (KeyError (PyStr "type")), sim_node sim0, []).
Proof.
  destruct (request_without_type_raises_KeyError sim (Request_new ∅ PyNone)
              "client" (sim_node sim0)) as [_ Hclient]; [reflexivity |].
  exact Hclient.
Defined.

(** ** The write-mode gate: what holds in every run *)

Lemma processRequest_ordered
    {W : Type} (E : Collaborators W) `{Constants}
    (request : Request) (frm : string) (s : Node W) (txn_type : PyVal) :
  operation request !! TXN_TYPE = Some txn_type ->
  preceded is_validate is_applyForced false
    (trace_of (processRequest E request frm s)) = true
  /\ preceded is_isWritable is_super_processRequest false
    (trace_of (processRequest E request frm s)) = true
  /\ (count is_process_query (trace_of (processRequest E request frm s))
      + count is_super_processRequest
          (trace_of (processRequest E request frm s)) <= 1)%nat
  /\ (count is_process_query (trace_of (processRequest E request frm s))
      + count is_isWritable (trace_of (processRequest E request frm s))
      <= 1)%nat.
Proof.
  intros Htype. unfold processRequest.
  rewrite (getitem_Some _ _ _ Htype).
  explore; repeat split; cbn; lia.
Qed.

(** X5: whatever the collaborators answer, [processRequest] applies a
    forced request only after the config request handler was asked to
    validate it; and a request that is not of type POOL_UPGRADE or
    POOL_CONFIG, or is not forced, is never validated or applied by the
    forced path. *)
Theorem processRequest_forced_path_guarded
    {W : Type} (E : Collaborators W) `{Constants}
    (request : Request) (frm : string) (s : Node W) (txn_type : PyVal) :
  operation request !! TXN_TYPE = Some txn_type ->
  (forall (pre post : list Call) (x : Call),
     trace_of (processRequest E request frm s) = pre ++ x :: post ->
     is_applyForced x = true ->
     exists y : Call, In y pre /\ is_validate y = true)
  /\ (governance txn_type && Request_isForced E request = false ->
      count is_validate (trace_of (processRequest E request frm s)) = 0%nat
      /\ count is_applyForced (trace_of (processRequest E request frm s))
         = 0%nat).
Proof.
  intros Htype. split.
  - intros pre post x Htrace Hx.
    destruct (processRequest_ordered E request frm s txn_type Htype)
      as (Hordered & _).
    rewrite Htrace in Hordered.
    apply preceded_found in Hordered as [Hseen | Hfound];
      [discriminate | exact Hfound | exact Hx].
  - intros Hunforced. unfold processRequest.
    rewrite (getitem_Some _ _ _ Htype). unfold governance in Hunforced.
    explore; first [split; reflexivity | congruence].
Qed.

(** A forced POOL_CONFIG request that the handler rejects, and a forced
    request of a domain type. *)
Lemma processRequest_forced_path_guarded_witness :
  count is_applyForced
    (trace_of (processRequest sim (sim_request "1" true) "client"
                 (sim_node sim_readonly))) = 0%nat.
Proof.
  destruct (processRequest_forced_path_guarded sim (sim_request "1" true)
              "client" (sim_node sim_readonly) (PyStr "1")
              (sim_request_type _ _)) as [_ Hunforced].
  apply Hunforced. reflexivity.
Defined.

(** X6: whatever the collaborators answer, the base class's processRequest
    is reached only after the pool configuration was asked whether the
    pool is writable, and a request takes the query path or the write
    path, never both: after process_query neither isWritable nor the base
    processRequest is called. *)
Theorem processRequest_write_path_consults_pool_config
    {W : Type} (E : Collaborators W) `{Constants}
    (request : Request) (frm : string) (s : Node W) (txn_type : PyVal) :
  operation request !! TXN_TYPE = Some txn_type ->
  (forall (pre post : list Call) (x : Call),
     trace_of (processRequest E request frm s) = pre ++ x :: post ->
     is_super_processRequest x = true ->
     exists y : Call, In y pre /\ is_isWritable y = true)
  /\ (count is_process_query (trace_of (processRequest E request frm s))
      = 1%nat ->
      count is_isWritable (trace_of (processRequest E request frm s)) = 0%nat
      /\ count is_super_processRequest
           (trace_of (processRequest E request frm s)) = 0%nat).
Proof.
  intros Htype.
  destruct (processRequest_ordered E request frm s txn_type Htype)
    as (_ & Hordered & Hpaths & Hgate).
  split.
  - intros pre post x Htrace Hx. rewrite Htrace in Hordered.
    apply preceded_found in Hordered as [Hseen | Hfound];
      [discriminate | exact Hfound | exact Hx].
  - intros Hquery. split; lia.
Qed.

(** A pool configuration request on a readonly pool. *)
Lemma processRequest_write_path_consults_pool_config_witness :
  trace_of (processRequest sim (sim_request "111" false) "client"
              (sim_node sim_readonly)) =
    [call_is_query (PyStr "111"); call_poolCfg_isWritable]
    ++ call_super_processRequest (sim_request "111" false) "client" :: []
  /\ exists y : Call,
    In y [call_is_query (PyStr "111"); call_poolCfg_isWritable]
    /\ is_isWritable y = true.
Proof.
  assert (Htrace :
    trace_of (processRequest sim (sim_request "111" false) "client"
                (sim_node sim_readonly)) =
      [call_is_query (PyStr "111"); call_poolCfg_isWritable]
      ++ call_super_processRequest (sim_request "111" false) "client" :: [])
    by reflexivity.
  split; [exact Htrace |].
  destruct (processRequest_write_path_consults_pool_config sim
              (sim_request "111" false) "client" (sim_node sim_readonly)
              (PyStr "111") (sim_request_type _ _)) as [Hordered _].
  apply (Hordered _ []
           (call_super_processRequest (sim_request "111" false) "client")
           Htrace).
  reflexivity.
Defined.

(** X7: [total_read_request_number] counts the queries that were
    processed, and nothing else.  Whatever the collaborators answer, a run
    of [processRequest] adds one exactly when process_query was called and
    returned, and leaves the count unchanged otherwise: on the write path,
    when the gate rejects, and when any call raises.  The attribute store
    is never touched. *)
Theorem processRequest_counts_processed_queries
    {W : Type} (E : Collaborators W) `{Constants}
    (request : Request) (frm : string) (s : Node W) (txn_type : PyVal) :
  operation request !! TXN_TYPE = Some txn_type ->
  let run := processRequest E request frm s in
  (total_read_request_number (node_of run) = total_read_request_number s + 1 <->
     count is_process_query (trace_of run) = 1%nat /\ result_of run = Ok tt)
  /\ (total_read_request_number (node_of run) = total_read_request_number s
      \/ total_read_request_number (node_of run)
         = total_read_request_number s + 1)
  /\ attributeStore (node_of run) = attributeStore s.
Proof.
  intros Htype run. subst run. unfold processRequest.
  rewrite (getitem_Some _ _ _ Htype).
  explore; cbn [count List.filter is_process_query length];
    (split; [split; [intros Hcount; try lia; split; reflexivity
                    | intros [Hquery Hresult];
                      first [discriminate | reflexivity]]
            | split; [first [left; reflexivity | right; reflexivity]
                     | reflexivity]]).
Qed.

(** A query, then a write, on the same node. *)
Lemma processRequest_counts_processed_queries_witness :
  total_read_request_number
    (node_of (processRequest sim (sim_request "105" false) "client"
                (sim_node sim0))) = 1
  /\ total_read_request_number
    (node_of (processRequest sim (sim_request "1" false) "client"
                (sim_node sim0))) = 0.
Proof.
  split.
  - destruct (processRequest_counts_processed_queries sim
                (sim_request "105" false) "client" (sim_node sim0)
                (PyStr "105") (sim_request_type _ _)) as ([_ Hdone] & _).
    rewrite Hdone; [reflexivity | split; reflexivity].
  - destruct (processRequest_counts_processed_queries sim
                (sim_request "1" false) "client" (sim_node sim0)
                (PyStr "1") (sim_request_type _ _))
      as (_ & [Hsame | Hmore] & _).
    + exact Hsame.
    + discriminate Hmore.
Defined.

(** ** Upgrade messages: edges *)

(** X8: [acknowledge_upgrade] with a result to announce but no usable
    upgrade event: when the upgrader's last upgrade event is None the
    subscript raises TypeError, when it has fewer than three fields it
    raises IndexError; in both cases nothing is signed or sent and the
    upgrader is not told that the peers were notified. *)
Theorem acknowledge_upgrade_without_event_raises
    {W : Type} (E : Collaborators W) `{Constants} (s : Node W) (w1 : W) :
  upgrader_should_notify_about_upgrade_result E (world s) = (Ok true, w1) ->
  (upgrader_lastUpgradeEventInfo E w1 = None ->
     acknowledge_upgrade E s =
       (Raise TypeError, with_world s w1,
        [call_upgrader_should_notify_about_upgrade_result]))
  /\ (forall info : list PyVal,
     upgrader_lastUpgradeEventInfo E w1 = Some info ->
     (length info <= 2)%nat ->
     acknowledge_upgrade E s =
       (Raise IndexError, with_world s w1,
        [call_upgrader_should_notify_about_upgrade_result])).
Proof.
  intros Hnotify. split.
  - intros Hinfo. unfold acknowledge_upgrade. repeat known.
    unfold index. rewrite Hinfo. rewrite bind_lift. reflexivity.
  - intros info Hinfo Hshort. unfold acknowledge_upgrade. repeat known.
    unfold index. rewrite Hinfo.
    rewrite (lookup_ge_None_2 info 2) by lia.
    rewrite bind_lift. reflexivity.
Qed.

(** A node restarted after an upgrade whose log is empty. *)
Lemma acknowledge_upgrade_without_event_raises_witness :
  acknowledge_upgrade (sim_with None None (PlenumNode_send sim))
    (sim_node sim0) =
    (Raise TypeError, sim_node sim0,
     [call_upgrader_should_notify_about_upgrade_result]).
Proof.
  destruct (acknowledge_upgrade_without_event_raises
              (sim_with None None (PlenumNode_send sim)) (sim_node sim0) sim0)
    as [Hnone _]; [reflexivity |].
  apply Hnone. reflexivity.
Defined.

(** X9: if sending the upgrade result raises, [acknowledge_upgrade] raises
    the same exception and the upgrader is not told that the peers were
    notified, so the result is still to be announced. *)
Theorem acknowledge_upgrade_failed_send_not_marked
    {W : Type} (E : Collaborators W) `{Constants} (s : Node W)
    (w1 w2 w3 w4 w5 : W) (info : list PyVal) (version sig : PyVal)
    (request : Request) (e : Exn) :
  let action :=
    PyStr (if upgrader_didLastExecutedUpgradeSucceeded E w1
           then COMPLETE else FAIL) in
  let args := Request_key E request ++ [PyStr (nodestack_name E w3)] in
  upgrader_should_notify_about_upgrade_result E (world s) = (Ok true, w1) ->
  upgrader_lastUpgradeEventInfo E w1 = Some info ->
  info !! 2%nat = Some version ->
  wallet_signMsg E (PyDict (upgrade_data action version)) w1 = (Ok sig, w2) ->
  wallet_signRequest E (Request_new (upgrade_op action version sig) PyNone) w2 =
    (Ok request, w3) ->
  PlenumNode_startedProcessingReq E args w3 = (Ok tt, w4) ->
  PlenumNode_send E request w4 = (Raise e, w5) ->
  result_of (acknowledge_upgrade E s) = Raise e
  /\ world (node_of (acknowledge_upgrade E s)) = w5
  /\ count is_notified (trace_of (acknowledge_upgrade E s)) = 0%nat
  /\ last (trace_of (acknowledge_upgrade E s)) = Some (call_send request).
Proof.
  intros action args Hnotify Hinfo Hversion Hsig Hrequest Hstarted Hsend.
  unfold acknowledge_upgrade.
  repeat known. unfold index. rewrite Hinfo, Hversion.
  repeat known. rewrite getitem_insert.
  known. fold action. fold (upgrade_data action version).
  known. fold (upgrade_op action version sig).
  repeat known. repeat split.
Qed.

(** A node that cannot reach its peers. *)
Lemma acknowledge_upgrade_failed_send_not_marked_witness :
  result_of (acknowledge_upgrade
               (sim_with (upgrader_lastUpgradeEventInfo sim sim0) None
                  sim_send_fails) (sim_node sim0)) =
    Raise (OtherError "RemoteNotFound" PyNone)
  /\ count is_notified
       (trace_of (acknowledge_upgrade
                    (sim_with (upgrader_lastUpgradeEventInfo sim sim0) None
                       sim_send_fails) (sim_node sim0))) = 0%nat.
Proof.
  destruct (acknowledge_upgrade_failed_send_not_marked
              (sim_with (upgrader_lastUpgradeEventInfo sim sim0) None
                 sim_send_fails) (sim_node sim0)
              sim0 sim0 sim0 (mkSim true true true true true true)
              (mkSim true true true true true true)
              [PyStr "started"; PyStr "2018-01-01"; PyStr "1.2.0"]
              (PyStr "1.2.0") (PyStr "sig(data)")
              (sim_sign (Request_new
                           (upgrade_op (PyStr "complete") (PyStr "1.2.0")
                              (PyStr "sig(data)")) PyNone))
              (OtherError "RemoteNotFound" PyNone))
    as (Hresult & _ & Hnotified & _); try reflexivity.
  split; assumption.
Defined.

(** X10: [notify_upgrade_start] only announces: whatever the collaborators
    answer, it neither asks the upgrader whether a result is to be
    announced nor tells it that the peers were notified, and it sends at
    most one request.  Without a scheduled upgrade (None, or an empty
    tuple) the subscript raises before anything is logged, signed or
    sent. *)
Theorem notify_upgrade_start_only_announces
    {W : Type} (E : Collaborators W) `{Constants} (s : Node W) :
  count is_should_notify (trace_of (notify_upgrade_start E s)) = 0%nat
  /\ count is_notified (trace_of (notify_upgrade_start E s)) = 0%nat
  /\ (count is_send (trace_of (notify_upgrade_start E s)) <= 1)%nat
  /\ (upgrader_scheduledUpgrade E (world s) = None ->
      notify_upgrade_start E s = (Raise TypeError, s, []))
  /\ (upgrader_scheduledUpgrade E (world s) = Some [] ->
      notify_upgrade_start E s = (Raise IndexError, s, [])).
Proof.
  split; [| split; [| split; [| split]]].
  - unfold notify_upgrade_start. explore; reflexivity.
  - unfold notify_upgrade_start. explore; reflexivity.
  - unfold notify_upgrade_start. explore; cbn; lia.
  - intros Hnone. unfold notify_upgrade_start. repeat known.
    unfold index. rewrite Hnone, bind_lift. reflexivity.
  - intros Hempty. unfold notify_upgrade_start. repeat known.
    unfold index. rewrite Hempty, bind_lift. reflexivity.
Qed.

(** No upgrade is scheduled. *)
Lemma notify_upgrade_start_only_announces_witness :
  notify_upgrade_start (sim_with None None (PlenumNode_send sim))
    (sim_node sim0) = (Raise TypeError, sim_node sim0, []).
Proof.
  destruct (notify_upgrade_start_only_announces
              (sim_with None None (PlenumNode_send sim)) (sim_node sim0))
    as (_ & _ & _ & Hnone & _).
  apply Hnone. reflexivity.
Defined.

(** ** Choosing the authenticator *)

Lemma py_eq_str_true (v : PyVal) (c : string) :
  py_eq_str v c = true <-> v = PyStr c.
Proof.
  split.
  - destruct v; cbn [py_eq_str]; try discriminate.
    intros Heq. apply bool_decide_eq_true in Heq. subst. reflexivity.
  - intros ->. apply py_eq_str_refl.
Qed.

Section AuthNr.
Context {W : Type} (E : Collaborators W) `{Constants}.
Context (req : gmap string PyVal) (s : Node W).

Lemma authNr_base (op : gmap string PyVal) :
  req !! OPERATION = None /\ op = ∅
  \/ req !! OPERATION = Some (PyDict op) ->
  op !! TXN_TYPE <> Some (PyStr NODE_UPGRADE) ->
  authNr E req s =
    (match (PlenumNode_authNr E req (world s)).1 with
     | Ok a => Ok (super_authNr a)
     | Raise e => Raise e
     end,
     with_world s (PlenumNode_authNr E req (world s)).2,
     [call_super_authNr req]).
Proof.
  intros Hop Hother. unfold authNr, dict_get.
  assert (Hdefault : default (PyDict ∅) (req !! OPERATION) = PyDict op).
  { destruct Hop as [[-> ->] | ->]; reflexivity. }
  rewrite Hdefault. repeat known.
  destruct (py_eq_str (default PyNone (op !! TXN_TYPE)) NODE_UPGRADE)
    eqn:Htype.
  - apply py_eq_str_true in Htype.
    destruct (op !! TXN_TYPE) as [t |]; cbn [from_option id] in Htype;
      [subst t; contradiction | discriminate].
  - destruct (PlenumNode_authNr E req (world s)) as [[a|e] w1] eqn:Hsuper;
      repeat known; reflexivity.
Qed.

Lemma authNr_malformed (v : PyVal) :
  req !! OPERATION = Some v ->
  (forall op : gmap string PyVal, v <> PyDict op) ->
  authNr E req s = (Raise AttributeError, s, []).
Proof.
  intros Hv Hnot_dict. unfold authNr, dict_get. rewrite Hv.
  cbn [from_option id]. repeat known.
  destruct v; try (rewrite bind_lift; reflexivity).
  exfalso. apply (Hnot_dict d). reflexivity.
Qed.

Lemma authNr_node_upgrade (op : gmap string PyVal) :
  req !! OPERATION = Some (PyDict op) ->
  op !! TXN_TYPE = Some (PyStr NODE_UPGRADE) ->
  authNr E req s = (Ok nodeAuthNr, s, []).
Proof.
  intros Hop Htype. unfold authNr, dict_get. rewrite Hop.
  cbn [from_option id]. repeat known. rewrite Htype.
  cbn [from_option id]. repeat known. rewrite py_eq_str_refl. reflexivity.
Qed.

Lemma authNr_nodeAuthNr_only_for_node_upgrade :
  result_of (authNr E req s) = Ok nodeAuthNr ->
  exists op : gmap string PyVal,
    req !! OPERATION = Some (PyDict op)
    /\ op !! TXN_TYPE = Some (PyStr NODE_UPGRADE).
Proof.
  intros Hresult.
  destruct (req !! OPERATION) as [v |] eqn:Hv.
  - destruct v as [| b | z | str | l | op];
      try (rewrite (authNr_malformed _ Hv) in Hresult by discriminate;
           discriminate Hresult).
    exists op. split; [reflexivity |].
    destruct (py_eq_str (default PyNone (op !! TXN_TYPE)) NODE_UPGRADE)
      eqn:Htype.
    + apply py_eq_str_true in Htype.
      destruct (op !! TXN_TYPE) as [t |]; cbn [from_option id] in Htype;
        [subst t; reflexivity | discriminate].
    + rewrite (authNr_base op) in Hresult.
      * cbn [result_of fst] in Hresult.
        destruct (PlenumNode_authNr E req (world s)).1; discriminate Hresult.
      * right. exact Hv.
      * intros Hupgrade. rewrite Hupgrade in Htype.
        cbn [from_option id] in Htype. rewrite py_eq_str_refl in Htype.
        discriminate Htype.
  - rewrite (authNr_base ∅) in Hresult.
    + cbn [result_of fst] in Hresult.
      destruct (PlenumNode_authNr E req (world s)).1; discriminate Hresult.
    + left. split; [exact Hv | reflexivity].
    + rewrite lookup_empty. discriminate.
Qed.

End AuthNr.

(** X11: [authNr] returns the node authenticator exactly for the messages
    whose operation is a dict with type NODE_UPGRADE; in that case the base
    class is not asked.  For every other message whose operation is a dict
    or is missing, the base class is asked once, with the same message, and
    its choice (or its exception) is the outcome.  A message whose
    operation is present and not a dict raises AttributeError before any
    call. *)
Theorem authNr_node_authenticator_iff_node_upgrade
    {W : Type} (E : Collaborators W) `{Constants}
    (req : gmap string PyVal) (s : Node W) :
  (result_of (authNr E req s) = Ok nodeAuthNr <->
     exists op : gmap string PyVal,
       req !! OPERATION = Some (PyDict op)
       /\ op !! TXN_TYPE = Some (PyStr NODE_UPGRADE))
  /\ (result_of (authNr E req s) = Ok nodeAuthNr ->
      authNr E req s = (Ok nodeAuthNr, s, []))
  /\ (forall op : gmap string PyVal,
      req !! OPERATION = None /\ op = ∅
      \/ req !! OPERATION = Some (PyDict op) ->
      op !! TXN_TYPE <> Some (PyStr NODE_UPGRADE) ->
      authNr E req s =
        (match (PlenumNode_authNr E req (world s)).1 with
         | Ok a => Ok (super_authNr a)
         | Raise e => Raise e
         end,
         with_world s (PlenumNode_authNr E req (world s)).2,
         [call_super_authNr req]))
  /\ (forall v : PyVal,
      req !! OPERATION = Some v ->
      (forall op : gmap string PyVal, v <> PyDict op) ->
      authNr E req s = (Raise AttributeError, s, [])).
Proof.
  split; [| split; [| split]].
  - split; [apply authNr_nodeAuthNr_only_for_node_upgrade |].
    intros (op & Hop & Htype).
    rewrite (authNr_node_upgrade E req s op Hop Htype). reflexivity.
  - intros Hresult.
    destruct (authNr_nodeAuthNr_only_for_node_upgrade E req s Hresult)
      as (op & Hop & Htype).
    apply (authNr_node_upgrade E req s op Hop Htype).
  - apply authNr_base.
  - apply authNr_malformed.
Qed.

(** A message of a domain type, and one whose operation is a string. *)
Lemma authNr_node_authenticator_iff_node_upgrade_witness :
  authNr sim sim_other_msg (sim_node sim0) =
    (Ok (super_authNr (PyStr "clientAuthNr")), sim_node sim0,
     [call_super_authNr sim_other_msg])
  /\ authNr sim sim_malformed_msg (sim_node sim0) =
    (Raise AttributeError, sim_node sim0, []).
Proof.
  destruct (authNr_node_authenticator_iff_node_upgrade sim sim_other_msg
              (sim_node sim0)) as (_ & _ & Hbase & _).
  destruct (authNr_node_authenticator_iff_node_upgrade sim sim_malformed_msg
              (sim_node sim0)) as (_ & _ & _ & Hmalformed).
  split.
  - rewrite (Hbase (operation (sim_request "1" false)));
      [reflexivity | right; reflexivity | discriminate].
  - apply (Hmalformed (PyStr "110")); [reflexivity | discriminate].
Defined.

(** ** Attribute rehydration: what is left alone *)

(** X12: [update_txn_with_extra_data] changes nothing but the field it
    rehydrates.  Whatever the store holds, the node is left as it was and
    the store is consulted at most once; a transaction that is returned has
    the keys of the one passed in, with the same values everywhere except
    under the rehydrated key: every field other than RAW and ENC is kept,
    and the ENC hash is kept when the RAW field is the one rehydrated.  A
    transaction with no TXN_TYPE raises the KeyError of the lookup without
    consulting the store. *)
Theorem update_txn_with_extra_data_frame
    {W : Type} `{Constants} (txn : gmap string PyVal) (s : Node W) :
  node_of (update_txn_with_extra_data txn s) = s
  /\ (count is_attributeStore_get
        (trace_of (update_txn_with_extra_data txn s)) <= 1)%nat
  /\ (forall txn' : gmap string PyVal,
      result_of (update_txn_with_extra_data txn s) = Ok txn' ->
      dom txn' = dom txn
      /\ (forall k : string, k <> RAW -> k <> ENC -> txn' !! k = txn !! k)
      /\ (present_and_not_None txn RAW = true -> RAW <> ENC ->
          txn' !! ENC = txn !! ENC))
  /\ (txn !! TXN_TYPE = None ->
      update_txn_with_extra_data txn s =
        (Raise (KeyError (PyStr TXN_TYPE)), s, [])).
Proof.
  assert (Hinsert : forall (k : string) (val : PyVal),
            present_and_not_None txn k = true ->
            dom (<[k := val]> txn) = dom txn).
  { intros k val Hpresent. unfold present_and_not_None in Hpresent.
    destruct (txn !! k) as [v |] eqn:Hk; [| discriminate].
    rewrite dom_insert_L. apply set_eq. intros k'.
    rewrite elem_of_union, elem_of_singleton.
    split; [| auto]. intros [-> | Hin]; [| exact Hin].
    apply elem_of_dom. exists v. exact Hk. }
  assert (Hsame : forall t : list Call,
            (count is_attributeStore_get t <= 1)%nat ->
            node_of (Ok txn, s, t) = s
            /\ (count is_attributeStore_get (trace_of (Ok txn, s, t)) <= 1)%nat
            /\ (forall txn' : gmap string PyVal,
                result_of (Ok txn, s, t) = Ok txn' ->
                dom txn' = dom txn
                /\ (forall k : string,
                      k <> RAW -> k <> ENC -> txn' !! k = txn !! k)
                /\ (present_and_not_None txn RAW = true -> RAW <> ENC ->
                    txn' !! ENC = txn !! ENC))).
  { intros t Ht. split; [reflexivity | split; [exact Ht |]].
    intros txn' Hresult. injection Hresult as <-.
    split; [reflexivity | split; intros; reflexivity]. }
  assert (Hraised : forall (e : Exn) (t : list Call),
            (count is_attributeStore_get t <= 1)%nat ->
            node_of (@Raise (gmap string PyVal) e, s, t) = s
            /\ (count is_attributeStore_get
                  (trace_of (@Raise (gmap string PyVal) e, s, t)) <= 1)%nat
            /\ (forall txn' : gmap string PyVal,
                result_of (@Raise (gmap string PyVal) e, s, t) = Ok txn' ->
                dom txn' = dom txn
                /\ (forall k : string,
                      k <> RAW -> k <> ENC -> txn' !! k = txn !! k)
                /\ (present_and_not_None txn RAW = true -> RAW <> ENC ->
                    txn' !! ENC = txn !! ENC))).
  { intros e t Ht. split; [reflexivity | split; [exact Ht |]].
    intros txn' Hresult. discriminate Hresult. }
  assert (Hdone : forall (k : string) (val hash : PyVal),
            present_and_not_None txn k = true ->
            (k = RAW \/ k = ENC /\ present_and_not_None txn RAW = false) ->
            node_of (Ok (<[k := val]> txn), s, [call_attributeStore_get hash]) = s
            /\ (count is_attributeStore_get
                  (trace_of (Ok (<[k := val]> txn), s,
                             [call_attributeStore_get hash])) <= 1)%nat
            /\ (forall txn' : gmap string PyVal,
                result_of (Ok (<[k := val]> txn), s,
                           [call_attributeStore_get hash]) = Ok txn' ->
                dom txn' = dom txn
                /\ (forall k' : string,
                      k' <> RAW -> k' <> ENC -> txn' !! k' = txn !! k')
                /\ (present_and_not_None txn RAW = true -> RAW <> ENC ->
                    txn' !! ENC = txn !! ENC))).
  { intros k val hash Hpresent Hk.
    split; [reflexivity | split; [cbn; lia |]].
    intros txn' Hresult. injection Hresult as <-.
    split; [apply Hinsert; exact Hpresent | split].
    - intros k' Hraw Henc. apply lookup_insert_ne.
      destruct Hk as [-> | [-> _]]; congruence.
    - intros Hraw Hne. destruct Hk as [-> | [_ Hno_raw]]; [| congruence].
      apply lookup_insert_ne. exact Hne. }
  unfold update_txn_with_extra_data.
  destruct (txn !! TXN_TYPE) as [txn_type |] eqn:Htype.
  - rewrite (getitem_Some _ _ _ Htype). rewrite bind_lift_ok.
    assert (Hgoal : forall x : Res (gmap string PyVal) * Node W * list Call,
              node_of x = s
              /\ (count is_attributeStore_get (trace_of x) <= 1)%nat
              /\ (forall txn' : gmap string PyVal,
                  result_of x = Ok txn' ->
                  dom txn' = dom txn
                  /\ (forall k : string,
                        k <> RAW -> k <> ENC -> txn' !! k = txn !! k)
                  /\ (present_and_not_None txn RAW = true -> RAW <> ENC ->
                      txn' !! ENC = txn !! ENC)) ->
              node_of x = s
              /\ (count is_attributeStore_get (trace_of x) <= 1)%nat
              /\ (forall txn' : gmap string PyVal,
                  result_of x = Ok txn' ->
                  dom txn' = dom txn
                  /\ (forall k : string,
                        k <> RAW -> k <> ENC -> txn' !! k = txn !! k)
                  /\ (present_and_not_None txn RAW = true -> RAW <> ENC ->
                      txn' !! ENC = txn !! ENC))
              /\ (Some txn_type = None ->
                  x = (Raise (KeyError (PyStr TXN_TYPE)), s, []))).
    { intros x (Hnode & Hcount & Hframe).
      split; [exact Hnode | split; [exact Hcount | split; [exact Hframe |]]].
      discriminate. }
    apply Hgoal.
    destruct (py_eq_str txn_type ATTRIB); [| apply Hsame; cbn; lia].
    destruct (present_and_not_None txn RAW) eqn:Hraw.
    + destruct (truthy_key (Some RAW)); [| apply Hsame; cbn; lia].
      pose proof Hraw as Hpresent. unfold present_and_not_None in Hraw.
      destruct (txn !! RAW) as [hash |] eqn:Hhash; [| discriminate].
      rewrite (getitem_Some _ _ _ Hhash). rewrite bind_lift_ok.
      unfold bind, attributeStore_get, AttributeStore_get, ret.
      destruct (attributeStore s hash) as [val |].
      * apply Hdone; [exact Hpresent | left; reflexivity].
      * apply Hraised. cbn. lia.
    + destruct (present_and_not_None txn ENC) eqn:Henc;
        [| apply Hsame; cbn; lia].
      destruct (truthy_key (Some ENC)); [| apply Hsame; cbn; lia].
      pose proof Henc as Hpresent. unfold present_and_not_None in Henc.
      destruct (txn !! ENC) as [hash |] eqn:Hhash; [| discriminate].
      rewrite (getitem_Some _ _ _ Hhash). rewrite bind_lift_ok.
      unfold bind, attributeStore_get, AttributeStore_get, ret.
      destruct (attributeStore s hash) as [val |].
      * apply Hdone; [exact Hpresent | right; split; reflexivity].
      * apply Hraised. cbn. lia.
  - rewrite (getitem_None _ _ Htype). rewrite bind_lift.
    split; [reflexivity | split; [cbn; lia | split; [| reflexivity]]].
    intros txn' Hresult. discriminate Hresult.
Qed.

(** Both hashes on the ledger: only the raw one is replaced. *)
Lemma update_txn_with_extra_data_frame_witness :
  exists txn' : gmap string PyVal,
    result_of (update_txn_with_extra_data sim_attrib_both (sim_node sim0)) =
      Ok txn'
    /\ txn' !! ENC = Some (PyStr "ffff")
    /\ txn' !! RAW = Some (PyStr "Alice").
Proof.
  eexists. split; [reflexivity |].
  destruct (update_txn_with_extra_data_frame sim_attrib_both (sim_node sim0))
    as (_ & _ & Hframe & _).
  destruct (Hframe _ eq_refl) as (_ & _ & Henc).
  split; [| reflexivity].
  rewrite Henc; [reflexivity | reflexivity | discriminate].
Defined.

(** ** The catch-up hooks: what holds in every run *)

Lemma postConfigLedgerCaughtUp_ordered
    {W : Type} (E : Collaborators W) `{Constants} (s : Node W) :
  preceded is_poolCfg_processLedger is_upgrader_processLedger false
    (trace_of (postConfigLedgerCaughtUp E s)) = true
  /\ preceded is_upgrader_processLedger is_start_domain_ledger_sync false
    (trace_of (postConfigLedgerCaughtUp E s)) = true
  /\ preceded is_start_domain_ledger_sync is_should_notify false
    (trace_of (postConfigLedgerCaughtUp E s)) = true
  /\ (count is_start_domain_ledger_sync
        (trace_of (postConfigLedgerCaughtUp E s)) <= 1)%nat.
Proof.
  unfold postConfigLedgerCaughtUp, acknowledge_upgrade.
  explore; repeat split; cbn; lia.
Qed.

Lemma start_config_ledger_sync_ordered
    {W : Type} (E : Collaborators W) `{Constants} (s : Node W) :
  preceded is_sync_ledger is_processStashedLedgerStatuses false
    (trace_of (start_config_ledger_sync E s)) = true.
Proof. unfold start_config_ledger_sync. explore; reflexivity. Qed.

(** X13: the hooks of the catch-up sequence keep their order whatever the
    collaborators answer; an exception stops the hook where it is raised.
    In [postConfigLedgerCaughtUp] the upgrader processes the config ledger
    only after the pool configuration did, the sync of the domain ledger
    is started only after both, at most once, and the upgrader is asked
    whether an upgrade result is to be announced only after the sync of
    the domain ledger was started; if the pool configuration fails to
    process the ledger nothing else is called.  In
    [start_config_ledger_sync] the stashed ledger statuses are processed
    only after the sync was started. *)
Theorem catch_up_hooks_keep_their_order
    {W : Type} (E : Collaborators W) `{Constants} (s : Node W) :
  (forall (pre post : list Call) (x : Call),
     trace_of (postConfigLedgerCaughtUp E s) = pre ++ x :: post ->
     (is_upgrader_processLedger x = true ->
      exists y : Call, In y pre /\ is_poolCfg_processLedger y = true)
     /\ (is_start_domain_ledger_sync x = true ->
         exists y : Call, In y pre /\ is_upgrader_processLedger y = true)
     /\ (is_should_notify x = true ->
         exists y : Call, In y pre /\ is_start_domain_ledger_sync y = true))
  /\ (count is_start_domain_ledger_sync
        (trace_of (postConfigLedgerCaughtUp E s)) <= 1)%nat
  /\ (forall (e : Exn) (w1 : W),
      poolCfg_processLedger E (world s) = (Raise e, w1) ->
      postConfigLedgerCaughtUp E s =
        (Raise e, with_world s w1, [call_poolCfg_processLedger]))
  /\ (forall (pre post : list Call) (x : Call),
      trace_of (start_config_ledger_sync E s) = pre ++ x :: post ->
      is_processStashedLedgerStatuses x = true ->
      exists y : Call, In y pre /\ is_sync_ledger y = true).
Proof.
  destruct (postConfigLedgerCaughtUp_ordered E s)
    as (Hupgrader & Hdomain & Hnotify & Hcount).
  split; [| split; [| split]].
  - intros pre post x Htrace. rewrite Htrace in Hupgrader, Hdomain, Hnotify.
    split; [| split]; intros Hx.
    + apply preceded_found in Hupgrader as [Hseen | Hfound];
        [discriminate | exact Hfound | exact Hx].
    + apply preceded_found in Hdomain as [Hseen | Hfound];
        [discriminate | exact Hfound | exact Hx].
    + apply preceded_found in Hnotify as [Hseen | Hfound];
        [discriminate | exact Hfound | exact Hx].
  - exact Hcount.
  - intros e w1 Hfails. unfold postConfigLedgerCaughtUp.
    repeat known. reflexivity.
  - intros pre post x Htrace Hx.
    pose proof (start_config_ledger_sync_ordered E s) as Hordered.
    rewrite Htrace in Hordered.
    apply preceded_found in Hordered as [Hseen | Hfound];
      [discriminate | exact Hfound | exact Hx].
Qed.

(** The config ledger is caught up on a node with a result to announce. *)
Lemma catch_up_hooks_keep_their_order_witness :
  trace_of (postConfigLedgerCaughtUp sim (sim_node sim0)) =
    [call_poolCfg_processLedger; call_upgrader_processLedger;
     call_start_domain_ledger_sync]
    ++ call_upgrader_should_notify_about_upgrade_result
       :: skipn 4 (trace_of (postConfigLedgerCaughtUp sim (sim_node sim0)))
  /\ exists y : Call,
    In y [call_poolCfg_processLedger; call_upgrader_processLedger;
          call_start_domain_ledger_sync]
    /\ is_start_domain_ledger_sync y = true.
Proof.
  assert (Htrace :
    trace_of (postConfigLedgerCaughtUp sim (sim_node sim0)) =
      [call_poolCfg_processLedger; call_upgrader_processLedger;
       call_start_domain_ledger_sync]
      ++ call_upgrader_should_notify_about_upgrade_result
         :: skipn 4 (trace_of (postConfigLedgerCaughtUp sim (sim_node sim0))))
    by reflexivity.
  split; [exact Htrace |].
  destruct (catch_up_hooks_keep_their_order sim (sim_node sim0))
    as (Hordered & _).
  destruct (Hordered _ _ _ Htrace) as (_ & _ & Hnotify).
  apply Hnotify. reflexivity.
Defined.

(** ** Running the store methods one call at a time *)

Section StepsS.
Context {W : Type}.

Lemma bindS_ret {A B} (a : A) (k : A -> MS W B) (s : Stores W) :
  bindS (retS a) k s = k a s.
Proof. unfold bindS, retS. destruct (k a s) as [[r s2] t2]. reflexivity. Qed.

Lemma bindS_assoc {A B C} (m : MS W A) (f : A -> MS W B) (g : B -> MS W C)
    (s : Stores W) :
  bindS (bindS m f) g s = bindS m (fun a => bindS (f a) g) s.
Proof.
  unfold bindS. destruct (m s) as [[[a|e] s1] t1]; [| reflexivity].
  destruct (f a s1) as [[[b|e] s2] t2]; [| reflexivity].
  destruct (g b s2) as [[r s3] t3]. rewrite app_assoc. reflexivity.
Qed.

Lemma bindS_attr {A B} (g : W -> A) (k : A -> MS W B) (s : Stores W) :
  bindS (attrS g) k s = k (g (services s)) s.
Proof. unfold bindS, attrS. destruct (k _ s) as [[r s2] t2]. reflexivity. Qed.

Lemma bindS_lift {A B} (r : Res A) (k : A -> MS W B) (s : Stores W) :
  bindS (liftS r) k s =
    match r with
    | Ok a => k a s
    | Raise e => (Raise e, s, [])
    end.
Proof.
  unfold bindS, liftS. destruct r as [a|e]; [| reflexivity].
  destruct (k a s) as [[r s2] t2]. reflexivity.
Qed.

Lemma bindS_get_idrCache {B} (k : option Obj -> MS W B) (s : Stores W) :
  bindS get_idrCache k s = k (idrCache s) s.
Proof.
  unfold bindS, get_idrCache. destruct (k _ s) as [[r s2] t2]. reflexivity.
Qed.

Lemma bindS_get_attributeStore {B} (k : option Obj -> MS W B) (s : Stores W) :
  bindS get_attributeStore k s = k (attributeStore_ref s) s.
Proof.
  unfold bindS, get_attributeStore. destruct (k _ s) as [[r s2] t2].
  reflexivity.
Qed.

Lemma bindS_set_idrCache {B} (v : option Obj) (k : unit -> MS W B)
    (s : Stores W) :
  bindS (set_idrCache v) k s =
    k tt (mkStores (services s) v (attributeStore_ref s)).
Proof.
  unfold bindS, set_idrCache. destruct (k tt _) as [[r s2] t2]. reflexivity.
Qed.

Lemma bindS_set_attributeStore {B} (v : option Obj) (k : unit -> MS W B)
    (s : Stores W) :
  bindS (set_attributeStore v) k s = k tt (mkStores (services s) (idrCache s) v).
Proof.
  unfold bindS, set_attributeStore. destruct (k tt _) as [[r s2] t2].
  reflexivity.
Qed.

Lemma bindS_call {A B} (c : Event) (h : W -> Res A * W) (k : A -> MS W B)
    (s : Stores W) :
  bindS (callS c h) k s =
    match (h (services s)).1 with
    | Ok a =>
        (result_ofS (k a (with_services s (h (services s)).2)),
         node_ofS (k a (with_services s (h (services s)).2)),
         c :: trace_ofS (k a (with_services s (h (services s)).2)))
    | Raise e => (Raise e, with_services s (h (services s)).2, [c])
    end.
Proof.
  unfold bindS, callS, with_services.
  destruct (h (services s)) as [[a|e] w']; [| reflexivity].
  cbn [fst snd]. destruct (k a _) as [[r s2] t2]. reflexivity.
Qed.

Lemma callS_run {A} (c : Event) (h : W -> Res A * W) (s : Stores W) :
  callS c h s = ((h (services s)).1, with_services s (h (services s)).2, [c]).
Proof. unfold callS, with_services. destruct (h (services s)). reflexivity. Qed.

Lemma retS_run {A} (a : A) (s : Stores W) : @retS W A a s = (Ok a, s, []).
Proof. reflexivity. Qed.

Lemma get_idrCache_run (s : Stores W) :
  get_idrCache s = (Ok (idrCache s), s, []).
Proof. reflexivity. Qed.

Lemma set_idrCache_run (v : option Obj) (s : Stores W) :
  set_idrCache v s = (Ok tt, mkStores (services s) v (attributeStore_ref s), []).
Proof. reflexivity. Qed.

Lemma set_attributeStore_run (v : option Obj) (s : Stores W) :
  set_attributeStore v s = (Ok tt, mkStores (services s) (idrCache s) v, []).
Proof. reflexivity. Qed.

End StepsS.

Ltac outcomeS :=
  cbv beta zeta;
  cbn [result_ofS node_ofS trace_ofS fst snd services idrCache
       attributeStore_ref with_services app].

(** Rewrite the next statement of a store method into its outcome. *)
Ltac nextS :=
  outcomeS;
  first
    [ rewrite bindS_assoc
    | rewrite bindS_ret
    | rewrite bindS_attr
    | rewrite bindS_get_idrCache
    | rewrite bindS_get_attributeStore
    | rewrite bindS_set_idrCache
    | rewrite bindS_set_attributeStore
    | rewrite bindS_call
    | rewrite callS_run
    | rewrite retS_run
    | rewrite get_idrCache_run
    | rewrite set_idrCache_run
    | rewrite set_attributeStore_run ];
  outcomeS.

(** One case for each way the pending call, lookup or test can go. *)
Ltac caseS :=
  outcomeS;
  match goal with
  | |- context [bindS (liftS ?r) ?k ?s] =>
      rewrite (bindS_lift r k s); destruct r eqn:?
  | |- context [match (?h (services ?s)).1 with _ => _ end] =>
      destruct (h (services s)) as [[?|?] ?] eqn:?
  | |- context [match (?h ?w).1 with _ => _ end] =>
      destruct (h w) as [[?|?] ?] eqn:?
  | |- context [match ?o with Some _ => _ | None => _ end] => destruct o eqn:?
  | |- context [if ?b then _ else _] => destruct b eqn:?
  end;
  outcomeS.

Ltac exploreS := repeat first [nextS | caseS]; outcomeS.

(** ** The identifier cache and the attribute store *)

Lemma getIdrCache_cached {W : Type} (V : Services W) (s : Stores W) (c : Obj) :
  idrCache s = Some c -> getIdrCache V s = (Ok (Some c), s, []).
Proof.
  intros Hcached. unfold getIdrCache. repeat nextS. rewrite Hcached.
  repeat nextS. rewrite Hcached. reflexivity.
Qed.

Lemma getIdrCache_outcome {W : Type} (V : Services W) (s : Stores W) :
  attributeStore_ref (node_ofS (getIdrCache V s)) = attributeStore_ref s
  /\ (countS is_construction (trace_ofS (getIdrCache V s)) <= 2)%nat
  /\ match result_ofS (getIdrCache V s) with
     | Ok v =>
         (exists c : Obj, v = Some c)
         /\ idrCache (node_ofS (getIdrCache V s)) = v
         /\ (forall c : Obj, idrCache s = Some c -> v = Some c)
     | Raise e =>
         idrCache s = None /\ idrCache (node_ofS (getIdrCache V s)) = None
     end.
Proof.
  unfold getIdrCache. repeat nextS.
  destruct (idrCache s) as [c |] eqn:Hcached.
  - repeat nextS. rewrite Hcached.
    split; [reflexivity | split; [cbn; lia |]].
    split; [exists c; reflexivity | split; [reflexivity |]].
    intros c' Hc'. exact Hc'.
  - exploreS;
      (split; [reflexivity | split; [cbn; lia |]]);
      first [ split; [reflexivity | assumption]
            | split; [eexists; reflexivity | split; [reflexivity |]];
              intros c' Hc'; discriminate Hc' ].
Qed.

(** X14: [getIdrCache] creates the identifier cache once.  A node that
    holds a cache returns it without any call.  Whatever the collaborators
    answer, a call that returns hands out a cache, which the node now
    holds, so that the next call returns the same cache without any call;
    a call that raises leaves the node without a cache, so that the next
    call tries again.  The attribute store is not touched. *)
Theorem getIdrCache_creates_once
    {W : Type} (V : Services W) (s : Stores W) :
  (forall c : Obj,
     idrCache s = Some c -> getIdrCache V s = (Ok (Some c), s, []))
  /\ (forall v : option Obj,
      result_ofS (getIdrCache V s) = Ok v ->
      (exists c : Obj, v = Some c)
      /\ getIdrCache V (node_ofS (getIdrCache V s)) =
           (Ok v, node_ofS (getIdrCache V s), []))
  /\ (forall e : Exn,
      result_ofS (getIdrCache V s) = Raise e ->
      idrCache s = None /\ idrCache (node_ofS (getIdrCache V s)) = None)
  /\ attributeStore_ref (node_ofS (getIdrCache V s)) = attributeStore_ref s.
Proof.
  destruct (getIdrCache_outcome V s) as (Hstore & _ & Hresult).
  split; [| split; [| split]].
  - intros c Hcached. apply getIdrCache_cached. exact Hcached.
  - intros v Hv. rewrite Hv in Hresult.
    destruct Hresult as ([c ->] & Hheld & _).
    split; [exists c; reflexivity |].
    apply getIdrCache_cached. exact Hheld.
  - intros e He. rewrite He in Hresult. exact Hresult.
  - exact Hstore.
Qed.

(** The first call on a fresh node creates the cache; the second finds it. *)
Lemma getIdrCache_creates_once_witness :
  getIdrCache sim_services (node_ofS (getIdrCache sim_services (sim_fresh None))) =
    (Ok (Some (object 1)),
     mkStores (mkSimServices 2 None) (Some (object 1)) None, []).
Proof.
  destruct (getIdrCache_creates_once sim_services (sim_fresh None))
    as (_ & Hagain & _).
  destruct (Hagain (Some (object 1))) as [_ Hsecond]; [reflexivity |].
  exact Hsecond.
Defined.

Lemma getDomainReqHandler_outcome
    {W : Type} (V : Services W) `{MessageConstants} (s : Stores W) :
  (forall c : Obj,
     idrCache s = Some c ->
     idrCache (node_ofS (getDomainReqHandler V s)) = Some c)
  /\ (forall a : Obj,
      attributeStore_ref s = Some a ->
      attributeStore_ref (node_ofS (getDomainReqHandler V s)) = Some a)
  /\ (forall c a : Obj,
      idrCache s = Some c -> attributeStore_ref s = Some a ->
      countS is_construction (trace_ofS (getDomainReqHandler V s)) = 0%nat)
  /\ (forall handler : Obj,
      result_ofS (getDomainReqHandler V s) = Ok handler ->
      exists (c a domainLedger state config reqProcessors bls_store : Obj),
        idrCache (node_ofS (getDomainReqHandler V s)) = Some c
        /\ attributeStore_ref (node_ofS (getDomainReqHandler V s)) = Some a
        /\ last (trace_ofS (getDomainReqHandler V s)) =
             Some (ev_DomainReqHandler domainLedger state config reqProcessors
                     (Some c) (Some a) bls_store)).
Proof.
  destruct s as [w cache store].
  unfold getDomainReqHandler, loadAttributeStore, getIdrCache.
  destruct cache as [c |], store as [a |]; exploreS;
    (split; [| split; [| split]]);
    try (intros; first [assumption | reflexivity | discriminate]);
    try (intros handler Hhandler; first
           [ discriminate Hhandler
           | repeat eexists; reflexivity ]).
Qed.

(** X15: [getDomainReqHandler] builds the domain request handler over the
    node's own stores and creates each store at most once.  Whatever the
    collaborators answer, a store the node already holds is kept, and when
    it holds both no storage, cache or attribute store is created; a call
    that returns leaves the node holding both stores and has passed
    exactly these two to the handler's constructor, so that a second call
    creates nothing. *)
Theorem getDomainReqHandler_reuses_stores
    {W : Type} (V : Services W) `{MessageConstants} (s : Stores W) :
  (forall c : Obj,
     idrCache s = Some c ->
     idrCache (node_ofS (getDomainReqHandler V s)) = Some c)
  /\ (forall a : Obj,
      attributeStore_ref s = Some a ->
      attributeStore_ref (node_ofS (getDomainReqHandler V s)) = Some a)
  /\ (forall handler : Obj,
      result_ofS (getDomainReqHandler V s) = Ok handler ->
      (exists (c a domainLedger state config reqProcessors bls_store : Obj),
         idrCache (node_ofS (getDomainReqHandler V s)) = Some c
         /\ attributeStore_ref (node_ofS (getDomainReqHandler V s)) = Some a
         /\ last (trace_ofS (getDomainReqHandler V s)) =
              Some (ev_DomainReqHandler domainLedger state config
                      reqProcessors (Some c) (Some a) bls_store))
      /\ countS is_construction
           (trace_ofS (getDomainReqHandler V
                         (node_ofS (getDomainReqHandler V s)))) = 0%nat).
Proof.
  destruct (getDomainReqHandler_outcome V s)
    as (Hcache & Hstore & _ & Hbuilt).
  split; [exact Hcache | split; [exact Hstore |]].
  intros handler Hhandler.
  destruct (Hbuilt handler Hhandler)
    as (c & a & domainLedger & state & config & reqProcessors & bls_store
        & Hc & Ha & Hlast).
  split.
  - exists c, a, domainLedger, state, config, reqProcessors, bls_store.
    split; [exact Hc | split; [exact Ha | exact Hlast]].
  - destruct (getDomainReqHandler_outcome V
                (node_ofS (getDomainReqHandler V s)))
      as (_ & _ & Hnone & _).
    apply (Hnone c a); [exact Hc | exact Ha].
Qed.

(** Two calls on a fresh node: the second only builds the handler. *)
Lemma getDomainReqHandler_reuses_stores_witness :
  countS is_construction
    (trace_ofS (getDomainReqHandler sim_services
                  (node_ofS (getDomainReqHandler sim_services
                               (sim_fresh None))))) = 0%nat.
Proof.
  destruct (getDomainReqHandler_reuses_stores sim_services (sim_fresh None))
    as (_ & _ & Hbuilt).
  destruct (Hbuilt (object 4)) as [_ Hsecond]; [reflexivity |].
  exact Hsecond.
Defined.





Lemma closeAllKVStores_both {W : Type} (V : Services W) (s : Stores W)
    (c a : Obj) :
  idrCache s = Some c ->
  attributeStore_ref s = Some a ->
  (forall (o : Obj) (w : W), object_truth V o w = true) ->
  result_ofS (closeAllKVStores V s) = Ok tt ->
  trace_ofS (closeAllKVStores V s) =
    [ev_super_closeAllKVStores; ev_idrCache_close c; ev_attributeStore_close a].
Proof.
  destruct s as [w cache store]. cbn [idrCache attributeStore_ref].
  intros -> -> Htruth. unfold closeAllKVStores.
  rewrite bindS_call. cbn [services].
  destruct (PlenumNode_closeAllKVStores V w) as [[[]|e] w1]; outcomeS;
    [| discriminate].
  repeat nextS. rewrite Htruth. repeat nextS.
  destruct (IdrCache_close V c w1) as [[[]|e] w2]; outcomeS; [| discriminate].
  repeat nextS. rewrite Htruth. repeat nextS. reflexivity.
Qed.

(** X17: what [getDomainReqHandler] creates, [closeAllKVStores] closes.
    When every object is true, after a call of [getDomainReqHandler] that
    returned, a call of [closeAllKVStores] that returns has closed, after
    the stores of the base class, the identifier cache and then the
    attribute store that were passed to the handler. *)
Theorem closeAllKVStores_closes_the_handler_stores
    {W : Type} (V : Services W) `{MessageConstants} (s : Stores W)
    (handler : Obj) :
  (forall (o : Obj) (w : W), object_truth V o w = true) ->
  result_ofS (getDomainReqHandler V s) = Ok handler ->
  result_ofS (closeAllKVStores V (node_ofS (getDomainReqHandler V s))) = Ok tt ->
  exists (c a domainLedger state config reqProcessors bls_store : Obj),
    last (trace_ofS (getDomainReqHandler V s)) =
      Some (ev_DomainReqHandler domainLedger state config reqProcessors
              (Some c) (Some a) bls_store)
    /\ trace_ofS (closeAllKVStores V (node_ofS (getDomainReqHandler V s))) =
      [ev_super_closeAllKVStores; ev_idrCache_close c;
       ev_attributeStore_close a].
Proof.
  intros Htruth Hhandler Hclosed.
  destruct (getDomainReqHandler_outcome V s) as (_ & _ & _ & Hbuilt).
  destruct (Hbuilt handler Hhandler)
    as (c & a & domainLedger & state & config & reqProcessors & bls_store
        & Hc & Ha & Hlast).
  exists c, a, domainLedger, state, config, reqProcessors, bls_store.
  split; [exact Hlast |].
  apply closeAllKVStores_both; assumption.
Qed.

(** A fresh node builds its handler and is shut down. *)
Lemma closeAllKVStores_closes_the_handler_stores_witness :
  exists (c a domainLedger state config reqProcessors bls_store : Obj),
    last (trace_ofS (getDomainReqHandler sim_services (sim_fresh None))) =
      Some (ev_DomainReqHandler domainLedger state config reqProcessors
              (Some c) (Some a) bls_store)
    /\ trace_ofS (closeAllKVStores sim_services
                    (node_ofS (getDomainReqHandler sim_services
                                 (sim_fresh None)))) =
      [ev_super_closeAllKVStores; ev_idrCache_close c;
       ev_attributeStore_close a].
Proof.
  apply (closeAllKVStores_closes_the_handler_stores sim_services
           (sim_fresh None) (object 4)); reflexivity.
Defined.

(** ** Ledger statuses for a newly connected node *)

(** X18: [send_ledger_status_to_newly_connected_node] first lets the base
    class send its ledger statuses, and then sends the status of the
    config ledger exactly when the ledger registry says the domain ledger
    is synced; in any other state of the domain ledger nothing more is
    sent, and when the registry has no domain ledger the lookup raises
    KeyError after the base class has sent.  If the base class raises,
    the registry is not looked at. *)
Theorem config_ledger_status_sent_when_domain_synced
    {W : Type} (V : Services W) `{Constants} `{MessageConstants}
    (node_name : string) (s : Stores W) :
  (forall (e : Exn) (w1 : W),
     PlenumNode_send_ledger_status_to_newly_connected_node V node_name
       (services s) = (Raise e, w1) ->
     send_ledger_status_to_newly_connected_node V node_name s =
       (Raise e, with_services s w1,
        [ev_super_send_ledger_status_to_newly_connected_node node_name]))
  /\ (forall w1 : W,
     PlenumNode_send_ledger_status_to_newly_connected_node V node_name
       (services s) = (Ok tt, w1) ->
     (ledgerRegistry_state V w1 !! DOMAIN_LEDGER_ID = Some synced ->
        send_ledger_status_to_newly_connected_node V node_name s =
          ((PlenumNode_sendLedgerStatus V node_name CONFIG_LEDGER_ID w1).1,
           with_services s
             (PlenumNode_sendLedgerStatus V node_name CONFIG_LEDGER_ID w1).2,
           [ev_super_send_ledger_status_to_newly_connected_node node_name;
            ev_sendLedgerStatus node_name CONFIG_LEDGER_ID]))
     /\ (forall state : LedgerState,
        ledgerRegistry_state V w1 !! DOMAIN_LEDGER_ID = Some state ->
        state <> synced ->
        send_ledger_status_to_newly_connected_node V node_name s =
          (Ok tt, with_services s w1,
           [ev_super_send_ledger_status_to_newly_connected_node node_name]))
     /\ (ledgerRegistry_state V w1 !! DOMAIN_LEDGER_ID = None ->
        send_ledger_status_to_newly_connected_node V node_name s =
          (Raise (KeyError (PyInt DOMAIN_LEDGER_ID)), with_services s w1,
           [ev_super_send_ledger_status_to_newly_connected_node node_name])))
  /\ (countS is_sendLedgerStatus
        (trace_ofS (send_ledger_status_to_newly_connected_node V node_name s))
      <= 1)%nat.
Proof.
  split; [| split].
  - intros e w1 Hbase. unfold send_ledger_status_to_newly_connected_node.
    rewrite bindS_call, Hbase. reflexivity.
  - intros w1 Hbase. unfold send_ledger_status_to_newly_connected_node.
    rewrite bindS_call, Hbase. outcomeS. repeat nextS.
    unfold getitemZ. split; [| split].
    + intros Hsynced. rewrite Hsynced. rewrite bindS_lift.
      cbn [LedgerState_eqb]. unfold sendConfigLedgerStatus.
      rewrite callS_run. reflexivity.
    + intros state Hstate Hother. rewrite Hstate. rewrite bindS_lift.
      destruct state; try reflexivity. contradiction.
    + intros Hmissing. rewrite Hmissing. rewrite bindS_lift. reflexivity.
  - unfold send_ledger_status_to_newly_connected_node, sendConfigLedgerStatus.
    exploreS; cbn; lia.
Qed.

(** The domain ledger is synced; it is still syncing; it is not
    registered. *)
Lemma config_ledger_status_sent_when_domain_synced_witness :
  trace_ofS (send_ledger_status_to_newly_connected_node sim_services "Node2"
               (sim_fresh (Some synced))) =
    [ev_super_send_ledger_status_to_newly_connected_node "Node2";
     ev_sendLedgerStatus "Node2" 2]
  /\ send_ledger_status_to_newly_connected_node sim_services "Node2"
       (sim_fresh (Some syncing)) =
     (Ok tt, sim_fresh (Some syncing),
      [ev_super_send_ledger_status_to_newly_connected_node "Node2"])
  /\ result_ofS (send_ledger_status_to_newly_connected_node sim_services
                   "Node2" (sim_fresh None)) =
     Raise (KeyError (PyInt 1)).
Proof.
  split; [| split].
  - destruct (config_ledger_status_sent_when_domain_synced sim_services
                "Node2" (sim_fresh (Some synced))) as (_ & Hsent & _).
    destruct (Hsent (mkSimServices 0 (Some synced)) eq_refl) as (Hsynced & _).
    rewrite Hsynced; reflexivity.
  - destruct (config_ledger_status_sent_when_domain_synced sim_services
                "Node2" (sim_fresh (Some syncing))) as (_ & Hsent & _).
    destruct (Hsent (mkSimServices 0 (Some syncing)) eq_refl)
      as (_ & Hother & _).
    apply (Hother syncing); [reflexivity | discriminate].
  - destruct (config_ledger_status_sent_when_domain_synced sim_services
                "Node2" (sim_fresh None)) as (_ & Hsent & _).
    destruct (Hsent (mkSimServices 0 None) eq_refl) as (_ & _ & Hmissing).
    rewrite Hmissing; reflexivity.
Defined.

(** ** Messages from peers: validation and authentication agree *)

Lemma forallb_keys (msg : gmap string PyVal) (k1 k2 k3 : string) :
  forallb (has_key msg) [k1; k2; k3] = true <->
  has_key msg k1 = true /\ has_key msg k2 = true /\ has_key msg k3 = true.
Proof.
  cbn [forallb]. rewrite !andb_true_iff. tauto.
Qed.

Lemma validateNodeMsg_upgrade
    {W : Type} (V : Services W) `{Constants} `{MessageConstants}
    (msg op : gmap string PyVal) (frm : string) (s : Stores W) :
  msg !! OPERATION = Some (PyDict op) ->
  op !! TXN_TYPE = Some (PyStr NODE_UPGRADE) ->
  has_key msg f_IDENTIFIER_nm = true ->
  has_key msg f_REQ_ID_nm = true ->
  validateNodeMsg V msg frm s =
    (match (client_request_class V msg (services s)).1 with
     | Ok cMsg => Ok (node_request cMsg frm)
     | Raise e => Raise e
     end,
     with_services s (client_request_class V msg (services s)).2,
     [ev_client_request_class msg]).
Proof.
  intros Hop Htype Hidentifier HreqId. unfold validateNodeMsg.
  assert (Hkeys : forallb (has_key msg)
                    [OPERATION; f_IDENTIFIER_nm; f_REQ_ID_nm] = true).
  { apply forallb_keys. repeat split; try assumption.
    unfold has_key. rewrite Hop. reflexivity. }
  rewrite Hkeys. unfold dict_get. rewrite Hop. cbn [from_option id].
  repeat first [ rewrite bindS_assoc | rewrite bindS_lift
               | rewrite bindS_ret | progress cbv beta iota ].
  rewrite Htype. cbn [from_option id].
  rewrite py_eq_str_refl. rewrite bindS_call.
  destruct (client_request_class V msg (services s)) as [[cMsg|e] w1];
    reflexivity.
Qed.

Lemma validateNodeMsg_builds_only_upgrades
    {W : Type} (V : Services W) `{Constants} `{MessageConstants}
    (msg : gmap string PyVal) (frm : string) (s : Stores W) :
  countS is_client_request_class (trace_ofS (validateNodeMsg V msg frm s))
    <> 0%nat ->
  (exists op : gmap string PyVal,
     msg !! OPERATION = Some (PyDict op)
     /\ op !! TXN_TYPE = Some (PyStr NODE_UPGRADE))
  /\ has_key msg f_IDENTIFIER_nm = true
  /\ has_key msg f_REQ_ID_nm = true.
Proof.
  unfold validateNodeMsg.
  destruct (forallb (has_key msg) [OPERATION; f_IDENTIFIER_nm; f_REQ_ID_nm])
    eqn:Hkeys.
  - apply forallb_keys in Hkeys as (Hop & Hidentifier & HreqId).
    unfold has_key in Hop.
    unfold dict_get.
    destruct (msg !! OPERATION) as [v |] eqn:Hv; [| discriminate].
    cbn [from_option id].
    destruct v as [| b | z | str | l | op];
      try (rewrite bindS_assoc, bindS_lift, bindS_assoc, bindS_lift;
           intros Hbuilt; exfalso; apply Hbuilt; reflexivity).
    repeat first [ rewrite bindS_assoc | rewrite bindS_lift
                 | rewrite bindS_ret | progress cbv beta iota ].
    destruct (py_eq_str (default PyNone (op !! TXN_TYPE)) NODE_UPGRADE)
      eqn:Htype.
    + intros _. split; [| split; assumption].
      exists op. split; [reflexivity |].
      apply py_eq_str_true in Htype.
      destruct (op !! TXN_TYPE) as [t |]; cbn [from_option id] in Htype;
        [subst t; reflexivity | discriminate].
    + exploreS; intros Hbuilt; exfalso; apply Hbuilt; reflexivity.
  - rewrite bindS_ret.
    exploreS; intros Hbuilt; exfalso; apply Hbuilt; reflexivity.
Qed.

(** X19: validation and authentication of a message from a peer agree on
    what an upgrade message is.  Whenever [validateNodeMsg] builds a client
    request from a message, [authNr] selects the node authenticator for
    that message; and a message for which [authNr] selects the node
    authenticator is built into a request by [validateNodeMsg] as soon as
    it also has an identifier and a request id. *)
Theorem validateNodeMsg_agrees_with_authNr
    {W W' : Type} (V : Services W) (E : Collaborators W')
    `{Constants} `{MessageConstants}
    (msg : gmap string PyVal) (frm : string) (s : Stores W) (s' : Node W') :
  (countS is_client_request_class (trace_ofS (validateNodeMsg V msg frm s))
     <> 0%nat ->
   authNr E msg s' = (Ok nodeAuthNr, s', []))
  /\ (result_of (authNr E msg s') = Ok nodeAuthNr ->
      has_key msg f_IDENTIFIER_nm = true ->
      has_key msg f_REQ_ID_nm = true ->
      trace_ofS (validateNodeMsg V msg frm s) = [ev_client_request_class msg]
      /\ forall cMsg : Request,
           (client_request_class V msg (services s)).1 = Ok cMsg ->
           result_ofS (validateNodeMsg V msg frm s) =
             Ok (node_request cMsg frm)).
Proof.
  split.
  - intros Hbuilt.
    destruct (validateNodeMsg_builds_only_upgrades V msg frm s Hbuilt)
      as ((op & Hop & Htype) & _).
    apply (authNr_node_upgrade E msg s' op Hop Htype).
  - intros Hnode Hidentifier HreqId.
    destruct (authNr_nodeAuthNr_only_for_node_upgrade E msg s' Hnode)
      as (op & Hop & Htype).
    rewrite (validateNodeMsg_upgrade V msg op frm s Hop Htype
               Hidentifier HreqId).
    split; [reflexivity |].
    intros cMsg HcMsg. cbn [result_ofS fst]. rewrite HcMsg. reflexivity.
Qed.

(** The upgrade message of a peer. *)
Lemma validateNodeMsg_agrees_with_authNr_witness :
  authNr sim sim_upgrade_msg (sim_node sim0) =
    (Ok nodeAuthNr, sim_node sim0, [])
  /\ trace_ofS (validateNodeMsg sim_services sim_upgrade_msg "Node1"
                  (sim_fresh None)) =
     [ev_client_request_class sim_upgrade_msg].
Proof.
  destruct (validateNodeMsg_agrees_with_authNr sim_services sim
              sim_upgrade_msg "Node1" (sim_fresh None) (sim_node sim0))
    as [Hauth Hvalid].
  assert (Hnode : authNr sim sim_upgrade_msg (sim_node sim0) =
                    (Ok nodeAuthNr, sim_node sim0, [])).
  { apply Hauth. vm_compute. discriminate. }
  split; [exact Hnode |].
  destruct Hvalid as [Htrace _];
    [rewrite Hnode; reflexivity | reflexivity | reflexivity |].
  exact Htrace.
Defined.

(** X20: what [validateNodeMsg] leaves to the base class.  A message that
    lacks the operation, the identifier or the request id goes to the base
    class's validation, as does a message with all three whose operation
    is a dict of another type: the base class is called once with the same
    message and sender and its outcome is the method's; this holds for an
    incomplete message even when its type is NODE_UPGRADE and even when
    its operation is not a dict.  A message with all three fields whose
    operation is not a dict raises AttributeError before any call. *)
Theorem validateNodeMsg_defers_to_base
    {W : Type} (V : Services W) `{Constants} `{MessageConstants}
    (msg : gmap string PyVal) (frm : string) (s : Stores W) :
  let base :=
    (match (PlenumNode_validateNodeMsg V msg frm (services s)).1 with
     | Ok v => Ok (super_validated v)
     | Raise e => Raise e
     end,
     with_services s (PlenumNode_validateNodeMsg V msg frm (services s)).2,
     [ev_super_validateNodeMsg msg frm]) in
  (has_key msg OPERATION = false
   \/ has_key msg f_IDENTIFIER_nm = false
   \/ has_key msg f_REQ_ID_nm = false ->
   validateNodeMsg V msg frm s = base)
  /\ (forall op : gmap string PyVal,
      msg !! OPERATION = Some (PyDict op) ->
      op !! TXN_TYPE <> Some (PyStr NODE_UPGRADE) ->
      validateNodeMsg V msg frm s = base)
  /\ (forall v : PyVal,
      msg !! OPERATION = Some v ->
      (forall op : gmap string PyVal, v <> PyDict op) ->
      has_key msg f_IDENTIFIER_nm = true ->
      has_key msg f_REQ_ID_nm = true ->
      validateNodeMsg V msg frm s = (Raise AttributeError, s, [])).
Proof.
  intros base. subst base.
  assert (Hbase : forall k : MS W bool,
            k s = (Ok false, s, []) ->
            bindS k
              (fun upgrade : bool =>
                 if upgrade
                 then bindS (callS (ev_client_request_class msg)
                               (client_request_class V msg))
                        (fun cMsg => retS (node_request cMsg frm))
                 else bindS (callS (ev_super_validateNodeMsg msg frm)
                               (PlenumNode_validateNodeMsg V msg frm))
                        (fun v => retS (super_validated v))) s =
            (match (PlenumNode_validateNodeMsg V msg frm (services s)).1 with
             | Ok v => Ok (super_validated v)
             | Raise e => Raise e
             end,
             with_services s
               (PlenumNode_validateNodeMsg V msg frm (services s)).2,
             [ev_super_validateNodeMsg msg frm])).
  { intros k Hk. unfold bindS at 1. rewrite Hk.
    rewrite bindS_call.
    destruct (PlenumNode_validateNodeMsg V msg frm (services s))
      as [[v|e] w1]; reflexivity. }
  split; [| split].
  - intros Hmissing. unfold validateNodeMsg. apply Hbase.
    assert (Hkeys : forallb (has_key msg)
                      [OPERATION; f_IDENTIFIER_nm; f_REQ_ID_nm] = false).
    { apply not_true_iff_false. intros Hall.
      apply forallb_keys in Hall as (Hop & Hidentifier & HreqId).
      destruct Hmissing as [Hm | [Hm | Hm]]; congruence. }
    rewrite Hkeys. reflexivity.
  - intros op Hop Hother. unfold validateNodeMsg. apply Hbase.
    destruct (forallb (has_key msg) [OPERATION; f_IDENTIFIER_nm; f_REQ_ID_nm]);
      [| reflexivity].
    unfold dict_get. rewrite Hop. cbn [from_option id].
    rewrite bindS_lift, bindS_lift.
    destruct (py_eq_str (default PyNone (op !! TXN_TYPE)) NODE_UPGRADE)
      eqn:Htype; [| reflexivity].
    apply py_eq_str_true in Htype.
    destruct (op !! TXN_TYPE) as [t |]; cbn [from_option id] in Htype;
      [subst t; contradiction | discriminate].
  - intros v Hv Hnot_dict Hidentifier HreqId. unfold validateNodeMsg.
    assert (Hkeys : forallb (has_key msg)
                      [OPERATION; f_IDENTIFIER_nm; f_REQ_ID_nm] = true).
    { apply forallb_keys. repeat split; try assumption.
      unfold has_key. rewrite Hv. reflexivity. }
    rewrite Hkeys. unfold dict_get. rewrite Hv. cbn [from_option id].
    rewrite bindS_assoc, bindS_lift, bindS_assoc.
    destruct v; try (rewrite bindS_lift; reflexivity).
    exfalso. apply (Hnot_dict d). reflexivity.
Qed.

(** An upgrade message without request id, and a message whose operation
    is a string. *)
Lemma validateNodeMsg_defers_to_base_witness :
  validateNodeMsg sim_services sim_upgrade_msg_without_reqId "Node1"
    (sim_fresh None) =
    (Ok (super_validated PyNone), sim_fresh None,
     [ev_super_validateNodeMsg sim_upgrade_msg_without_reqId "Node1"])
  /\ validateNodeMsg sim_services sim_malformed_full_msg "Node1"
       (sim_fresh None) = (Raise AttributeError, sim_fresh None, []).
Proof.
  split.
  - destruct (validateNodeMsg_defers_to_base sim_services
                sim_upgrade_msg_without_reqId "Node1" (sim_fresh None))
      as (Hmissing & _).
    rewrite Hmissing; [reflexivity |]. right. right. reflexivity.
  - destruct (validateNodeMsg_defers_to_base sim_services
                sim_malformed_full_msg "Node1" (sim_fresh None))
      as (_ & _ & Hmalformed).
    apply (Hmalformed (PyStr "110"));
      [reflexivity | discriminate | reflexivity | reflexivity].
Defined.
